(** * Kubernetes combustion component: build-time configuration and the
      boot-time k3s multi-node installer

    Sources embedded here:
    - [pkg/combustion/kubernetes.go] (the build-time phase), as functions in
      a state-and-error monad over a file system and a journal of calls;
    - [pkg/combustion/templates/k3s-multi-node-installer.sh.tpl] (the
      boot-time phase): the template is a function from template values to a
      script, the script is a list of commands of a small shell, and the
      shell has an interpreter with [set -euo pipefail] semantics. *)

From Stdlib Require Import Ascii String.
From stdpp Require Import gmap strings list sorting pretty.

Set Warnings "-register-all".

(* ===================================================================== *)
(** * Strings and paths *)
(* ===================================================================== *)

(** The double-quote character, for the shell text. *)
Definition dq : string := String "034"%char EmptyString.

(** [strings.Contains(s, sub)]. *)
Fixpoint Contains (s sub : string) : bool :=
  String.prefix sub s ||
  match s with
  | EmptyString => false
  | String _ s' => Contains s' sub
  end.

(** [filepath.Join(elems...)]: empty elements are ignored and the others are
    joined with the separator. Go then applies [filepath.Clean]; the elements
    joined in this package are directory constants, directory-entry names and
    the context's directories, which are clean already, so [Clean] is left
    out. *)
Definition Join (elems : list string) : string :=
  String.concat "/" (filter (λ e, e ≠ "") elems).

(* ===================================================================== *)
(** * Image definition (package [image], as this package uses it) *)
(* ===================================================================== *)

(** [image.Node]: the two fields the templates read. [Type'] is the Go field
    [Type], a string; the image definition only admits ["server"] and
    ["agent"]. *)
Record Node := { Hostname : string; Type' : string }.

Definition KubernetesNodeTypeServer : string := "server".
Definition KubernetesNodeTypeAgent : string := "agent".

Definition is_node_type (r : string) : Prop :=
  r = KubernetesNodeTypeServer ∨ r = KubernetesNodeTypeAgent.

Record Network := { APIVIP : string; APIHost : string }.

Record Kubernetes := {
  Version : string;
  Nodes : list Node;
  Network_ : Network;
}.

Record Context := {
  ImageConfigDir : string;
  ArtefactsDir : string;
  CombustionDir : string;
  Arch : string;                      (* ImageDefinition.Image.Arch *)
  Kubernetes_ : Kubernetes;           (* ImageDefinition.Kubernetes *)
}.

(* ===================================================================== *)
(** * Template values *)
(* ===================================================================== *)

(** The values of a [map[string]any] as [configureK3S] and [configureRKE2]
    fill it: strings, and the node list under ["nodes"]. *)
Inductive Value :=
| VStr (s : string)
| VNodes (l : list Node).

(** Truth of a pipeline value in [{{ if }}] and [and]: the empty string, the
    empty slice and a missing key are false. *)
Definition truth (o : option Value) : bool :=
  match o with
  | Some (VStr s) => bool_decide (s ≠ "")
  | Some (VNodes l) => bool_decide (l ≠ [])
  | None => false
  end.

Definition show_node (n : Node) : string :=
  "{" +:+ Hostname n +:+ " " +:+ Type' n +:+ "}".

(** What [{{ .key }}] prints: the string itself; a missing key of a
    [map[string]any] prints as [<no value>]; a slice prints in Go's [%v]
    form. *)
Definition field (v : gmap string Value) (k : string) : string :=
  match v !! k with
  | Some (VStr s) => s
  | Some (VNodes l) => "[" +:+ String.concat " " (show_node <$> l) +:+ "]"
  | None => "<no value>"
  end.

(** What [{{ range .key }}] iterates over: a slice; a missing key acts as
    an empty one; a string cannot be iterated and the execution fails. *)
Definition range_nodes (v : gmap string Value) (k : string) : option (list Node) :=
  match v !! k with
  | Some (VNodes l) => Some l
  | Some (VStr _) => None
  | None => Some []
  end.

(* ===================================================================== *)
(** * A small shell: the commands the installer script is made of *)
(* ===================================================================== *)

Module Shell.

Inductive atom :=
| Lit (s : string)          (* literal text *)
| Var (x : string).         (* $x *)

(** A word is quoted ([Q], printed between double quotes) or unquoted
    ([U]). Values substituted by the template are taken to be plain shell
    words: no blanks, quotes or glob characters, so that quoting does not
    change what a word expands to. *)
Inductive word :=
| Q (atoms : list atom)
| U (atoms : list atom).

Inductive cond :=
| CEmpty (w : word)                (* [ ! w ] *)
| CEq (w1 w2 : word)               (* [ w1 = w2 ] *)
| COr (c1 c2 : cond)               (* c1 || c2 *)
| CIsFile (w : word).              (* [ -f w ] *)

Inductive cmd :=
| Text (line : string)                          (* shebang, blank line *)
| SetOpts                                       (* set -euo pipefail *)
| DeclareAssoc (a : string)                     (* declare -A a *)
| AssocSet (a k v : string)                     (* a[k]=v *)
| AssignCat (x file : string)                   (* x=$(cat file) *)
| AssignLookup (x a : string) (k : string) (dflt : string)
                                                (* x="${a[$k]:-dflt}" *)
| Assign (x : string) (w : word)                (* x=w *)
| ExportVar (x : string) (w : word)             (* export x=w *)
| Echo (w : word)                               (* echo w *)
| Exit (n : nat)                                (* exit n *)
| If (c : cond) (indent : nat) (body : list cmd)
                                     (* if c; then body fi, body indented *)
| Run (argv : list word)                        (* an external command *)
| HereDoc (file : string) (lines : list string) (* cat <<- EOF > file *)
| Append (w : word) (file : string).            (* echo w >> file *)

(** What the script does to the machine, in order. *)
Inductive effect :=
| EEcho (s : string)
| EExec (argv : list string)
| EWrite (file : string) (lines : list string)
| EAppend (file : string) (line : string).

(** The machine the script boots on. [cat f] is what [$(cat f)] yields
    (trailing newlines stripped), [None] when [cat] fails; [status argv] is
    the exit status of an external command; [writable f] says whether a
    redirection to [f] succeeds. *)
Record Machine := {
  cat : string → option string;
  status : list string → nat;
  is_file : string → bool;
  writable : string → bool;
}.

Record State := {
  vars : gmap string string;
  arrays : gmap string (gmap string string);
  trace : list effect;
}.

Definition init : State := {| vars := ∅; arrays := ∅; trace := [] |}.

Definition set_var (x v : string) (s : State) : State :=
  {| vars := <[x := v]> (vars s); arrays := arrays s; trace := trace s |}.

Definition set_array (a : string) (t : gmap string string) (s : State) : State :=
  {| vars := vars s; arrays := <[a := t]> (arrays s); trace := trace s |}.

Definition emit (e : effect) (s : State) : State :=
  {| vars := vars s; arrays := arrays s; trace := trace s ++ [e] |}.

(** Expansion; [None] is an unbound variable, fatal under [set -u]. *)
Definition expand_atom (s : State) (a : atom) : option string :=
  match a with
  | Lit t => Some t
  | Var x => vars s !! x
  end.

Fixpoint expand_atoms (s : State) (l : list atom) : option string :=
  match l with
  | [] => Some ""
  | a :: l' =>
      match expand_atom s a, expand_atoms s l' with
      | Some x, Some y => Some (x +:+ y)
      | _, _ => None
      end
  end.

Definition expand (s : State) (w : word) : option string :=
  match w with
  | Q l | U l => expand_atoms s l
  end.

Fixpoint expand_all (s : State) (ws : list word) : option (list string) :=
  match ws with
  | [] => Some []
  | w :: ws' =>
      match expand s w, expand_all s ws' with
      | Some x, Some xs => Some (x :: xs)
      | _, _ => None
      end
  end.

Fixpoint eval_cond (m : Machine) (s : State) (c : cond) : option bool :=
  match c with
  | CEmpty w => (λ x, bool_decide (x = "")) <$> expand s w
  | CEq w1 w2 =>
      match expand s w1, expand s w2 with
      | Some x, Some y => Some (bool_decide (x = y))
      | _, _ => None
      end
  | COr c1 c2 =>
      match eval_cond m s c1 with
      | Some true => Some true
      | Some false => eval_cond m s c2
      | None => None
      end
  | CIsFile w => is_file m <$> expand s w
  end.

(** A step either goes on ([None]) or ends the script with an exit status.
    Under [set -e] a failing command ends it with the command's status; an
    unbound variable ends it with status 1. *)
Definition step : Type := State * option nat.

Definition go_on (s : State) : step := (s, None).
Definition stop (n : nat) (s : State) : step := (s, Some n).

Fixpoint exec (m : Machine) (c : cmd) (s : State) : step :=
  match c with
  | Text _ | SetOpts => go_on s
  | DeclareAssoc a => go_on (set_array a ∅ s)
  | AssocSet a k v =>
      go_on (set_array a (<[k := v]> (default ∅ (arrays s !! a))) s)
  | AssignCat x file =>
      match cat m file with
      | Some out => go_on (set_var x out s)
      | None => stop 1 s
      end
  | AssignLookup x a k dflt =>
      match vars s !! k with
      | None => stop 1 s
      | Some key =>
          match default ∅ (arrays s !! a) !! key with
          | Some v => go_on (set_var x (if bool_decide (v = "") then dflt else v) s)
          | None => go_on (set_var x dflt s)
          end
      end
  | Assign x w | ExportVar x w =>
      match expand s w with
      | Some v => go_on (set_var x v s)
      | None => stop 1 s
      end
  | Echo w =>
      match expand s w with
      | Some v => go_on (emit (EEcho v) s)
      | None => stop 1 s
      end
  | Exit n => stop n s
  | If c _ body =>
      match eval_cond m s c with
      | None => stop 1 s
      | Some false => go_on s
      | Some true =>
          (fix exec_body (l : list cmd) (s : State) : step :=
             match l with
             | [] => go_on s
             | c' :: l' =>
                 match exec m c' s with
                 | (s', None) => exec_body l' s'
                 | stopped => stopped
                 end
             end) body s
      end
  | Run argv =>
      match expand_all s argv with
      | None => stop 1 s
      | Some args =>
          let s' := emit (EExec args) s in
          match status m args with
          | 0 => go_on s'
          | n => stop n s'
          end
      end
  | HereDoc file lines =>
      if writable m file then go_on (emit (EWrite file lines) s) else stop 1 s
  | Append w file =>
      match expand s w with
      | None => stop 1 s
      | Some v =>
          if writable m file then go_on (emit (EAppend file v) s) else stop 1 s
      end
  end.

Fixpoint exec_list (m : Machine) (l : list cmd) (s : State) : step :=
  match l with
  | [] => go_on s
  | c :: l' =>
      match exec m c s with
      | (s', None) => exec_list m l' s'
      | stopped => stopped
      end
  end.

(** A whole run: the final state and the script's exit status. *)
Definition run (m : Machine) (script : list cmd) : State * nat :=
  match exec_list m script init with
  | (s, Some n) => (s, n)
  | (s, None) => (s, 0)
  end.

(** Every command of a script, those inside [if] bodies included. *)
Fixpoint commands (c : cmd) : list cmd :=
  c :: match c with
       | If _ _ body => flat_map commands body
       | _ => []
       end.

Definition all_commands (script : list cmd) : list cmd :=
  flat_map commands script.

(** The file a command writes: the target of a redirection, or the
    destination (last argument) of a [cp]. *)
Definition literal (w : word) : option string :=
  match w with
  | Q [Lit t] | U [Lit t] => Some t
  | _ => None
  end.

Definition writes_to (file : string) (c : cmd) : bool :=
  match c with
  | HereDoc f _ | Append _ f => bool_decide (f = file)
  | Run (w :: args) =>
      bool_decide (literal w = Some "cp") &&
      bool_decide (last args ≫= literal = Some file)
  | _ => false
  end.

(** ** The text of a script *)

Definition print_atom (a : atom) : string :=
  match a with
  | Lit t => t
  | Var x => "$" +:+ x
  end.

Definition print_word (w : word) : string :=
  match w with
  | Q l => dq +:+ String.concat "" (print_atom <$> l) +:+ dq
  | U l => String.concat "" (print_atom <$> l)
  end.

Fixpoint print_cond (c : cond) : string :=
  match c with
  | CEmpty w => "[ ! " +:+ print_word w +:+ " ]"
  | CEq w1 w2 => "[ " +:+ print_word w1 +:+ " = " +:+ print_word w2 +:+ " ]"
  | COr c1 c2 => print_cond c1 +:+ " || " +:+ print_cond c2
  | CIsFile w => "[ -f " +:+ print_word w +:+ " ]"
  end.

Fixpoint blanks (n : nat) : string :=
  match n with
  | 0 => ""
  | S n' => " " +:+ blanks n'
  end.

Fixpoint print (c : cmd) : list string :=
  match c with
  | Text line => [line]
  | SetOpts => ["set -euo pipefail"]
  | DeclareAssoc a => ["declare -A " +:+ a]
  | AssocSet a k v => [a +:+ "[" +:+ k +:+ "]=" +:+ v]
  | AssignCat x file => [x +:+ "=$(cat " +:+ file +:+ ")"]
  | AssignLookup x a k dflt =>
      [x +:+ "=" +:+ dq +:+ "${" +:+ a +:+ "[$" +:+ k +:+ "]:-" +:+ dflt +:+ "}" +:+ dq]
  | Assign x w => [x +:+ "=" +:+ print_word w]
  | ExportVar x w => ["export " +:+ x +:+ "=" +:+ print_word w]
  | Echo w => ["echo " +:+ print_word w]
  | Exit n => ["exit " +:+ pretty n]
  | If c indent body =>
      ["if " +:+ print_cond c +:+ "; then"] ++
      (String.append (blanks indent) <$> flat_map print body) ++ ["fi"]
  | Run argv => [String.concat " " (print_word <$> argv)]
  | HereDoc file lines => ["cat <<- EOF > " +:+ file] ++ lines ++ ["EOF"]
  | Append w file => ["echo " +:+ print_word w +:+ " >> " +:+ file]
  end.

Definition text (script : list cmd) : list string := flat_map print script.

End Shell.

(* ===================================================================== *)
(** * The template [templates/k3s-multi-node-installer.sh.tpl] *)
(* ===================================================================== *)

Import Shell.

Definition lit (s : string) : word := U [Lit s].

(** Lines 42-60: the one-shot unit that applies the manifests. *)
Definition kubernetes_resources_install_unit : list string :=
  [ "[Unit]";
    "Description=Kubernetes Resources Install";
    "Requires=k3s.service";
    "After=k3s.service";
    "ConditionPathExists=/opt/bin/kubectl";
    "ConditionPathExists=/etc/rancher/k3s/k3s.yaml";
    "";
    "[Install]";
    "WantedBy=multi-user.target";
    "";
    "[Service]";
    "Type=oneshot";
    "Restart=on-failure";
    "RestartSec=60";
    "ExecStart=/opt/bin/kubectl apply -f /opt/eib-k8s/manifests --kubeconfig=/etc/rancher/k3s/k3s.yaml";
    "# Disable the service and clean up";
    "ExecStartPost=/bin/sh -c " +:+ dq +:+
      "systemctl disable kubernetes-resources-install.service" +:+ dq;
    "ExecStartPost=rm -f /etc/systemd/system/kubernetes-resources-install.service";
    "ExecStartPost=rm -rf /opt/eib-k8s" ].

Definition unit_file : string :=
  "/etc/systemd/system/kubernetes-resources-install.service".
Definition config_yaml : string := "/etc/rancher/k3s/config.yaml".
Definition hosts_file : string := "/etc/hosts".

(** Lines 6-8: one table entry per node, in the order of the list. *)
Definition hosts_entries (nodes : list Node) : list cmd :=
  (λ n, AssocSet "hosts" (Hostname n) (Type' n)) <$> nodes.

Definition missing_hostname_error : string :=
  "ERROR: Could not identify whether the host is a k3s server or agent due to missing hostname".

(** Lines 10-17. *)
Definition hostname_discovery : list cmd :=
  [ AssignCat "HOSTNAME" "/etc/hostname";
    If (CEmpty (Q [Var "HOSTNAME"])) 4
      [ AssignCat "HOSTNAME" "/proc/sys/kernel/hostname";
        If (COr (CEmpty (Q [Var "HOSTNAME"]))
                (CEq (Q [Var "HOSTNAME"]) (Q [Lit "localhost.localdomain"]))) 4
          [ Echo (Q [Lit missing_hostname_error]);
            Exit 1 ] ] ].

(** Lines 19-23. *)
Definition role_lookup : list cmd :=
  [ AssignLookup "NODETYPE" "hosts" "HOSTNAME" "none";
    If (CEq (Q [Var "NODETYPE"]) (Q [Lit "none"])) 4
      [ Echo (Q [Lit "ERROR: Could not identify whether host '"; Var "HOSTNAME";
                 Lit "' is a k3s server or agent"]);
        Exit 1 ] ].

(** Lines 25-30. *)
Definition image_staging (v : gmap string Value) : list cmd :=
  [ Run [lit "mount"; lit "/var"];
    Text "";
    Run [lit "mkdir"; lit "-p"; lit "/var/lib/rancher/k3s/agent/images/"];
    Run [lit "cp"; U [Lit (field v "imagesPath"); Lit "/*"];
         lit "/var/lib/rancher/k3s/agent/images/"];
    Text "";
    Run [lit "umount"; lit "/var"] ].

(** Lines 37-64, the body of [{{ if .manifestsPath }}]. *)
Definition manifests_install (v : gmap string Value) : list cmd :=
  if truth (v !! "manifestsPath") then
    [ Run [lit "mkdir"; lit "-p"; lit "/opt/eib-k8s/manifests"];
      Run [lit "cp"; U [Lit (field v "manifestsPath"); Lit "/*"];
           lit "/opt/eib-k8s/manifests/"];
      Text "";
      HereDoc unit_file kubernetes_resources_install_unit;
      Text "";
      Run [lit "systemctl"; lit "enable"; lit "kubernetes-resources-install.service"] ]
  else [].

(** Lines 32-65. The initialiser's name is substituted unquoted; were it
    empty the test would be malformed and false, as the comparison here is,
    the hostname being non-empty at this point. *)
Definition config_selection (v : gmap string Value) : list cmd :=
  [ Assign "CONFIGFILE"
      (U [Lit (field v "configFilePath"); Lit "/"; Var "NODETYPE"; Lit ".yaml"]);
    Text "";
    If (CEq (Q [Var "HOSTNAME"]) (lit (field v "initialiser"))) 0
      ([ Assign "CONFIGFILE"
           (U [Lit (field v "configFilePath"); Lit "/";
               Lit (field v "initialiserConfigFile")]);
         Text "";
         Text "" ] ++ manifests_install v) ].

(** Lines 67-69, [{{- if and .apiVIP .apiHost }}]: [and] yields its first
    empty argument, or else the last one. *)
Definition vip_host_entry (v : gmap string Value) : list cmd :=
  if truth (v !! "apiVIP") && truth (v !! "apiHost") then
    [ Append (Q [Lit (field v "apiVIP"); Lit " "; Lit (field v "apiHost")]) hosts_file ]
  else [].

(** Lines 71-87. *)
Definition runtime_installation (v : gmap string Value) : list cmd :=
  [ Text "";
    Run [lit "mkdir"; lit "-p"; lit "/etc/rancher/k3s/"];
    Run [lit "cp"; U [Var "CONFIGFILE"]; lit config_yaml];
    Text "";
    If (CIsFile (lit (field v "registryMirrors"))) 0
      [ Run [lit "cp"; lit (field v "registryMirrors");
             lit "/etc/rancher/k3s/registries.yaml"] ];
    Text "";
    ExportVar "INSTALL_K3S_EXEC" (U [Var "NODETYPE"]);
    ExportVar "INSTALL_K3S_SKIP_DOWNLOAD" (lit "true");
    ExportVar "INSTALL_K3S_SKIP_START" (lit "true");
    ExportVar "INSTALL_K3S_BIN_DIR" (lit "/opt/bin");
    Text "";
    Run [lit "mkdir"; lit "-p"; U [Var "INSTALL_K3S_BIN_DIR"]];
    Run [lit "cp"; lit (field v "binaryPath"); U [Var "INSTALL_K3S_BIN_DIR"; Lit "/k3s"]];
    Run [lit "chmod"; lit "+x"; U [Var "INSTALL_K3S_BIN_DIR"; Lit "/k3s"]];
    Text "";
    Run [lit "sh"; lit (field v "installScript")] ].

(** The whole template (the contents of the Go variable
    [k3sMultiNodeInstaller]), executed against the values [v]; [None] when
    the execution of the template fails. *)
Definition k3s_multi_node_installer (v : gmap string Value) : option (list cmd) :=
  nodes ← range_nodes v "nodes";
  Some ([ Text "#!/bin/bash"; SetOpts; Text ""; DeclareAssoc "hosts" ]
        ++ hosts_entries nodes
        ++ [ Text "" ] ++ hostname_discovery
        ++ [ Text "" ] ++ role_lookup
        ++ [ Text "" ] ++ image_staging v
        ++ [ Text "" ] ++ config_selection v
        ++ vip_host_entry v
        ++ runtime_installation v).

(** The hostname-to-role table the script embeds: a later entry for the same
    hostname replaces an earlier one. *)
Definition node_table (nodes : list Node) : gmap string string :=
  foldl (λ t n, <[Hostname n := Type' n]> t) ∅ nodes.

(** What [${hosts[$HOSTNAME]:-none}] yields for the hostname [h]: the entry
    of the table, or [none] when there is none or it is empty. *)
Definition node_type_of (t : gmap string string) (h : string) : string :=
  match t !! h with
  | Some v => if bool_decide (v = "") then "none" else v
  | None => "none"
  end.

Definition unknown_host_error (h : string) : string :=
  "ERROR: Could not identify whether host '" +:+ h +:+ "' is a k3s server or agent".

(** The script in two parts: up to the role of the node, and from there. *)
Definition resolution (nodes : list Node) : list cmd :=
  ([Text "#!/bin/bash"; SetOpts; Text ""; DeclareAssoc "hosts"] ++ hosts_entries nodes)
  ++ (Text "" :: hostname_discovery) ++ (Text "" :: role_lookup).

Definition installation (v : gmap string Value) : list cmd :=
  (Text "" :: image_staging v) ++ (Text "" :: config_selection v)
  ++ vip_host_entry v ++ runtime_installation v.

(** The configuration files a run has copied to the runtime's configuration
    path, [cp <file> /etc/rancher/k3s/config.yaml], in order. *)
Definition config_copied (e : effect) : option string :=
  match e with
  | EExec [c; f; d] =>
      if bool_decide (c = "cp") && bool_decide (d = config_yaml) then Some f else None
  | _ => None
  end.

Definition configs_placed (t : list effect) : list string := omap config_copied t.

(** The role's own file, the initialiser's file, and the one of the two the
    node with hostname [h] and role [r] is to use. *)
Definition role_config (v : gmap string Value) (r : string) : string :=
  field v "configFilePath" +:+ "/" +:+ r +:+ ".yaml".

Definition initialiser_config (v : gmap string Value) : string :=
  field v "configFilePath" +:+ "/" +:+ field v "initialiserConfigFile".

Definition selected_config (v : gmap string Value) (h r : string) : string :=
  if bool_decide (h = field v "initialiser") then initialiser_config v
  else role_config v r.

(* ===================================================================== *)
(** * Errors, the file system and the build monad *)
(* ===================================================================== *)

(** A Go result [(value, error)]: the error is its message. *)
Inductive result (A : Type) : Type :=
| Ok (a : A)
| Err (msg : string).
Arguments Ok {A} a.
Arguments Err {A} msg.

Definition is_ok {A} (r : result A) : bool :=
  match r with Ok _ => true | Err _ => false end.

(** [fmt.Errorf("<what>: %w", err)]. *)
Definition Errorf (what err : string) : string := what +:+ ": " +:+ err.

(** A file-system entry: a regular file (contents, executable bit) or a
    directory. The file system maps paths to entries. *)
Inductive Entry :=
| File (data : string) (executable : bool)
| Dir.

Abbreviation FS := (gmap string Entry).

Definition is_dir (fs : FS) (path : string) : bool :=
  match fs !! path with Some Dir => true | _ => false end.

Definition is_regular (fs : FS) (path : string) : bool :=
  match fs !! path with Some (File _ _) => true | _ => false end.

(** The proper ancestors of a path, outermost first: [a] and [a/b] for
    [a/b/c]. *)
Fixpoint ancestors_from (seen rest : string) : list string :=
  match rest with
  | EmptyString => []
  | String ch rest' =>
      (if bool_decide (ch = "/"%char) && bool_decide (seen ≠ "") then [seen] else [])
      ++ ancestors_from (seen +:+ String ch EmptyString) rest'
  end.

Definition ancestors (path : string) : list string := ancestors_from "" path.

Fixpoint strip_prefix (pre s : string) : option string :=
  match pre, s with
  | EmptyString, _ => Some s
  | String a pre', String b s' =>
      if bool_decide (a = b) then strip_prefix pre' s' else None
  | String _ _, EmptyString => None
  end.

(** [fs.DirEntry]. *)
Record DirEntry := { Name : string; IsDir : bool }.

(** The name under which [path] is an entry of the directory [dir]. *)
Definition entry_name (dir path : string) : option string :=
  match strip_prefix (dir +:+ "/") path with
  | Some base => if bool_decide (base ≠ "") && negb (Contains base "/")
                 then Some base else None
  | None => None
  end.

Definition entries_of (fs : FS) (dir : string) : list DirEntry :=
  merge_sort (λ a b, String.le (Name a) (Name b))
    (omap (λ kv, match entry_name dir kv.1 with
                 | Some base =>
                     Some {| Name := base;
                             IsDir := match kv.2 with Dir => true | _ => false end |}
                 | None => None
                 end)
          (map_to_list fs)).

(** The embedded templates, by the Go variable that holds their text. *)
Inductive Template :=
| rke2SingleNodeInstaller
| rke2MultiNodeInstaller
| k3sSingleNodeInstaller
| k3sMultiNodeInstaller
| k8sVIPManifest.

(** What a template is rendered against: a [map[string]any], or the struct
    of [kubernetesVIPManifest]. *)
Inductive TemplateData :=
| DataMap (values : gmap string Value)
| DataVIP (APIAddress : string) (RKE2 : bool).

(** The journal of a build: log lines, calls to the collaborators, and
    file-system operations, each with the file system as it was when the
    operation started. *)
Inductive Event :=
| Audit (msg : string)                       (* log.Audit *)
| AuditComponentSkipped (component : string)
| AuditComponentFailed (component : string)
| AuditComponentSuccessful (component : string)
| ZapInfo (msg : string)                     (* zap.S().Info *)
| ZapWarn (msg : string)                     (* zap.S().Warn *)
| CallNewCluster (configPath : string)
| CallDownloadInstallScript (distribution destPath : string)
| CallDownloadK3sArtefacts (arch version installPath imagesPath : string)
| CallDownloadRKE2Artefacts (arch version cni : string) (multusEnabled : bool)
                            (installPath imagesPath : string)
| CallHelmCharts
| CallParse (name : string) (contents : Template) (data : TemplateData)
| OpMkdirAll (path : string) (before : FS)
| OpWriteFile (path data : string) (before : FS)
| OpReadDir (path : string) (before : FS)
| OpReadFile (path : string) (before : FS).

(** A build step: from a file system to a result, the file system after it
    and the events of the step. *)
Definition M (A : Type) : Type := FS → result A * FS * list Event.

Definition ret {A} (a : A) : M A := λ fs, (Ok a, fs, []).
Definition fail {A} (msg : string) : M A := λ fs, (Err msg, fs, []).
Definition log (e : Event) : M unit := λ fs, (Ok tt, fs, [e]).

(** Run [m], then [k] on its result, error included. *)
Definition and_then {A B} (m : M A) (k : result A → M B) : M B :=
  λ fs, let r1 := m fs in
        let r2 := k r1.1.1 r1.1.2 in
        (r2.1.1, r2.1.2, r1.2 ++ r2.2).

(** [x, err := m; if err != nil { return ..., err }]. *)
Definition bind {A B} (m : M A) (k : A → M B) : M B :=
  and_then m (λ r, match r with Ok a => k a | Err e => fail e end).

(** [x, err := m; if err != nil { return ..., fmt.Errorf("<what>: %w", err) }]. *)
Definition bind_wrap {A B} (m : M A) (what : string) (k : A → M B) : M B :=
  and_then m (λ r, match r with Ok a => k a | Err e => fail (Errorf what e) end).

(** The same, with [log.AuditComponentFailed] before the return. *)
Definition bind_audit {A B} (m : M A) (component what : string) (k : A → M B) : M B :=
  and_then m (λ r, match r with
                   | Ok a => k a
                   | Err e => and_then (log (AuditComponentFailed component))
                                       (λ _, fail (Errorf what e))
                   end).

Declare Scope build_scope.
Delimit Scope build_scope with build.
Bind Scope build_scope with M.
Notation "x <~ m ;; k" := (bind m (λ x, k))
  (at level 100, m at next level, right associativity) : build_scope.
Notation "m ;; k" := (bind m (λ _, k))
  (at level 100, right associativity) : build_scope.
Notation "x <~ m 'or' what ;; k" := (bind_wrap m what (λ x, k))
  (at level 100, m at next level, what at next level, right associativity) : build_scope.
Notation "x <~ m 'or_audit' component , what ;; k" := (bind_audit m component what (λ x, k))
  (at level 100, m at next level, component at next level, what at next level,
   right associativity) : build_scope.
Open Scope build_scope.

(** ** Package [os] *)
Module os.

(** [os.MkdirAll]: a path that is a directory already is left alone; a
    regular file on the way is an error and nothing is created; otherwise
    the directory and its missing ancestors are created. *)
Definition MkdirAll (path : string) : M unit := λ fs,
  let dirs := ancestors path ++ [path] in
  if bool_decide (path = "") then
    (Err "mkdir : no such file or directory", fs, [OpMkdirAll path fs])
  else if existsb (is_regular fs) dirs then
    (Err ("mkdir " +:+ path +:+ ": not a directory"), fs, [OpMkdirAll path fs])
  else
    (Ok tt, foldr (λ d fs', <[d := Dir]> fs') fs dirs, [OpMkdirAll path fs]).

(** [os.WriteFile]: the directory of the file has to exist; a directory
    cannot be written; an existing file keeps its permissions. *)
Definition WriteFile (name data : string) (executable : bool) : M unit := λ fs,
  let parent_ok := match last (ancestors name) with
                   | Some d => is_dir fs d
                   | None => true
                   end in
  match fs !! name with
  | Some Dir =>
      (Err ("open " +:+ name +:+ ": is a directory"), fs, [OpWriteFile name data fs])
  | Some (File _ x) =>
      (Ok tt, <[name := File data x]> fs, [OpWriteFile name data fs])
  | None =>
      if parent_ok then
        (Ok tt, <[name := File data executable]> fs, [OpWriteFile name data fs])
      else
        (Err ("open " +:+ name +:+ ": no such file or directory"), fs,
         [OpWriteFile name data fs])
  end.

(** [os.ReadDir]: the entries of a directory, sorted by name. *)
Definition ReadDir (name : string) : M (list DirEntry) := λ fs,
  match fs !! name with
  | Some Dir => (Ok (entries_of fs name), fs, [OpReadDir name fs])
  | Some (File _ _) =>
      (Err ("open " +:+ name +:+ ": not a directory"), fs, [OpReadDir name fs])
  | None =>
      (Err ("open " +:+ name +:+ ": no such file or directory"), fs, [OpReadDir name fs])
  end.

Definition ReadFile (name : string) : M string := λ fs,
  match fs !! name with
  | Some (File data _) => (Ok data, fs, [OpReadFile name fs])
  | Some Dir =>
      (Err ("read " +:+ name +:+ ": is a directory"), fs, [OpReadFile name fs])
  | None =>
      (Err ("open " +:+ name +:+ ": no such file or directory"), fs, [OpReadFile name fs])
  end.

End os.

(** ** Package [fileio] *)
Module fileio.

Definition ExecutablePerms : bool := true.
Definition NonExecutablePerms : bool := false.

Fixpoint copy_entries (src dest : string) (entries : list DirEntry) : M unit :=
  match entries with
  | [] => ret tt
  | e :: rest =>
      (if IsDir e then ret tt
       else
         data <~ os.ReadFile (Join [src; Name e])
           or "copying file '" +:+ Join [src; Name e] +:+ "'" ;;
         os.WriteFile (Join [dest; Name e]) data NonExecutablePerms) ;;
      copy_entries src dest rest
  end.

(** Modelled from the spec: [fileio.CopyFiles] is in package [fileio], which
    is not among the sources. By section 4.3 the raw manifests are "copied
    verbatim" into the manifests directory, which "only the first
    contributor to have content" creates; the raw-manifest contributor is
    this call alone, so the copy makes the destination directory before it
    places the files. As called here (no extension filter, sub-directories
    not copied): every regular file of [src] is copied into [dest]. *)
Definition CopyFiles (src dest : string) : M unit :=
  entries <~ os.ReadDir src or "reading source dir" ;;
  _ <~ os.MkdirAll dest or "creating directory '" +:+ dest +:+ "'" ;;
  copy_entries src dest entries.

End fileio.

(* ===================================================================== *)
(** * [pkg/combustion/kubernetes.go] *)
(* ===================================================================== *)

Definition k8sComponentName : string := "kubernetes".

Definition k8sDir : string := "kubernetes".
Definition k8sConfigDir : string := "config".
Definition k8sInstallDir : string := "install".
Definition k8sImagesDir : string := "images".
Definition k8sManifestsDir : string := "manifests".

Definition helmDir : string := "helm".
Definition helmValuesDir : string := "values".
Definition helmCertsDir : string := "certs".

Definition k8sInitServerConfigFile : string := "init_server.yaml".
Definition k8sServerConfigFile : string := "server.yaml".
Definition k8sAgentConfigFile : string := "agent.yaml".

Definition k8sInstallScript : string := "20-k8s-install.sh".

(** A cluster configuration, [map[string]any] in Go; only serialised here. *)
Abbreviation Config := (gmap string string).

(** [kubernetes.Cluster]; a [nil] map is [None]. *)
Record Cluster := {
  InitialiserName : string;
  ServerConfig : Config;
  InitialiserConfig : option Config;
  AgentConfig : option Config;
}.

(** A Helm chart resource: its [Metadata.Name] and the rest of it. *)
Record HelmCRD := { Metadata_Name : string; Spec : string }.

(** The registry-mirror collaborator ([c.Registry], an interface). *)
Record Registry := {
  ManifestsPath : string;
  HelmCharts : result (list HelmCRD);
}.

(** The receiver [c *Combustion]: the collaborators it holds. A downloader
    works on the file system. *)
Record Combustion := {
  DownloadInstallScript : string → string → FS → result string * FS;
  DownloadK3sArtefacts : string → string → string → string → FS → result unit * FS;
  DownloadRKE2Artefacts :
    string → string → string → bool → string → string → FS → result unit * FS;
  Registry_ : option Registry;
}.

(** What the file takes from the packages [image], [kubernetes], [template]
    and [yaml] and from the other files of its own package, none of them
    among the sources. *)
Record Imports := {
  KubernetesDistroRKE2 : string;
  KubernetesDistroK3S : string;
  ServersCount : list Node → nat;
  NewCluster : Kubernetes → string → FS → result Cluster;
  ExtractCNI : Cluster → result (string * bool);
  Parse : string → Template → TemplateData → result string;   (* see template_Parse *)
  Marshal : Config → result string;
  MarshalChart : HelmCRD → result string;
  generateComponentPath : Context → string → string;
  artefactsRoot : string;
  registryMirrorsFileName : string;
}.

Section kubernetes_go.

Context (env : Imports) (c : Combustion).

(** Modelled from the spec: [prependArtefactPath] is in another file of the
    package. By section 4.2 the artefacts are under "artifact-root-relative
    paths"; the helper puts the root, as the script names it, in front of
    such a path. *)
Definition prependArtefactPath (path : string) : string :=
  Join [artefactsRoot env; path].

Definition kubernetesArtefactsPath (ctx : Context) : string :=
  Join [ArtefactsDir ctx; k8sDir].

Definition localKubernetesManifestsPath : string :=
  Join [k8sDir; k8sManifestsDir].

Definition KubernetesConfigPath (ctx : Context) : string :=
  Join [ImageConfigDir ctx; k8sDir; k8sConfigDir; k8sServerConfigFile].

Definition KubernetesManifestsPath (ctx : Context) : string :=
  Join [ImageConfigDir ctx; localKubernetesManifestsPath].

Definition HelmValuesPath (ctx : Context) : string :=
  Join [ImageConfigDir ctx; k8sDir; helmDir; helmValuesDir].

Definition HelmCertsPath (ctx : Context) : string :=
  Join [ImageConfigDir ctx; k8sDir; helmDir; helmCertsDir].

(** Modelled from the spec: [template.Parse] is in package [template], which
    is not among the sources. By section 4.4 the renderer renders a template
    against the values and a rendering failure is fatal; by section 8 the
    same template with the same values gives the same output. So: the
    function [Parse] of the template's name, its contents and the values, to
    the rendered text or an error; the call is in the journal and the file
    system is left alone. *)
Definition template_Parse (name : string) (contents : Template)
    (data : TemplateData) : M string := λ fs,
  (Parse env name contents data, fs, [CallParse name contents data]).

(** The other collaborators as build steps, each call in the journal. *)
Definition kubernetes_NewCluster (k : Kubernetes) (configPath : string)
    : M Cluster := λ fs,
  (NewCluster env k configPath fs, fs, [CallNewCluster configPath]).

Definition call_DownloadInstallScript (distribution destPath : string)
    : M string := λ fs,
  let r := DownloadInstallScript c distribution destPath fs in
  (r.1, r.2, [CallDownloadInstallScript distribution destPath]).

Definition call_DownloadK3sArtefacts (arch version installPath imagesPath : string)
    : M unit := λ fs,
  let r := DownloadK3sArtefacts c arch version installPath imagesPath fs in
  (r.1, r.2, [CallDownloadK3sArtefacts arch version installPath imagesPath]).

Definition call_DownloadRKE2Artefacts (arch version cni : string)
    (multusEnabled : bool) (installPath imagesPath : string) : M unit := λ fs,
  let r := DownloadRKE2Artefacts c arch version cni multusEnabled
             installPath imagesPath fs in
  (r.1, r.2,
   [CallDownloadRKE2Artefacts arch version cni multusEnabled installPath imagesPath]).

Definition call_HelmCharts (r : Registry) : M (list HelmCRD) := λ fs,
  (HelmCharts r, fs, [CallHelmCharts]).

Definition pure_result {A} (r : result A) : M A := λ fs, (r, fs, []).

Definition downloadKubernetesInstallScript (ctx : Context) (distribution : string)
    : M string :=
  let path := kubernetesArtefactsPath ctx in
  installScript <~ call_DownloadInstallScript distribution path
    or "downloading install script" ;;
  ret (prependArtefactPath (Join [k8sDir; installScript])).

Definition storeKubernetesInstaller (ctx : Context) (templateName : string)
    (templateContents : Template) (templateValues : TemplateData) : M string :=
  data <~ template_Parse templateName templateContents templateValues
    or "parsing '" +:+ templateName +:+ "' template" ;;
  let installScript := Join [CombustionDir ctx; k8sInstallScript] in
  _ <~ os.WriteFile installScript data fileio.ExecutablePerms
    or "writing kubernetes install script" ;;
  ret k8sInstallScript.

Definition show_entries (entries : list DirEntry) : string :=
  "[" +:+ String.concat " " (Name <$> entries) +:+ "]".

Definition downloadK3sArtefacts (ctx : Context) : M (string * string) :=
  let imagesPath := Join [k8sDir; k8sImagesDir] in
  let imagesDestination := Join [ArtefactsDir ctx; imagesPath] in
  _ <~ os.MkdirAll imagesDestination or "creating kubernetes images dir" ;;
  let installPath := Join [k8sDir; k8sInstallDir] in
  let installDestination := Join [ArtefactsDir ctx; installPath] in
  _ <~ os.MkdirAll installDestination or "creating kubernetes install dir" ;;
  _ <~ call_DownloadK3sArtefacts (Arch ctx) (Version (Kubernetes_ ctx))
         installDestination imagesDestination
    or "downloading artefacts" ;;
  entries <~ os.ReadDir installDestination or "reading k3s install path" ;;
  match entries with
  | [entry] =>
      if IsDir entry then
        fail ("k3s install path contains unexpected entries: " +:+ show_entries entries)
      else
        let binaryPath := Join [installPath; Name entry] in
        ret (prependArtefactPath binaryPath, prependArtefactPath imagesPath)
  | _ =>
      fail ("k3s install path contains unexpected entries: " +:+ show_entries entries)
  end.

Definition downloadRKE2Artefacts (ctx : Context) (cluster : Cluster)
    : M (string * string) :=
  cni <~ pure_result (ExtractCNI env cluster)
    or "extracting CNI from cluster config" ;;
  let imagesPath := Join [k8sDir; k8sImagesDir] in
  let imagesDestination := Join [ArtefactsDir ctx; imagesPath] in
  _ <~ os.MkdirAll imagesDestination or "creating kubernetes images dir" ;;
  let installPath := Join [k8sDir; k8sInstallDir] in
  let installDestination := Join [ArtefactsDir ctx; installPath] in
  _ <~ os.MkdirAll installDestination or "creating kubernetes install dir" ;;
  _ <~ call_DownloadRKE2Artefacts (Arch ctx) (Version (Kubernetes_ ctx))
         cni.1 cni.2 installDestination imagesDestination
    or "downloading artefacts" ;;
  ret (prependArtefactPath installPath, prependArtefactPath imagesPath).

Definition kubernetesVIPManifest (k : Kubernetes) : M string :=
  template_Parse "k8s-vip" k8sVIPManifest
    (DataVIP (APIVIP (Network_ k)) (Contains (Version k) (KubernetesDistroRKE2 env))).

Definition storeKubernetesConfig (config : Config) (configPath : string) : M unit :=
  data <~ pure_result (Marshal env config) or "serializing kubernetes config" ;;
  os.WriteFile configPath data fileio.NonExecutablePerms.

Definition storeKubernetesClusterConfig (cluster : Cluster) (destPath : string)
    : M unit :=
  let serverConfig := Join [destPath; k8sServerConfigFile] in
  _ <~ storeKubernetesConfig (ServerConfig cluster) serverConfig
    or "storing server config file" ;;
  _ <~ match InitialiserConfig cluster with
       | Some config =>
           let initialiserConfig := Join [destPath; k8sInitServerConfigFile] in
           _ <~ storeKubernetesConfig config initialiserConfig
             or "storing init server config file" ;;
           ret tt
       | None => ret tt
       end ;;
  _ <~ match AgentConfig cluster with
       | Some config =>
           let agentConfig := Join [destPath; k8sAgentConfigFile] in
           _ <~ storeKubernetesConfig config agentConfig
             or "storing agent config file" ;;
           ret tt
       | None => ret tt
       end ;;
  ret tt.

(** The loop over the charts, lines 407-417. *)
Fixpoint storeHelmCharts (manifestDestDir : string) (charts : list HelmCRD)
    : M unit :=
  match charts with
  | [] => ret tt
  | chart :: rest =>
      data <~ pure_result (MarshalChart env chart) or "marshaling helm chart" ;;
      let chartFileName := Metadata_Name chart +:+ ".yaml" in
      _ <~ os.WriteFile (Join [manifestDestDir; chartFileName]) data
             fileio.NonExecutablePerms
        or "storing helm chart" ;;
      storeHelmCharts manifestDestDir rest
  end.

(** [configureManifests]; each of the three parts yields the value of
    [manifestsPathPopulated] after it. *)
Definition configureManifests (ctx : Context) : M string :=
  let manifestsPath := localKubernetesManifestsPath in
  let manifestDestDir := Join [ArtefactsDir ctx; manifestsPath] in
  populated <~
    (if bool_decide (APIVIP (Network_ (Kubernetes_ ctx)) ≠ "") then
       _ <~ os.MkdirAll manifestDestDir or "creating manifests destination dir" ;;
       manifest <~ kubernetesVIPManifest (Kubernetes_ ctx) or "parsing VIP manifest" ;;
       let manifestPath := Join [manifestDestDir; "k8s-vip.yaml"] in
       _ <~ os.WriteFile manifestPath manifest fileio.NonExecutablePerms
         or "storing VIP manifest" ;;
       ret true
     else ret false) ;;
  populated <~
    match Registry_ c with
    | Some registry =>
        populated <~
          (if bool_decide (ManifestsPath registry ≠ "") then
             _ <~ fileio.CopyFiles (ManifestsPath registry) manifestDestDir
               or "copying manifests to combustion dir" ;;
             ret true
           else ret populated) ;;
        charts <~ call_HelmCharts registry or "getting helm charts" ;;
        if bool_decide (length charts ≠ 0) then
          _ <~ os.MkdirAll manifestDestDir or "creating manifests destination dir" ;;
          storeHelmCharts manifestDestDir charts ;;
          ret true
        else ret populated
    | None => ret populated
    end ;;
  if negb populated then ret ""
  else ret (prependArtefactPath manifestsPath).

Definition warn_k3s_single_node_vip : string :=
  "WARNING: A Virtual IP address for the k3s cluster has been provided. "
  +:+ "An external IP address for the Ingress Controller (Traefik) must be manually configured.".

Definition warn_k3s_multi_node : string :=
  "WARNING: An external IP address for the Ingress Controller (Traefik) must be manually configured in multi-node clusters.".

(** The map literal [templateValues] of [configureK3S], lines 148-157. *)
Definition k3sTemplateValues (ctx : Context) (installScript : string)
    (paths : string * string) (manifestsPath : string) : gmap string Value :=
  let k := Kubernetes_ ctx in
  list_to_map
    [ ("installScript", VStr installScript);
      ("apiVIP", VStr (APIVIP (Network_ k)));
      ("apiHost", VStr (APIHost (Network_ k)));
      ("binaryPath", VStr paths.1);
      ("imagesPath", VStr paths.2);
      ("manifestsPath", VStr manifestsPath);
      ("configFilePath", VStr (prependArtefactPath k8sDir));
      ("registryMirrors",
       VStr (prependArtefactPath (Join [k8sDir; registryMirrorsFileName env]))) ].

(** The map literal [templateValues] of [configureRKE2], lines 243-252. *)
Definition rke2TemplateValues (ctx : Context) (installScript : string)
    (paths : string * string) (manifestsPath : string) : gmap string Value :=
  let k := Kubernetes_ ctx in
  list_to_map
    [ ("installScript", VStr installScript);
      ("apiVIP", VStr (APIVIP (Network_ k)));
      ("apiHost", VStr (APIHost (Network_ k)));
      ("installPath", VStr paths.1);
      ("imagesPath", VStr paths.2);
      ("manifestsPath", VStr manifestsPath);
      ("configFilePath", VStr (prependArtefactPath k8sDir));
      ("registryMirrors",
       VStr (prependArtefactPath (Join [k8sDir; registryMirrorsFileName env]))) ].

Definition configureK3S (ctx : Context) (cluster : Cluster) : M string :=
  let k := Kubernetes_ ctx in
  log (ZapInfo "Configuring K3s cluster") ;;
  installScript <~ downloadKubernetesInstallScript ctx (KubernetesDistroK3S env)
    or "downloading k3s install script" ;;
  paths <~ downloadK3sArtefacts ctx or "downloading k3s artefacts" ;;
  manifestsPath <~ configureManifests ctx or "configuring kubernetes manifests" ;;
  let templateValues := k3sTemplateValues ctx installScript paths manifestsPath in
  let singleNode := bool_decide (length (Nodes k) < 2) in
  if singleNode then
    (if bool_decide (APIVIP (Network_ k) = "") then
       log (ZapInfo "Virtual IP address for k3s cluster is not provided and will not be configured")
     else
       log (Audit warn_k3s_single_node_vip) ;;
       log (ZapWarn "Virtual IP address for k3s cluster is requested and will invalidate Traefik configuration")) ;;
    storeKubernetesInstaller ctx "single-node-k3s" k3sSingleNodeInstaller
      (DataMap (<["configFile" := VStr k8sServerConfigFile]> templateValues))
  else
    log (Audit warn_k3s_multi_node) ;;
    log (ZapWarn "Virtual IP address for k3s cluster is necessary for multi node clusters and will invalidate Traefik configuration") ;;
    storeKubernetesInstaller ctx "multi-node-k3s" k3sMultiNodeInstaller
      (DataMap (<["initialiserConfigFile" := VStr k8sInitServerConfigFile]>
                (<["initialiser" := VStr (InitialiserName cluster)]>
                 (<["nodes" := VNodes (Nodes k)]> templateValues)))).

Definition configureRKE2 (ctx : Context) (cluster : Cluster) : M string :=
  let k := Kubernetes_ ctx in
  log (ZapInfo "Configuring RKE2 cluster") ;;
  installScript <~ downloadKubernetesInstallScript ctx (KubernetesDistroRKE2 env)
    or "downloading RKE2 install script" ;;
  paths <~ downloadRKE2Artefacts ctx cluster or "downloading RKE2 artefacts" ;;
  manifestsPath <~ configureManifests ctx or "configuring kubernetes manifests" ;;
  let templateValues := rke2TemplateValues ctx installScript paths manifestsPath in
  let singleNode := bool_decide (length (Nodes k) < 2) in
  if singleNode then
    (if bool_decide (APIVIP (Network_ k) = "") then
       log (ZapInfo "Virtual IP address for RKE2 cluster is not provided and will not be configured")
     else ret tt) ;;
    storeKubernetesInstaller ctx "single-node-rke2" rke2SingleNodeInstaller
      (DataMap (<["configFile" := VStr k8sServerConfigFile]> templateValues))
  else
    storeKubernetesInstaller ctx "multi-node-rke2" rke2MultiNodeInstaller
      (DataMap (<["initialiserConfigFile" := VStr k8sInitServerConfigFile]>
                (<["initialiser" := VStr (InitialiserName cluster)]>
                 (<["nodes" := VNodes (Nodes k)]> templateValues)))).

(** [kubernetesConfigurator]; [None] is the [nil] function. *)
Definition kubernetesConfigurator (version : string)
    : option (Context → Cluster → M string) :=
  if Contains version (KubernetesDistroRKE2 env) then Some configureRKE2
  else if Contains version (KubernetesDistroK3S env) then Some configureK3S
  else None.

Definition warn_two_servers : string :=
  "WARNING: Kubernetes clusters consisting of two server nodes cannot form a highly available architecture".

(** [configureKubernetes]; the [nil] slice is the empty list. *)
Definition configureKubernetes (ctx : Context) : M (list string) :=
  let version := Version (Kubernetes_ ctx) in
  if bool_decide (version = "") then
    log (AuditComponentSkipped k8sComponentName) ;;
    ret []
  else
    match kubernetesConfigurator version with
    | None =>
        log (AuditComponentFailed k8sComponentName) ;;
        fail ("cannot configure kubernetes version: " +:+ version)
    | Some configureFunc =>
        log (Audit "Configuring Kubernetes component...") ;;
        (if bool_decide (ServersCount env (Nodes (Kubernetes_ ctx)) = 2) then
           log (Audit warn_two_servers) ;;
           log (ZapWarn "Kubernetes cluster of two server nodes has been requested")
         else ret tt) ;;
        let configDir := generateComponentPath env ctx k8sDir in
        let configPath := Join [configDir; k8sConfigDir] in
        cluster <~ kubernetes_NewCluster (Kubernetes_ ctx) configPath
          or_audit k8sComponentName, "initialising cluster config" ;;
        let artefactsPath := kubernetesArtefactsPath ctx in
        _ <~ os.MkdirAll artefactsPath or "creating kubernetes artefacts path" ;;
        _ <~ storeKubernetesClusterConfig cluster artefactsPath
          or_audit k8sComponentName, "storing cluster config" ;;
        script <~ configureFunc ctx cluster
          or_audit k8sComponentName, "configuring kubernetes components" ;;
        log (AuditComponentSuccessful k8sComponentName) ;;
        ret [script]
    end.

End kubernetes_go.

(* ===================================================================== *)
(** * What a build leaves in its journal *)
(* ===================================================================== *)

(** [Imports] with another [ServersCount]. *)
Definition with_ServersCount (count : list Node → nat) (env : Imports) : Imports :=
  {| KubernetesDistroRKE2 := KubernetesDistroRKE2 env;
     KubernetesDistroK3S := KubernetesDistroK3S env;
     ServersCount := count;
     NewCluster := NewCluster env;
     ExtractCNI := ExtractCNI env;
     Parse := Parse env;
     Marshal := Marshal env;
     MarshalChart := MarshalChart env;
     generateComponentPath := generateComponentPath env;
     artefactsRoot := artefactsRoot env;
     registryMirrorsFileName := registryMirrorsFileName env |}.

(** The entries of a directory, when it is one. *)
Definition dir_listing (fs : FS) (dir : string) : option (list DirEntry) :=
  match fs !! dir with
  | Some Dir => Some (entries_of fs dir)
  | _ => None
  end.

(** [manifestDestDir] of [configureManifests]. *)
Definition manifestDestDir (ctx : Context) : string :=
  Join [ArtefactsDir ctx; localKubernetesManifestsPath].

(** Some contributor of [configureManifests] has content. *)
Definition has_content (c : Combustion) (ctx : Context) : Prop :=
  APIVIP (Network_ (Kubernetes_ ctx)) ≠ "" ∨
  ∃ registry, Registry_ c = Some registry ∧
    (ManifestsPath registry ≠ "" ∨
     ∃ charts, HelmCharts registry = Ok charts ∧ charts ≠ []).

(** What [configureManifests] may do: make the manifests directory, write
    into it while it exists, render the VIP manifest, read, and ask the
    registry for its charts. *)
Definition manifests_event (dir : string) (e : Event) : Prop :=
  match e with
  | OpMkdirAll path _ => path = dir
  | OpWriteFile path _ before =>
      is_dir before dir = true ∧ ∃ name, path = Join [dir; name]
  | CallParse _ contents _ => contents = k8sVIPManifest
  | OpReadDir _ _ | OpReadFile _ _ | CallHelmCharts => True
  | _ => False
  end.

(** An event other than the rendering of a template. *)
Definition no_parse (e : Event) : Prop :=
  match e with CallParse _ _ _ => False | _ => True end.

(** The rendering of an installer template. *)
Definition installer_parse (e : Event) : Prop :=
  match e with CallParse _ contents _ => contents ≠ k8sVIPManifest | _ => False end.

(** What the rendering of an installer looks like, for the templates [single]
    and [multi] of a distribution; [Pm] is what is known of the manifests
    path. *)
Definition installer_render (single multi : Template) (nodes : list Node)
    (initialiser : string) (Pm : string → Prop) (e : Event) : Prop :=
  match e with
  | CallParse _ contents data =>
      contents = k8sVIPManifest ∨
      ∃ values mp, data = DataMap values ∧
        Pm mp ∧ values !! "manifestsPath" = Some (VStr mp) ∧
        if bool_decide (length nodes < 2)
        then contents = single ∧ values !! "nodes" = None ∧
             values !! "initialiser" = None ∧
             values !! "initialiserConfigFile" = None
        else contents = multi ∧ values !! "nodes" = Some (VNodes nodes) ∧
             values !! "initialiser" = Some (VStr initialiser) ∧
             values !! "initialiserConfigFile" = Some (VStr k8sInitServerConfigFile)
  | _ => True
  end.

(** The rendering of an installer goes by the number of nodes: the template,
    and in a multi-node cluster the three more values. *)
Definition renders_by_node_count (single multi : Template) (ctx : Context)
    (cluster : Cluster) (evs : list Event) : Prop :=
  let nodes := Nodes (Kubernetes_ ctx) in
  ∀ name contents data,
    CallParse name contents data ∈ evs → contents ≠ k8sVIPManifest →
    (contents = single ↔ length nodes < 2) ∧
    (contents = multi ↔ 2 ≤ length nodes) ∧
    (2 ≤ length nodes →
     ∃ values, data = DataMap values ∧
       values !! "nodes" = Some (VNodes nodes) ∧
       values !! "initialiser" = Some (VStr (InitialiserName cluster)) ∧
       values !! "initialiserConfigFile" = Some (VStr k8sInitServerConfigFile)).

(** The renderings of an installer template in a journal, in order. *)
Definition installer_renderings (evs : list Event) : list Event :=
  List.filter (λ e, match e with
                    | CallParse _ k8sVIPManifest _ => false
                    | CallParse _ _ _ => true
                    | _ => false
                    end) evs.

(** The values of an installer go with the number of nodes: a multi-node
    installer gets the node list, the initialiser's name and the name of its
    configuration file, a single-node installer gets none of the three. *)
Definition values_by_node_count (ctx : Context) (cluster : Cluster)
    (values : gmap string Value) : Prop :=
  let nodes := Nodes (Kubernetes_ ctx) in
  if bool_decide (length nodes < 2) then
    values !! "nodes" = None ∧ values !! "initialiser" = None ∧
    values !! "initialiserConfigFile" = None
  else
    values !! "nodes" = Some (VNodes nodes) ∧
    values !! "initialiser" = Some (VStr (InitialiserName cluster)) ∧
    values !! "initialiserConfigFile" = Some (VStr k8sInitServerConfigFile).

(** A journal with one rendering of an installer: under the name and of the
    template that the number of nodes selects. *)
Definition renders_selected (single_name multi_name : string)
    (single multi : Template) (ctx : Context) (cluster : Cluster)
    (evs : list Event) : Prop :=
  let single_node := bool_decide (length (Nodes (Kubernetes_ ctx)) < 2) in
  ∃ values,
    installer_renderings evs =
      [ CallParse (if single_node then single_name else multi_name)
                  (if single_node then single else multi) (DataMap values) ] ∧
    values_by_node_count ctx cluster values.

(** [spec P m Q E]: started in a file system that satisfies [P], every event
    of [m] satisfies [E], and when [m] succeeds its value and the file system
    it leaves satisfy [Q]. *)
Definition spec {A} (P : FS → Prop) (m : M A) (Q : A → FS → Prop)
    (E : Event → Prop) : Prop :=
  ∀ fs r fs' evs, P fs → m fs = (r, fs', evs) →
    Forall E evs ∧ ∀ a, r = Ok a → Q a fs'.

(** [reaches m T]: a successful run of [m] has an event that satisfies [T]. *)
Definition reaches {A} (m : M A) (T : Event → Prop) : Prop :=
  ∀ fs a fs' evs, m fs = (Ok a, fs', evs) → Exists T evs.

(* ===================================================================== *)
(** * What a boot leaves in its trace *)
(* ===================================================================== *)

(** What a list of effects leaves of itself under [set -e]: the effects that
    happened, and the status that stopped the script, if one did. A command
    that fails is in the trace and stops the script with its status; a
    redirection that fails writes nothing and stops it with status 1. *)
Fixpoint played (m : Machine) (effects : list effect) : list effect * option nat :=
  match effects with
  | [] => ([], None)
  | e :: rest =>
      let go := let '(done, stopped) := played m rest in (e :: done, stopped) in
      match e with
      | EEcho _ => go
      | EExec argv =>
          match status m argv with
          | 0 => go
          | n => ([e], Some n)
          end
      | EWrite file _ | EAppend file _ =>
          if writable m file then go else ([], Some 1)
      end
  end.

(** The effects of the script's parts, lines 25-30, 37-64, 67-69, 71-76 and
    83-87, when every command succeeds. *)
Definition staging_effects (v : gmap string Value) : list effect :=
  [ EExec ["mount"; "/var"];
    EExec ["mkdir"; "-p"; "/var/lib/rancher/k3s/agent/images/"];
    EExec ["cp"; field v "imagesPath" +:+ "/*"; "/var/lib/rancher/k3s/agent/images/"];
    EExec ["umount"; "/var"] ].

Definition manifests_effects (v : gmap string Value) : list effect :=
  if truth (v !! "manifestsPath") then
    [ EExec ["mkdir"; "-p"; "/opt/eib-k8s/manifests"];
      EExec ["cp"; field v "manifestsPath" +:+ "/*"; "/opt/eib-k8s/manifests/"];
      EWrite unit_file kubernetes_resources_install_unit;
      EExec ["systemctl"; "enable"; "kubernetes-resources-install.service"] ]
  else [].

Definition selection_effects (v : gmap string Value) (h : string) : list effect :=
  if bool_decide (h = field v "initialiser") then manifests_effects v else [].

Definition hosts_effects (v : gmap string Value) : list effect :=
  if truth (v !! "apiVIP") && truth (v !! "apiHost") then
    [ EAppend hosts_file (field v "apiVIP" +:+ " " +:+ field v "apiHost") ]
  else [].

Definition config_effects (m : Machine) (v : gmap string Value) (cf : string)
    : list effect :=
  [ EExec ["mkdir"; "-p"; "/etc/rancher/k3s/"];
    EExec ["cp"; cf; config_yaml] ] ++
  (if is_file m (field v "registryMirrors") then
     [ EExec ["cp"; field v "registryMirrors"; "/etc/rancher/k3s/registries.yaml"] ]
   else []).

Definition install_effects (v : gmap string Value) : list effect :=
  [ EExec ["mkdir"; "-p"; "/opt/bin"];
    EExec ["cp"; field v "binaryPath"; "/opt/bin/k3s"];
    EExec ["chmod"; "+x"; "/opt/bin/k3s"];
    EExec ["sh"; field v "installScript"] ].

(** What the node with hostname [h] and role [r] does once its role is
    known. *)
Definition boot_effects (m : Machine) (v : gmap string Value) (h r : string)
    : list effect :=
  staging_effects v ++ selection_effects v h ++ hosts_effects v ++
  config_effects m v (selected_config v h r) ++ install_effects v.

(** What the script does once it has settled on the hostname [h]: the role
    is looked up for [h]; without a role the script says so and ends with
    status 1, with a role it plays the effects of [boot_effects] for [h]. *)
Definition boots_as (m : Machine) (v : gmap string Value) (nodes : list Node)
    (st : State) (code : nat) (h : string) : Prop :=
  let r := node_type_of (node_table nodes) h in
  vars st !! "HOSTNAME" = Some h ∧ vars st !! "NODETYPE" = Some r ∧
  if bool_decide (r = "none")
  then code = 1 ∧ trace st = [EEcho (unknown_host_error h)]
  else trace st = (played m (boot_effects m v h r)).1 ∧
       (played m (boot_effects m v h r)).2 = match code with 0 => None | n => Some n end.

(** The variables the script exports for the install script. *)
Definition exported : list string :=
  [ "INSTALL_K3S_EXEC"; "INSTALL_K3S_SKIP_DOWNLOAD"; "INSTALL_K3S_SKIP_START";
    "INSTALL_K3S_BIN_DIR" ].

(* ===================================================================== *)
(** * More of the journal *)
(* ===================================================================== *)

(** The audit line that says how the component ended. *)
Definition outcome (e : Event) : bool :=
  match e with
  | AuditComponentSkipped _ | AuditComponentFailed _ | AuditComponentSuccessful _ => true
  | _ => false
  end.

(** An event of configuring the distribution [rke2] (RKE2 when true, k3s
    when false): the install script of that distribution, its artefact
    downloader and its installer templates. *)
Definition of_distribution (env : Imports) (rke2 : bool) (e : Event) : Prop :=
  match e with
  | CallDownloadInstallScript distribution _ =>
      distribution = if rke2 then KubernetesDistroRKE2 env else KubernetesDistroK3S env
  | CallDownloadK3sArtefacts _ _ _ _ => rke2 = false
  | CallDownloadRKE2Artefacts _ _ _ _ _ _ => rke2 = true
  | CallParse _ contents _ =>
      contents = k8sVIPManifest ∨
      contents = (if rke2 then rke2SingleNodeInstaller else k3sSingleNodeInstaller) ∨
      contents = (if rke2 then rke2MultiNodeInstaller else k3sMultiNodeInstaller)
  | _ => True
  end.

(** An event of [configureK3S] or [configureRKE2]: of the distribution, and
    neither an outcome nor the computation of the cluster. *)
Definition configure_event (env : Imports) (rke2 : bool) (e : Event) : Prop :=
  of_distribution env rke2 e ∧ outcome e = false ∧
  match e with CallNewCluster _ => False | _ => True end.

(** The outcome lines of a journal. *)
Definition outcomes (evs : list Event) : list Event := List.filter outcome evs.

(** The string values the template [k3s-multi-node-installer.sh.tpl] reads,
    in the order of their first use; it also ranges over [nodes]. *)
Definition k3s_multi_node_keys : list string :=
  [ "imagesPath"; "configFilePath"; "initialiser"; "initialiserConfigFile";
    "manifestsPath"; "apiVIP"; "apiHost"; "registryMirrors"; "binaryPath";
    "installScript" ].

(** A rendering of an installer whose name, template and values satisfy
    [P]; the rendering of the VIP manifest is left aside. *)
Definition renders (P : string → Template → gmap string Value → Prop) (e : Event)
    : Prop :=
  match e with
  | CallParse name contents data =>
      contents = k8sVIPManifest ∨ ∃ values, data = DataMap values ∧ P name contents values
  | _ => True
  end.

(** What [configureK3S] renders, lines 148-181. *)
Definition k3s_installer (env : Imports) (ctx : Context) (cluster : Cluster)
    (name : string) (contents : Template) (values : gmap string Value) : Prop :=
  ∃ installScript paths manifestsPath,
    let base := k3sTemplateValues env ctx installScript paths manifestsPath in
    if bool_decide (length (Nodes (Kubernetes_ ctx)) < 2) then
      name = "single-node-k3s" ∧ contents = k3sSingleNodeInstaller ∧
      values = <["configFile" := VStr k8sServerConfigFile]> base
    else
      name = "multi-node-k3s" ∧ contents = k3sMultiNodeInstaller ∧
      values = <["initialiserConfigFile" := VStr k8sInitServerConfigFile]>
                 (<["initialiser" := VStr (InitialiserName cluster)]>
                    (<["nodes" := VNodes (Nodes (Kubernetes_ ctx))]> base)).

(** What [configureRKE2] renders, lines 243-269; the two paths are those
    [downloadRKE2Artefacts] returns. *)
Definition rke2_installer (env : Imports) (ctx : Context) (cluster : Cluster)
    (name : string) (contents : Template) (values : gmap string Value) : Prop :=
  ∃ installScript manifestsPath,
    let paths := (prependArtefactPath env (Join [k8sDir; k8sInstallDir]),
                  prependArtefactPath env (Join [k8sDir; k8sImagesDir])) in
    let base := rke2TemplateValues env ctx installScript paths manifestsPath in
    if bool_decide (length (Nodes (Kubernetes_ ctx)) < 2) then
      name = "single-node-rke2" ∧ contents = rke2SingleNodeInstaller ∧
      values = <["configFile" := VStr k8sServerConfigFile]> base
    else
      name = "multi-node-rke2" ∧ contents = rke2MultiNodeInstaller ∧
      values = <["initialiserConfigFile" := VStr k8sInitServerConfigFile]>
                 (<["initialiser" := VStr (InitialiserName cluster)]>
                    (<["nodes" := VNodes (Nodes (Kubernetes_ ctx))]> base)).

(** An event of [configureRKE2]: no warning, and the installer as above. *)
Definition rke2_event (env : Imports) (ctx : Context) (cluster : Cluster) (e : Event)
    : Prop :=
  match e with
  | Audit _ | ZapWarn _ => False
  | _ => renders (rke2_installer env ctx cluster) e
  end.

(** The warnings of [configureK3S], lines 159-175: the one of a multi-node
    cluster, and the one of a single node with a VIP. *)
Definition k3s_warning (ctx : Context) (e : Event) : Prop :=
  let k := Kubernetes_ ctx in
  match e with
  | Audit msg =>
      msg = warn_k3s_multi_node ∧ 2 ≤ length (Nodes k) ∨
      msg = warn_k3s_single_node_vip ∧ length (Nodes k) < 2 ∧ APIVIP (Network_ k) ≠ ""
  | _ => True
  end.

(* ===================================================================== *)
(** * A three-node cluster, to run the definitions on *)
(* ===================================================================== *)

Definition newline : string := String "010"%char EmptyString.

(** Section 8 of the specification: [node-1] is the server and initialiser,
    [node-2] and [node-3] are agents. *)
Definition example_nodes : list Node :=
  [ {| Hostname := "node-1"; Type' := "server" |};
    {| Hostname := "node-2"; Type' := "agent" |};
    {| Hostname := "node-3"; Type' := "agent" |} ].

Definition two_servers : list Node :=
  [ {| Hostname := "node-1"; Type' := "server" |};
    {| Hostname := "node-2"; Type' := "server" |};
    {| Hostname := "node-3"; Type' := "agent" |} ].

Definition one_server : list Node :=
  [ {| Hostname := "node-1"; Type' := "server" |} ].

Definition example_values : gmap string Value :=
  list_to_map
    [ ("installScript", VStr "$ARTEFACTS_DIR/kubernetes/install.sh");
      ("apiVIP", VStr "192.168.100.1");
      ("apiHost", VStr "api.cluster");
      ("binaryPath", VStr "$ARTEFACTS_DIR/kubernetes/install/k3s");
      ("imagesPath", VStr "$ARTEFACTS_DIR/kubernetes/images");
      ("manifestsPath", VStr "$ARTEFACTS_DIR/kubernetes/manifests");
      ("configFilePath", VStr "$ARTEFACTS_DIR/kubernetes");
      ("registryMirrors", VStr "$ARTEFACTS_DIR/kubernetes/registries.yaml");
      ("nodes", VNodes example_nodes);
      ("initialiser", VStr "node-1");
      ("initialiserConfigFile", VStr "init_server.yaml") ].

Definition example_script : list cmd :=
  default [] (k3s_multi_node_installer example_values).

(** A machine on which every command succeeds, with the given contents of
    [/etc/hostname] and of the kernel's hostname. *)
Definition boot_as (hostname kernel : string) : Machine :=
  {| cat := λ f, if bool_decide (f = "/etc/hostname") then Some hostname
                 else if bool_decide (f = "/proc/sys/kernel/hostname") then Some kernel
                 else None;
     status := λ _, 0;
     is_file := λ _, true;
     writable := λ _, true |}.

(** A renderer for the examples: the k3s multi-node template is the one
    above, printed; any other template is a stub. *)
Definition example_Parse (name : string) (contents : Template) (data : TemplateData)
    : result string :=
  match contents, data with
  | k3sMultiNodeInstaller, DataMap values =>
      match k3s_multi_node_installer values with
      | Some script => Ok (String.concat newline (text script))
      | None => Err "template: range can't iterate over nodes"
      end
  | _, _ => Ok ("# " +:+ name)
  end.

Definition example_imports : Imports :=
  {| KubernetesDistroRKE2 := "rke2";
     KubernetesDistroK3S := "k3s";
     ServersCount := λ nodes,
       length (filter (λ n, Type' n = KubernetesNodeTypeServer) nodes);
     NewCluster := λ k _ _,
       Ok {| InitialiserName := default "" (Hostname <$> head (Nodes k));
             ServerConfig := ∅;
             InitialiserConfig :=
               if bool_decide (length (Nodes k) < 2) then None else Some ∅;
             AgentConfig :=
               if bool_decide (length (Nodes k) < 2) then None else Some ∅ |};
     ExtractCNI := λ _, Ok ("cilium", false);
     Parse := example_Parse;
     Marshal := λ _, Ok "{}";
     MarshalChart := λ chart, Ok (Spec chart);
     generateComponentPath := λ ctx dir, Join [ImageConfigDir ctx; dir];
     artefactsRoot := "$ARTEFACTS_DIR";
     registryMirrorsFileName := "registries.yaml" |}.

Definition example_registry : Registry :=
  {| ManifestsPath := "/registry/manifests";
     HelmCharts := Ok [ {| Metadata_Name := "metallb"; Spec := "kind: HelmChart" |} ] |}.

Definition empty_registry : Registry :=
  {| ManifestsPath := ""; HelmCharts := Ok [] |}.

(** Downloaders that put the files where the artefacts go; the k3s
    downloader puts one binary for each name of [binaries]. *)
Definition combustion_with (binaries : list string) (registry : option Registry)
    : Combustion :=
  {| DownloadInstallScript := λ _ destPath fs,
       (Ok "install.sh", <[Join [destPath; "install.sh"] := File "#!/bin/sh" true]> fs);
     DownloadK3sArtefacts := λ _ _ installPath imagesPath fs,
       (Ok tt,
        foldr (λ name fs', <[Join [installPath; name] := File "ELF" true]> fs')
          (<[Join [imagesPath; "k3s-airgap-images.tar.zst"] := File "images" false]> fs)
          binaries);
     DownloadRKE2Artefacts := λ _ _ _ _ installPath imagesPath fs,
       (Ok tt, <[Join [installPath; "rke2.tar.gz"] := File "tarball" false]> fs);
     Registry_ := registry |}.

Definition example_combustion (registry : option Registry) : Combustion :=
  combustion_with ["k3s"] registry.

Definition example_context (version : string) (nodes : list Node) (vip : string)
    : Context :=
  {| ImageConfigDir := "/config";
     ArtefactsDir := "/build/artefacts";
     CombustionDir := "/build/combustion";
     Arch := "x86_64";
     Kubernetes_ := {| Version := version; Nodes := nodes;
                       Network_ := {| APIVIP := vip; APIHost := "api.cluster" |} |} |}.

Definition example_multi_node : Context :=
  example_context "v1.29.0+k3s1" example_nodes "192.168.100.1".

Definition example_fs : FS :=
  {[ "/build" := Dir; "/build/artefacts" := Dir; "/build/combustion" := Dir;
     "/registry" := Dir; "/registry/manifests" := Dir;
     "/registry/manifests/ns.yaml" := File "kind: Namespace" false ]}.

Definition example_cluster : Cluster :=
  {| InitialiserName := "node-1"; ServerConfig := ∅;
     InitialiserConfig := Some ∅; AgentConfig := Some ∅ |}.

(** The machine [m], on which the command [bad] fails with status [n]. *)
Definition failing_on (bad : list string) (n : nat) (m : Machine) : Machine :=
  {| cat := cat m;
     status := λ argv, if bool_decide (argv = bad) then n else status m argv;
     is_file := is_file m;
     writable := writable m |}.

(** A cluster definition that names [node-2] twice. *)
Definition renamed_nodes : list Node :=
  [ {| Hostname := "node-1"; Type' := "server" |};
    {| Hostname := "node-2"; Type' := "server" |};
    {| Hostname := "node-2"; Type' := "agent" |} ].

(** The copy of the images, as the example script has it. *)
Definition copy_images : list string :=
  ["cp"; "$ARTEFACTS_DIR/kubernetes/images/*"; "/var/lib/rancher/k3s/agent/images/"].

(** The example values for the cluster that names [node-2] twice. *)
Definition renamed_values : gmap string Value :=
  <["nodes" := VNodes renamed_nodes]> example_values.

Definition renamed_script : list cmd :=
  default [] (k3s_multi_node_installer renamed_values).

(** [Imports] with a [NewCluster] that fails. *)
Definition without_cluster (msg : string) (env : Imports) : Imports :=
  {| KubernetesDistroRKE2 := KubernetesDistroRKE2 env;
     KubernetesDistroK3S := KubernetesDistroK3S env;
     ServersCount := ServersCount env;
     NewCluster := λ _ _ _, Err msg;
     ExtractCNI := ExtractCNI env;
     Parse := Parse env;
     Marshal := Marshal env;
     MarshalChart := MarshalChart env;
     generateComponentPath := generateComponentPath env;
     artefactsRoot := artefactsRoot env;
     registryMirrorsFileName := registryMirrorsFileName env |}.

Definition example_rke2 : Context :=
  example_context "v1.29.0+rke2r1" example_nodes "".

(** The example file system with the artefacts directory of the component. *)
Definition example_artefacts_fs : FS :=
  <["/build/artefacts/kubernetes" := Dir]> example_fs.

(** A registry whose manifests path is a directory without a file, in a file
    system that has the directory. *)
Definition bare_registry : Registry :=
  {| ManifestsPath := "/registry/bare"; HelmCharts := Ok [] |}.

Definition bare_fs : FS := <["/registry/bare" := Dir]> example_fs.

(* ===================================================================== *)
(** * The boot-time script *)
(* ===================================================================== *)

Lemma append_empty_r (s : string) : s +:+ "" = s.
Proof. induction s as [|a s IH]; [done|]. change (String a (s +:+ "") = String a s). by rewrite IH. Qed.

Lemma exec_list_app m l1 l2 s :
  exec_list m (l1 ++ l2) s =
  match exec_list m l1 s with
  | (s', None) => exec_list m l2 s'
  | stopped => stopped
  end.
Proof.
  revert s. induction l1 as [|c l1 IH]; intros s; simpl; [done|].
  destruct (exec m c s) as [s' [n|]]; [done|]. apply IH.
Qed.

Lemma exec_If m c n body s :
  exec m (If c n body) s =
  match eval_cond m s c with
  | None => stop 1 s
  | Some false => go_on s
  | Some true => exec_list m body s
  end.
Proof.
  simpl. destruct (eval_cond m s c) as [[]|]; try done.
  revert s. induction body as [|c' l IH]; intros s; [done|].
  simpl. destruct (exec m c' s) as [s' [k|]]; [done|]. apply IH.
Qed.

Lemma exec_hosts_entries m nodes s t :
  arrays s !! "hosts" = Some t →
  exec_list m (hosts_entries nodes) s =
  go_on {| vars := vars s;
           arrays := <["hosts" := foldl (λ t n, <[Hostname n := Type' n]> t) t nodes]> (arrays s);
           trace := trace s |}.
Proof.
  revert s t. induction nodes as [|n nodes IH]; intros s t Ht.
  - simpl. rewrite insert_id by done. by destruct s.
  - cbn [hosts_entries fmap list_fmap exec_list exec go_on].
    fold (hosts_entries nodes). rewrite Ht. cbn [default].
    erewrite IH; last by (cbn [arrays set_array]; apply lookup_insert_eq).
    cbn [arrays set_array vars trace]. by rewrite insert_insert_eq.
Qed.

Lemma exec_list_cons m c l s :
  exec_list m (c :: l) s =
  match exec m c s with
  | (s', None) => exec_list m l s'
  | stopped => stopped
  end.
Proof. done. Qed.

Ltac sh_simpl :=
  repeat (progress
    (cbn [eval_cond expand expand_atoms expand_atom expand_all
          vars arrays trace set_var set_array emit go_on stop
          fmap option_fmap option_map default app];
     rewrite ?lookup_insert_eq, ?append_empty_r;
     repeat (rewrite lookup_insert_ne by done))).

Ltac sh_step :=
  sh_simpl;
  first [ rewrite exec_list_cons; first [ rewrite exec_If | cbn [exec] ]
        | progress change (exec_list ?m [] ?s) with (go_on s) ];
  sh_simpl.

Lemma exec_hostname_discovery m s :
  exec_list m hostname_discovery s =
  match cat m "/etc/hostname" with
  | None => stop 1 s
  | Some e =>
      if bool_decide (e = "") then
        match cat m "/proc/sys/kernel/hostname" with
        | None => stop 1 (set_var "HOSTNAME" e s)
        | Some k =>
            let s' := set_var "HOSTNAME" k (set_var "HOSTNAME" e s) in
            if bool_decide (k = "") || bool_decide (k = "localhost.localdomain")
            then stop 1 (emit (EEcho missing_hostname_error) s')
            else go_on s'
        end
      else go_on (set_var "HOSTNAME" e s)
  end.
Proof.
  unfold hostname_discovery. sh_step.
  destruct (cat m "/etc/hostname") as [e|]; [|done].
  sh_step. repeat case_bool_decide; try done; repeat sh_step; try done.
  destruct (cat m "/proc/sys/kernel/hostname") as [k|]; [|done].
  sh_step. repeat case_bool_decide; try done; repeat sh_step; try done.
Qed.

Lemma exec_role_lookup m s h :
  vars s !! "HOSTNAME" = Some h →
  exec_list m role_lookup s =
  let r := node_type_of (default ∅ (arrays s !! "hosts")) h in
  let s' := set_var "NODETYPE" r s in
  if bool_decide (r = "none")
  then stop 1 (emit (EEcho (unknown_host_error h)) s')
  else go_on s'.
Proof.
  intros Hh. unfold role_lookup, node_type_of. sh_step. rewrite Hh.
  set (r := match default ∅ (arrays s !! "hosts") !! h with
            | Some v => if bool_decide (v = "") then "none" else v
            | None => "none" end).
  assert (exec_list m
    [If (CEq (Q [Var "NODETYPE"]) (Q [Lit "none"])) 4
       [Echo (Q [Lit "ERROR: Could not identify whether host '"; Var "HOSTNAME";
                 Lit "' is a k3s server or agent"]); Exit 1]] (set_var "NODETYPE" r s)
    = if bool_decide (r = "none")
      then stop 1 (emit (EEcho (unknown_host_error h)) (set_var "NODETYPE" r s))
      else go_on (set_var "NODETYPE" r s)) as Hif.
  { sh_step. repeat case_bool_decide; try done; repeat sh_step; try done.
    rewrite Hh. by repeat sh_step. }
  cbv zeta. rewrite <- Hif. unfold r.
  by destruct (default ∅ (arrays s !! "hosts") !! h).
Qed.

Ltac sh_run :=
  repeat first
    [ sh_step
    | match goal with
      | |- context [status ?m ?a] => destruct (status m a)
      | |- context [writable ?m ?f] => destruct (writable m f)
      | |- context [is_file ?m ?f] => destruct (is_file m f)
      end
    | case_bool_decide ].

Ltac sh_trace := first [ reflexivity | symmetry; apply app_nil_r ].

Ltac sh_done :=
  intros; simplify_eq; cbn [vars arrays trace set_var set_array emit];
  rewrite <- ?app_assoc, ?append_empty_r.

Lemma exec_image_staging m v s s' res :
  exec_list m (image_staging v) s = (s', res) →
  vars s' = vars s ∧ res ≠ Some 0 ∧
  ∃ evs, trace s' = trace s ++ evs ∧ configs_placed evs = [].
Proof.
  unfold image_staging, lit. sh_run; intros [= <- <-]; sh_done;
    (split; [done|split; [done|eexists; split; [reflexivity|done]]]).
Qed.

Lemma exec_config_selection m v s h r s' res :
  vars s !! "HOSTNAME" = Some h →
  vars s !! "NODETYPE" = Some r →
  exec_list m (config_selection v) s = (s', res) →
  vars s' !! "CONFIGFILE" = Some (selected_config v h r) ∧
  (∀ x, x ≠ "CONFIGFILE" → vars s' !! x = vars s !! x) ∧
  res ≠ Some 0 ∧
  ∃ evs, trace s' = trace s ++ evs ∧ configs_placed evs = [].
Proof.
  intros Hh Hr.
  unfold config_selection, manifests_install, selected_config, role_config,
    initialiser_config, lit.
  destruct (truth (v !! "manifestsPath"));
    sh_step; rewrite Hr; sh_step; sh_step; rewrite Hh; sh_simpl;
    sh_run; try done; intros [= <- <-]; sh_done;
    (split; [by rewrite lookup_insert_eq|
     split; [by intros x Hx; rewrite !lookup_insert_ne by congruence|
     split; [done|eexists; split; [sh_trace|done]]]]).
Qed.

Lemma exec_tail m v s cf r s' res :
  vars s !! "CONFIGFILE" = Some cf →
  vars s !! "NODETYPE" = Some r →
  exec_list m (vip_host_entry v ++ runtime_installation v) s = (s', res) →
  vars s' !! "CONFIGFILE" = Some cf ∧
  vars s' !! "HOSTNAME" = vars s !! "HOSTNAME" ∧
  res ≠ Some 0 ∧
  ∃ evs, trace s' = trace s ++ evs ∧
         (configs_placed evs = [cf] ∨ configs_placed evs = [] ∧ res ≠ None).
Proof.
  intros Hc Hr. unfold vip_host_entry, runtime_installation, lit.
  destruct (truth (v !! "apiVIP") && truth (v !! "apiHost"));
    repeat first [ progress sh_run | rewrite Hc | rewrite Hr ].
  all: intros [= <- <-]; sh_done.
  all: (split; [by rewrite ?lookup_insert_ne by done|
        split; [by rewrite ?lookup_insert_ne by done|
        split; [done|eexists; split; [sh_trace|]]]]).
  all: first [by left | by right].
Qed.

Lemma exec_header m nodes :
  exec_list m ([Text "#!/bin/bash"; SetOpts; Text ""; DeclareAssoc "hosts"]
               ++ hosts_entries nodes) init =
  go_on {| vars := ∅; arrays := {["hosts" := node_table nodes]}; trace := [] |}.
Proof.
  rewrite exec_list_app. repeat sh_step.
  erewrite exec_hosts_entries by apply lookup_insert_eq.
  cbn [vars arrays trace init set_array]. by rewrite insert_insert_eq.
Qed.

Lemma k3s_multi_node_installer_parts v script :
  k3s_multi_node_installer v = Some script →
  ∃ nodes, range_nodes v "nodes" = Some nodes ∧
           script = resolution nodes ++ installation v.
Proof.
  unfold k3s_multi_node_installer. destruct (range_nodes v "nodes") as [nodes|]; [|done].
  intros [= <-]. exists nodes. split; [done|].
  unfold resolution, installation. by rewrite <- !app_assoc.
Qed.

Lemma exec_resolution m nodes s1 r1 :
  exec_list m (resolution nodes) init = (s1, r1) →
  vars s1 !! "CONFIGFILE" = None ∧ configs_placed (trace s1) = [] ∧
  match r1 with
  | Some n => n ≠ 0
  | None => ∃ h, vars s1 !! "HOSTNAME" = Some h ∧
                 vars s1 !! "NODETYPE" = Some (node_type_of (node_table nodes) h) ∧
                 node_type_of (node_table nodes) h ≠ "none"
  end.
Proof.
  unfold resolution. rewrite exec_list_app, exec_header. sh_step.
  rewrite exec_list_app, exec_hostname_discovery.
  destruct (cat m "/etc/hostname") as [e|]; [|by intros [= <- <-]].
  assert (∀ s, vars s !! "CONFIGFILE" = None → configs_placed (trace s) = [] →
               ∀ h, vars s !! "HOSTNAME" = Some h →
               arrays s !! "hosts" = Some (node_table nodes) →
               exec_list m (Text "" :: role_lookup) s = (s1, r1) →
               vars s1 !! "CONFIGFILE" = None ∧ configs_placed (trace s1) = [] ∧
               match r1 with
               | Some n => n ≠ 0
               | None => ∃ h, vars s1 !! "HOSTNAME" = Some h ∧
                   vars s1 !! "NODETYPE" = Some (node_type_of (node_table nodes) h) ∧
                   node_type_of (node_table nodes) h ≠ "none"
               end) as Hlookup.
  { intros s Hc Hp h Hh Ht. sh_step. rewrite (exec_role_lookup _ _ h Hh), Ht.
    cbv zeta. cbn [default]. case_bool_decide; intros [= <- <-]; sh_done.
    - rewrite lookup_insert_ne by done. split; [done|]. split; [|done].
      unfold configs_placed in *. by rewrite omap_app, Hp.
    - rewrite lookup_insert_ne by done. split; [done|]. split; [done|].
      exists h. by rewrite lookup_insert_eq, lookup_insert_ne. }
  case_bool_decide.
  - destruct (cat m "/proc/sys/kernel/hostname") as [k|]; [|by intros [= <- <-]].
    cbv zeta. destruct (bool_decide (k = "") || bool_decide (k = "localhost.localdomain")).
    + by intros [= <- <-].
    + sh_simpl. intros Hrun. refine (Hlookup _ _ _ k _ _ Hrun); done.
  - sh_simpl. intros Hrun. refine (Hlookup _ _ _ e _ _ Hrun); done.
Qed.

Lemma node_type_of_role t h r :
  t !! h = Some r → is_node_type r → node_type_of t h = r ∧ r ≠ "none".
Proof. intros Ht [-> | ->]; unfold node_type_of; by rewrite Ht. Qed.

(** C1. In a run of the rendered multi-node script [HOSTNAME] holds the
    hostname the node discovered. When the embedded table maps it to a role,
    server or agent, the only file the script can copy to the runtime's
    configuration path is the role's own file [<configFilePath>/<role>.yaml],
    unless the hostname equals the rendered initialiser name, in which case
    it is the initialiser's file; a run that ends with status 0 has selected
    and copied exactly that file. When the table has no entry for the
    hostname the script ends with a non-zero status, [CONFIGFILE] is never
    set and no configuration is copied. *)
Theorem config_file_follows_role m v script st status h :
  k3s_multi_node_installer v = Some script →
  run m script = (st, status) →
  vars st !! "HOSTNAME" = Some h →
  ∀ nodes, range_nodes v "nodes" = Some nodes →
  (∀ r, node_table nodes !! h = Some r → is_node_type r →
     (vars st !! "CONFIGFILE" = None ∨
      vars st !! "CONFIGFILE" = Some (selected_config v h r)) ∧
     (configs_placed (trace st) = [] ∨
      configs_placed (trace st) = [selected_config v h r]) ∧
     (status = 0 →
      vars st !! "CONFIGFILE" = Some (selected_config v h r) ∧
      configs_placed (trace st) = [selected_config v h r])) ∧
  (node_table nodes !! h = None →
     status ≠ 0 ∧ vars st !! "CONFIGFILE" = None ∧ configs_placed (trace st) = []).
Proof.
  intros Hscript Hrun Hh nodes Hnodes.
  apply k3s_multi_node_installer_parts in Hscript as (nodes' & Hnodes' & ->).
  assert (nodes' = nodes) as -> by congruence. clear Hnodes'.
  revert Hrun. unfold run. rewrite exec_list_app.
  destruct (exec_list m (resolution nodes) init) as [s1 r1] eqn:Hres.
  apply exec_resolution in Hres as (Hc1 & Hp1 & Hr1).
  destruct r1 as [n|].
  { (* stopped before the role was known *)
    intros [= <- <-]. split; [intros r _ _; split; [by left|split; [by left|done]]|done]. }
  destruct Hr1 as (h1 & Hh1 & Hn1 & Hnone).
  unfold installation. sh_step. rewrite exec_list_app.
  destruct (exec_list m (image_staging v) s1) as [s2 r2] eqn:Hstage.
  apply exec_image_staging in Hstage as (Hv2 & Hz2 & evs2 & Ht2 & Hp2).
  assert (configs_placed (trace s2) = []) as Hp2'.
  { rewrite Ht2. unfold configs_placed in *. by rewrite omap_app, Hp1, Hp2. }
  rewrite <- Hv2 in Hc1, Hh1, Hn1.
  destruct r2 as [n|].
  { intros [= <- <-]. assert (h1 = h) as -> by congruence.
    split.
    - intros r _ _. split; [by left|split; [by left|]]. by intros ->.
    - intros _. split; [by intros ->|done]. }
  sh_step. rewrite exec_list_app.
  destruct (exec_list m (config_selection v) s2) as [s3 r3] eqn:Hsel.
  apply (exec_config_selection _ _ _ h1 _ _ _ Hh1 Hn1) in Hsel
    as (Hc3 & Hv3 & Hz3 & evs3 & Ht3 & Hp3).
  assert (configs_placed (trace s3) = []) as Hp3'.
  { rewrite Ht3. unfold configs_placed in *. by rewrite omap_app, Hp2', Hp3. }
  assert (vars s3 !! "HOSTNAME" = Some h1) as Hh3 by (by rewrite Hv3).
  assert (vars s3 !! "NODETYPE" = Some (node_type_of (node_table nodes) h1)) as Hn3
    by (by rewrite Hv3).
  destruct r3 as [n|].
  { intros [= <- <-]. assert (h1 = h) as -> by congruence.
    split.
    - intros r Hr Hrole. destruct (node_type_of_role _ _ _ Hr Hrole) as [Hrr _].
      rewrite Hrr in Hc3. split; [by right|split; [by left|]]. by intros ->.
    - intros Habs. unfold node_type_of in Hnone. by rewrite Habs in Hnone. }
  destruct (exec_list m (vip_host_entry v ++ runtime_installation v) s3)
    as [s4 r4] eqn:Htail.
  apply (exec_tail _ _ _ _ _ _ _ Hc3 Hn3) in Htail
    as (Hc4 & Hh4 & Hz4 & evs4 & Ht4 & Hp4).
  assert (vars s4 !! "HOSTNAME" = Some h1) as Hh4' by (by rewrite Hh4).
  intros Hend.
  assert (st = s4 ∧ (r4 = None → status = 0) ∧ (status = 0 → r4 = None)) as (-> & H04 & H40).
  { destruct r4 as [[|n]|]; by simplify_eq. }
  assert (h1 = h) as -> by congruence.
  split.
  - intros r Hr Hrole. destruct (node_type_of_role _ _ _ Hr Hrole) as [Hrr _].
    rewrite Hrr in *. rewrite Ht4. unfold configs_placed in *.
    rewrite omap_app, Hp3'. cbn [app].
    split; [by right|]. destruct Hp4 as [Hp4|[Hp4 Hstop]]; rewrite Hp4.
    + split; [by right|done].
    + split; [by left|]. intros H0. by apply H40 in H0.
  - intros Habs. unfold node_type_of in Hnone. by rewrite Habs in Hnone.
Qed.

Lemma all_commands_app l1 l2 :
  all_commands (l1 ++ l2) = all_commands l1 ++ all_commands l2.
Proof. apply flat_map_app. Qed.

Lemma hosts_entries_no_write file nodes :
  existsb (writes_to file) (all_commands (hosts_entries nodes)) = false.
Proof. induction nodes as [|n nodes IH]; [done|]. exact IH. Qed.

Lemma existsb_elem_of {A} (P : A → bool) (l : list A) :
  existsb P l = true ↔ ∃ x, x ∈ l ∧ P x = true.
Proof.
  rewrite existsb_exists. split; intros (x & Hx & HP); exists x;
    (split; [by apply list_elem_of_In|done]).
Qed.

Lemma hosts_file_writes v script :
  k3s_multi_node_installer v = Some script →
  existsb (writes_to hosts_file) (all_commands script) =
  truth (v !! "apiVIP") && truth (v !! "apiHost").
Proof.
  intros Hscript.
  apply k3s_multi_node_installer_parts in Hscript as (nodes & _ & ->).
  unfold resolution, installation.
  rewrite !all_commands_app, !existsb_app, hosts_entries_no_write.
  unfold vip_host_entry, image_staging, config_selection, manifests_install,
    runtime_installation.
  destruct (truth (v !! "manifestsPath"));
    destruct (truth (v !! "apiVIP") && truth (v !! "apiHost")); reflexivity.
Qed.

(** C5. The rendered script has a command that writes [/etc/hosts] if and
    only if both [apiVIP] and [apiHost] were set (non-empty) when it was
    rendered; then the command is the append of the line ["<vip> <host>"];
    and when no VIP is set no command of the script, inside an [if] or not,
    writes [/etc/hosts]. *)
Theorem hosts_entry_iff_vip_and_host v script :
  k3s_multi_node_installer v = Some script →
  ((∃ c, c ∈ all_commands script ∧ writes_to hosts_file c = true) ↔
   truth (v !! "apiVIP") = true ∧ truth (v !! "apiHost") = true) ∧
  (truth (v !! "apiVIP") = true → truth (v !! "apiHost") = true →
   Append (Q [Lit (field v "apiVIP"); Lit " "; Lit (field v "apiHost")]) hosts_file
     ∈ script) ∧
  (truth (v !! "apiVIP") = false →
   ∀ c, c ∈ all_commands script → writes_to hosts_file c = false).
Proof.
  intros Hscript. pose proof (hosts_file_writes _ _ Hscript) as Hw.
  split; [|split].
  - rewrite <- existsb_elem_of, Hw. apply andb_true_iff.
  - intros Hvip Hhost.
    apply k3s_multi_node_installer_parts in Hscript as (nodes & _ & ->).
    unfold installation, vip_host_entry. rewrite Hvip, Hhost. cbn [andb].
    apply elem_of_app. right. apply elem_of_cons. right.
    do 2 (apply elem_of_app; right). apply elem_of_app. left.
    apply list_elem_of_here.
  - intros Hvip c Hc. rewrite Hvip in Hw. cbn [andb] in Hw.
    destruct (writes_to hosts_file c) eqn:Hwc; [|done].
    assert (existsb (writes_to hosts_file) (all_commands script) = true) as Hex
      by (apply existsb_elem_of; eauto).
    congruence.
Qed.


(** The scenarios of section 8, run. *)
Example node_2_selects_agent_yaml :
  let st := (run (boot_as "node-2" "node-2") example_script).1 in
  vars st !! "CONFIGFILE" = Some "$ARTEFACTS_DIR/kubernetes/agent.yaml" ∧
  (∀ lines, EWrite unit_file lines ∉ trace st) ∧
  EAppend hosts_file "192.168.100.1 api.cluster" ∈ trace st.
Proof.
  vm_compute. split; [done|]. split.
  - intros lines Hin. repeat (apply elem_of_cons in Hin as [[=]|Hin]).
    by apply elem_of_nil in Hin.
  - do 4 apply list_elem_of_further. apply list_elem_of_here.
Qed.

Example node_1_selects_init_server_yaml :
  let st := (run (boot_as "node-1" "node-1") example_script).1 in
  vars st !! "CONFIGFILE" = Some "$ARTEFACTS_DIR/kubernetes/init_server.yaml" ∧
  EWrite unit_file kubernetes_resources_install_unit ∈ trace st.
Proof.
  vm_compute. split; [done|]. do 6 apply list_elem_of_further. apply list_elem_of_here.
Qed.

Example unknown_host_exits :
  run (boot_as "node-9" "node-9") example_script =
  ({| vars := {[ "HOSTNAME" := "node-9"; "NODETYPE" := "none" ]};
      arrays := {[ "hosts" := node_table example_nodes ]};
      trace := [EEcho (unknown_host_error "node-9")] |}, 1).
Proof. vm_compute. reflexivity. Qed.

Lemma config_file_follows_role_witness :
  configs_placed (trace (run (boot_as "node-2" "node-2") example_script).1) =
  ["$ARTEFACTS_DIR/kubernetes/agent.yaml"].
Proof.
  destruct (config_file_follows_role (boot_as "node-2" "node-2") example_values
              example_script (run (boot_as "node-2" "node-2") example_script).1 0
              "node-2"
              ltac:(vm_compute; reflexivity) ltac:(vm_compute; reflexivity)
              ltac:(vm_compute; reflexivity) example_nodes
              ltac:(vm_compute; reflexivity)) as [Hmapped _].
  destruct (Hmapped "agent" ltac:(vm_compute; reflexivity) (or_intror eq_refl))
    as (_ & _ & Hdone).
  exact (proj2 (Hdone eq_refl)).
Defined.

Lemma hosts_entry_iff_vip_and_host_witness :
  (∃ c, c ∈ all_commands example_script ∧ writes_to hosts_file c = true) ↔
  truth (example_values !! "apiVIP") = true ∧
  truth (example_values !! "apiHost") = true.
Proof.
  exact (proj1 (hosts_entry_iff_vip_and_host example_values example_script
                  ltac:(vm_compute; reflexivity))).
Defined.

(* ===================================================================== *)
(** * The boot-time script, effect by effect *)
(* ===================================================================== *)

(** Running a script step by step, with the answers of the machine kept as
    equations, and reading the same answers into [played]. *)
Ltac sh_exec :=
  repeat first
    [ sh_step
    | progress sh_simpl
    | progress change ("/opt/bin" +:+ "/k3s") with "/opt/bin/k3s"
    | match goal with
      | |- context [status ?m ?a] => destruct (status m a) eqn:?
      | |- context [writable ?m ?f] => destruct (writable m f) eqn:?
      | |- context [is_file ?m ?f] => destruct (is_file m f) eqn:?
      end
    | case_bool_decide ].

Ltac sh_fold_played :=
  repeat match goal with
         | |- context [played ?m ?l] =>
             let p := fresh "p" in set (p := played m l)
         end.

Ltac sh_played :=
  repeat match goal with p := played _ _ |- _ => subst p end;
  unfold staging_effects, manifests_effects, selection_effects, hosts_effects,
    config_effects, install_effects;
  repeat match goal with
         | H : status _ _ = _ |- _ => rewrite H
         | H : writable _ _ = _ |- _ => rewrite H
         | H : is_file _ _ = _ |- _ => rewrite H
         | H : truth _ = _ |- _ => rewrite H
         | H : truth _ && truth _ = _ |- _ => rewrite H
         | _ => progress cbn [played app fst snd]
         end.

Ltac sh_frame Hx :=
  repeat (rewrite lookup_insert_ne;
          [|intros <-; apply Hx;
            repeat first [apply list_elem_of_here | apply list_elem_of_further]]).

Lemma played_app m l1 l2 :
  played m (l1 ++ l2) =
  match played m l1 with
  | (done, None) => (done ++ (played m l2).1, (played m l2).2)
  | stopped => stopped
  end.
Proof.
  induction l1 as [|e l1 IH]; cbn [app played].
  - by destruct (played m l2).
  - rewrite IH. destruct (played m l1) as [done1 [n|]];
      destruct e; repeat case_match; done.
Qed.

Lemma exec_image_staging_played m v s s' res :
  exec_list m (image_staging v) s = (s', res) →
  vars s' = vars s ∧ arrays s' = arrays s ∧
  trace s' = trace s ++ (played m (staging_effects v)).1 ∧
  res = (played m (staging_effects v)).2.
Proof.
  unfold image_staging, lit. sh_fold_played.
  sh_exec; intros [= <- <-]; sh_done; sh_played; done.
Qed.

Lemma exec_config_selection_played m v s h r s' res :
  vars s !! "HOSTNAME" = Some h →
  vars s !! "NODETYPE" = Some r →
  exec_list m (config_selection v) s = (s', res) →
  vars s' !! "CONFIGFILE" = Some (selected_config v h r) ∧
  (∀ x, x ≠ "CONFIGFILE" → vars s' !! x = vars s !! x) ∧
  arrays s' = arrays s ∧
  trace s' = trace s ++ (played m (selection_effects v h)).1 ∧
  res = (played m (selection_effects v h)).2.
Proof.
  intros Hh Hr.
  unfold config_selection, manifests_install, selected_config, role_config,
    initialiser_config, selection_effects, lit.
  destruct (truth (v !! "manifestsPath")) eqn:Hmp;
    (destruct (decide (h = field v "initialiser")) as [Hi|Hi];
     [rewrite !(bool_decide_true _ Hi)|rewrite !(bool_decide_false _ Hi)]);
    sh_fold_played;
    sh_step; rewrite Hr; sh_step; sh_step; rewrite Hh; sh_simpl;
    sh_exec; try done; intros [= <- <-]; sh_done; sh_played.
  all: (split; [by rewrite lookup_insert_eq|
        split; [by intros x Hx; rewrite !lookup_insert_ne by congruence|
        split; [done|split; [sh_trace|done]]]]).
Qed.

Lemma exec_vip_host_entry_played m v s s' res :
  exec_list m (vip_host_entry v) s = (s', res) →
  vars s' = vars s ∧ arrays s' = arrays s ∧
  trace s' = trace s ++ (played m (hosts_effects v)).1 ∧
  res = (played m (hosts_effects v)).2.
Proof.
  unfold vip_host_entry. sh_fold_played.
  destruct (truth (v !! "apiVIP") && truth (v !! "apiHost")) eqn:Hvip;
    sh_exec; intros [= <- <-]; sh_done; sh_played;
    (split; [done|split; [done|split; [sh_trace|done]]]).
Qed.

Lemma exec_runtime_config_played m v s cf s' res :
  vars s !! "CONFIGFILE" = Some cf →
  exec_list m (take 5 (runtime_installation v)) s = (s', res) →
  vars s' = vars s ∧ arrays s' = arrays s ∧
  trace s' = trace s ++ (played m (config_effects m v cf)).1 ∧
  res = (played m (config_effects m v cf)).2.
Proof.
  intros Hc. unfold runtime_installation, lit. cbn [take]. sh_fold_played.
  repeat first [ progress sh_exec | rewrite Hc ].
  all: intros [= <- <-]; sh_done; sh_played;
    (split; [done|split; [done|split; [sh_trace|done]]]).
Qed.

Lemma exec_runtime_install_played m v s r s' res :
  vars s !! "NODETYPE" = Some r →
  exec_list m (drop 5 (runtime_installation v)) s = (s', res) →
  (∀ x, x ∉ exported → vars s' !! x = vars s !! x) ∧
  arrays s' = arrays s ∧
  trace s' = trace s ++ (played m (install_effects v)).1 ∧
  res = (played m (install_effects v)).2 ∧
  (res = None →
   vars s' !! "INSTALL_K3S_EXEC" = Some r ∧
   vars s' !! "INSTALL_K3S_SKIP_DOWNLOAD" = Some "true" ∧
   vars s' !! "INSTALL_K3S_SKIP_START" = Some "true" ∧
   vars s' !! "INSTALL_K3S_BIN_DIR" = Some "/opt/bin").
Proof.
  intros Hr. unfold runtime_installation, lit. cbn [drop]. sh_fold_played.
  repeat first [ progress sh_exec | rewrite Hr ].
  all: intros [= <- <-]; sh_done; sh_played.
  all: (split; [intros x Hx; by sh_frame Hx|
        split; [done|split; [sh_trace|split; [done|]]]]).
  all: try done.
  all: intros _; repeat split; repeat (rewrite lookup_insert_ne by done);
    by rewrite lookup_insert_eq.
Qed.

Lemma played_cons m e l :
  played m (e :: l) =
  match played m [e] with
  | (done, None) => (done ++ (played m l).1, (played m l).2)
  | stopped => stopped
  end.
Proof. apply (played_app m [e] l). Qed.

Lemma played_None m l : (played m l).2 = None → (played m l).1 = l.
Proof.
  induction l as [|e l IH]; [done|]. cbn [played].
  destruct (played m l) as [done stopped]. cbn [fst snd] in *.
  destruct e; repeat case_match; cbn [fst snd]; try done; intros ->; by rewrite IH.
Qed.

Lemma played_Some m l n : (played m l).2 = Some n → n ≠ 0.
Proof.
  induction l as [|e l IH]; [done|]. cbn [played].
  destruct (played m l) as [done stopped]. cbn [fst snd] in *.
  destruct e; repeat case_match; cbn [fst snd]; try done; intros [= <-]; done.
Qed.

Lemma played_elem m l e : e ∈ (played m l).1 → e ∈ l.
Proof.
  induction l as [|e' l IH]; [done|]. cbn [played].
  destruct (played m l) as [done stopped]. cbn [fst snd] in *.
  destruct e'; repeat case_match; cbn [fst snd];
    rewrite ?elem_of_cons, ?elem_of_nil; intros Hin;
    first [done | destruct Hin as [->|Hin]; [by left|right; by apply IH]
          | destruct Hin as [->|[]]; by left ].
Qed.

Lemma played_failed m l argv :
  EExec argv ∈ (played m l).1 → status m argv ≠ 0 →
  last (played m l).1 = Some (EExec argv) ∧ (played m l).2 = Some (status m argv).
Proof.
  intros Hin Hfail. induction l as [|e l IH]; [by apply elem_of_nil in Hin|].
  revert Hin. cbn [played].
  destruct (played m l) as [done stopped] eqn:Hl. cbn [fst snd] in *.
  assert (∀ e', e' ≠ EExec argv → EExec argv ∈ e' :: done →
                last (e' :: done) = Some (EExec argv) ∧
                stopped = Some (status m argv)) as Hgo.
  { intros e' Hne [?|Hin]%elem_of_cons; [done|].
    destruct (IH Hin) as [Hlast Hstop]. split; [|done].
    destruct done; [by apply elem_of_nil in Hin|done]. }
  destruct e as [msg|argv'|file lines|file line]; cbn [fst snd].
  - by apply Hgo.
  - destruct (status m argv') as [|n] eqn:Hst.
    + apply Hgo. intros [= ->]. congruence.
    + intros [= ->]%list_elem_of_singleton. by rewrite Hst.
  - destruct (writable m file); [by apply Hgo|]. by intros ?%elem_of_nil.
  - destruct (writable m file); [by apply Hgo|]. by intros ?%elem_of_nil.
Qed.

Ltac sh_closed := cbn [fst snd]; repeat (split; [done|]); first [done | intros [=]].

(** The script from the role on: the effects are those of [boot_effects],
    played on the machine. *)
Lemma exec_installation m v s h r s' res :
  vars s !! "HOSTNAME" = Some h →
  vars s !! "NODETYPE" = Some r →
  exec_list m (installation v) s = (s', res) →
  arrays s' = arrays s ∧
  (∀ x, x ∉ "CONFIGFILE" :: exported → vars s' !! x = vars s !! x) ∧
  trace s' = trace s ++ (played m (boot_effects m v h r)).1 ∧
  res = (played m (boot_effects m v h r)).2 ∧
  (res = None →
   vars s' !! "CONFIGFILE" = Some (selected_config v h r) ∧
   vars s' !! "INSTALL_K3S_EXEC" = Some r ∧
   vars s' !! "INSTALL_K3S_SKIP_DOWNLOAD" = Some "true" ∧
   vars s' !! "INSTALL_K3S_SKIP_START" = Some "true" ∧
   vars s' !! "INSTALL_K3S_BIN_DIR" = Some "/opt/bin").
Proof.
  intros Hh Hr. unfold installation, boot_effects.
  rewrite <- (take_drop 5 (runtime_installation v)).
  sh_step. rewrite exec_list_app.
  destruct (exec_list m (image_staging v) s) as [s1 r1] eqn:H1.
  apply exec_image_staging_played in H1 as (Hv1 & Ha1 & Ht1 & Hr1).
  rewrite played_app. destruct (played m (staging_effects v)) as [t1 o1].
  cbn [fst snd] in *. subst r1.
  destruct o1 as [n|].
  { intros [= <- <-]. rewrite Hv1, Ha1, Ht1. sh_closed. }
  rewrite <- Hv1 in Hh, Hr.
  sh_step. rewrite exec_list_app.
  destruct (exec_list m (config_selection v) s1) as [s2 r2] eqn:H2.
  apply (exec_config_selection_played _ _ _ h r) in H2
    as (Hc2 & Hv2 & Ha2 & Ht2 & Hr2); [|done..].
  rewrite played_app. destruct (played m (selection_effects v h)) as [t2 o2].
  cbn [fst snd] in *. subst r2.
  assert (∀ x, x ∉ "CONFIGFILE" :: exported → vars s2 !! x = vars s !! x) as Hf2.
  { intros x Hx. rewrite Hv2, Hv1; [done|]. intros ->. apply Hx, list_elem_of_here. }
  destruct o2 as [n|].
  { intros [= <- <-]. rewrite Ha2, Ha1, Ht2, Ht1, <- app_assoc. sh_closed. }
  rewrite exec_list_app.
  destruct (exec_list m (vip_host_entry v) s2) as [s3 r3] eqn:H3.
  apply exec_vip_host_entry_played in H3 as (Hv3 & Ha3 & Ht3 & Hr3).
  rewrite played_app. destruct (played m (hosts_effects v)) as [t3 o3].
  cbn [fst snd] in *. subst r3.
  destruct o3 as [n|].
  { intros [= <- <-]. rewrite Hv3, Ha3, Ha2, Ha1, Ht3, Ht2, Ht1, <- !app_assoc.
    sh_closed. }
  rewrite exec_list_app.
  destruct (exec_list m (take 5 (runtime_installation v)) s3) as [s4 r4] eqn:H4.
  apply (exec_runtime_config_played _ _ _ (selected_config v h r)) in H4
    as (Hv4 & Ha4 & Ht4 & Hr4); [|by rewrite Hv3].
  rewrite played_app.
  destruct (played m (config_effects m v (selected_config v h r))) as [t4 o4].
  cbn [fst snd] in *. subst r4.
  destruct o4 as [n|].
  { intros [= <- <-].
    rewrite Hv4, Hv3, Ha4, Ha3, Ha2, Ha1, Ht4, Ht3, Ht2, Ht1, <- !app_assoc.
    sh_closed. }
  intros H5.
  apply (exec_runtime_install_played _ _ _ r) in H5
    as (Hv5 & Ha5 & Ht5 & Hr5 & Hx5);
    [|by rewrite Hv4, Hv3, Hv2 by done].
  destruct (played m (install_effects v)) as [t5 o5]. cbn [fst snd] in *.
  assert (∀ x, x ∉ "CONFIGFILE" :: exported → vars s' !! x = vars s !! x) as Hf5.
  { intros x Hx. rewrite Hv5, Hv4, Hv3; [by apply Hf2|].
    intros Hin. apply Hx. by apply list_elem_of_further. }
  split; [by rewrite Ha5, Ha4, Ha3, Ha2, Ha1|]. split; [done|].
  split; [by rewrite Ht5, Ht4, Ht3, Ht2, Ht1, <- !app_assoc|].
  split; [done|]. intros Hnone. split; [|by apply Hx5].
  rewrite Hv5, Hv4, Hv3; [done|].
  intros Hin. unfold exported in Hin.
  repeat (apply elem_of_cons in Hin as [[=]|Hin]). by apply elem_of_nil in Hin.
Qed.

Lemma foldl_table_lookup (nodes : list Node) (t : gmap string string) (h : string) :
  foldl (λ t n, <[Hostname n := Type' n]> t) t nodes !! h =
  match last (filter (λ n, Hostname n = h) nodes) with
  | Some n => Some (Type' n)
  | None => t !! h
  end.
Proof.
  revert t. induction nodes as [|n nodes IH]; intros t; [done|].
  cbn [foldl]. rewrite IH, filter_cons. case_decide as Hn.
  - rewrite last_cons. destruct (last (filter _ nodes)); [done|].
    by rewrite <- Hn, lookup_insert_eq.
  - destruct (last (filter _ nodes)); [done|]. by rewrite lookup_insert_ne.
Qed.

Lemma node_table_lookup (nodes : list Node) (h : string) :
  node_table nodes !! h = Type' <$> last (filter (λ n, Hostname n = h) nodes).
Proof.
  unfold node_table. rewrite foldl_table_lookup.
  by destruct (last (filter _ nodes)).
Qed.

(** The script up to the role of the node. *)
Lemma exec_resolution_played m nodes s1 r1 :
  exec_list m (resolution nodes) init = (s1, r1) →
  arrays s1 = {["hosts" := node_table nodes]} ∧
  (∀ x, x ∉ ["HOSTNAME"; "NODETYPE"] → vars s1 !! x = None) ∧
  (∀ h, cat m "/etc/hostname" = Some h → h ≠ "" →
     vars s1 !! "HOSTNAME" = Some h ∧
     (trace s1 = [] ∧ r1 = None ∨ trace s1 = [EEcho (unknown_host_error h)])) ∧
  match r1 with
  | Some n =>
      n = 1 ∧ (∃ msgs, trace s1 = EEcho <$> msgs) ∧
      (vars s1 !! "NODETYPE" = None ∨ vars s1 !! "NODETYPE" = Some "none")
  | None =>
      trace s1 = [] ∧
      ∃ h, vars s1 !! "HOSTNAME" = Some h ∧
           vars s1 !! "NODETYPE" = Some (node_type_of (node_table nodes) h) ∧
           node_type_of (node_table nodes) h ≠ "none"
  end.
Proof.
  unfold resolution. rewrite exec_list_app, exec_header. sh_step.
  rewrite exec_list_app, exec_hostname_discovery.
  destruct (cat m "/etc/hostname") as [e|] eqn:Hetc.
  2:{ intros [= <- <-]. cbn [vars arrays trace].
      split; [done|]. split; [done|]. split; [done|]. split; [done|].
      split; [by exists []|by left]. }
  assert (∀ s h, vars s = <["HOSTNAME" := h]> ∅ ∨
                 vars s = <["HOSTNAME" := h]> (<["HOSTNAME" := ""]> ∅) →
               trace s = [] →
               arrays s = {["hosts" := node_table nodes]} →
               exec_list m (Text "" :: role_lookup) s = (s1, r1) →
               arrays s1 = {["hosts" := node_table nodes]} ∧
               (∀ x, x ∉ ["HOSTNAME"; "NODETYPE"] → vars s1 !! x = None) ∧
               (vars s1 !! "HOSTNAME" = Some h ∧
                (trace s1 = [] ∧ r1 = None ∨ trace s1 = [EEcho (unknown_host_error h)])) ∧
               match r1 with
               | Some n =>
                   n = 1 ∧ (∃ msgs, trace s1 = EEcho <$> msgs) ∧
                   (vars s1 !! "NODETYPE" = None ∨ vars s1 !! "NODETYPE" = Some "none")
               | None =>
                   trace s1 = [] ∧
                   ∃ h, vars s1 !! "HOSTNAME" = Some h ∧
                        vars s1 !! "NODETYPE" = Some (node_type_of (node_table nodes) h) ∧
                        node_type_of (node_table nodes) h ≠ "none"
               end) as Hlookup.
  { intros s h Hv Ht Ha. sh_step.
    assert (vars s !! "HOSTNAME" = Some h) as Hh
      by (destruct Hv as [-> | ->]; apply lookup_insert_eq).
    assert (∀ x, x ∉ ["HOSTNAME"; "NODETYPE"] →
                 ∀ r, <["NODETYPE" := r]> (vars s) !! x = None) as Hframe.
    { intros x Hx r. rewrite lookup_insert_ne.
      2:{ intros <-. apply Hx. apply list_elem_of_further, list_elem_of_here. }
      assert (x ≠ "HOSTNAME") as Hne by (intros ->; apply Hx, list_elem_of_here).
      destruct Hv as [-> | ->]; by rewrite !lookup_insert_ne by done. }
    rewrite (exec_role_lookup _ _ h Hh), Ha. cbv zeta.
    rewrite lookup_singleton_eq. cbn [default from_option id].
    case_bool_decide as Hnone; intros [= <- <-]; sh_done.
    - split; [done|]. split; [intros x Hx; by apply Hframe|]. rewrite Ht.
      split; [split; [by rewrite lookup_insert_ne|by right]|].
      split; [done|]. split; [by exists [unknown_host_error h]|].
      right. by rewrite lookup_insert_eq, Hnone.
    - split; [done|]. split; [intros x Hx; by apply Hframe|].
      split; [split; [by rewrite lookup_insert_ne|by left]|].
      split; [done|]. exists h. by rewrite lookup_insert_eq, lookup_insert_ne. }
  case_bool_decide as He.
  - subst e. destruct (cat m "/proc/sys/kernel/hostname") as [k|].
    2:{ intros [= <- <-]. cbn [vars arrays trace set_var].
        split; [done|]. split.
        { intros x Hx. rewrite lookup_insert_ne; [done|].
          intros <-. apply Hx, list_elem_of_here. }
        split; [by intros h [= <-]|]. split; [done|]. split; [by exists []|by left]. }
    cbv zeta.
    destruct (bool_decide (k = "") || bool_decide (k = "localhost.localdomain")).
    + intros [= <- <-]. cbn [vars arrays trace set_var emit app].
      split; [done|]. split.
      { intros x Hx. rewrite !lookup_insert_ne; [done|..];
          intros <-; apply Hx, list_elem_of_here. }
      split; [by intros h [= <-]|]. split; [done|].
      split; [by exists [missing_hostname_error]|]. left.
      by rewrite !lookup_insert_ne.
    + sh_simpl. intros Hrun.
      apply (Hlookup _ k) in Hrun as (Ha & Hf & _ & Hres); [|by right|done|done].
      split; [done|]. split; [done|]. split; [by intros h [= <-]|done].
  - sh_simpl. intros Hrun.
    apply (Hlookup _ e) in Hrun as (Ha & Hf & Hh & Hres); [|by left|done|done].
    split; [done|]. split; [done|]. split; [by intros h [= <-] _|done].
Qed.

(** A whole run of the rendered script: it ends before the role is known,
    with status 1 and nothing but an error printed, or it plays the effects
    of [boot_effects] for the hostname and the role it has found. *)
Lemma run_installer m v script nodes st code :
  k3s_multi_node_installer v = Some script →
  range_nodes v "nodes" = Some nodes →
  run m script = (st, code) →
  arrays st = {["hosts" := node_table nodes]} ∧
  (∀ h, cat m "/etc/hostname" = Some h → h ≠ "" → vars st !! "HOSTNAME" = Some h) ∧
  ((code = 1 ∧ (∃ msgs, trace st = EEcho <$> msgs) ∧
    (vars st !! "NODETYPE" = None ∨ vars st !! "NODETYPE" = Some "none") ∧
    (∀ h, cat m "/etc/hostname" = Some h → h ≠ "" →
       trace st = [EEcho (unknown_host_error h)])) ∨
   ∃ h r,
     vars st !! "HOSTNAME" = Some h ∧ vars st !! "NODETYPE" = Some r ∧
     r = node_type_of (node_table nodes) h ∧ r ≠ "none" ∧
     trace st = (played m (boot_effects m v h r)).1 ∧
     (played m (boot_effects m v h r)).2 =
       match code with 0 => None | n => Some n end ∧
     (code = 0 →
      vars st !! "CONFIGFILE" = Some (selected_config v h r) ∧
      vars st !! "INSTALL_K3S_EXEC" = Some r ∧
      vars st !! "INSTALL_K3S_SKIP_DOWNLOAD" = Some "true" ∧
      vars st !! "INSTALL_K3S_SKIP_START" = Some "true" ∧
      vars st !! "INSTALL_K3S_BIN_DIR" = Some "/opt/bin")).
Proof.
  intros Hscript Hnodes.
  apply k3s_multi_node_installer_parts in Hscript as (nodes' & Hnodes' & ->).
  assert (nodes' = nodes) as -> by congruence. clear Hnodes'.
  unfold run. rewrite exec_list_app.
  destruct (exec_list m (resolution nodes) init) as [s1 r1] eqn:Hres.
  apply exec_resolution_played in Hres as (Ha1 & Hf1 & Hetc & Hr1).
  destruct r1 as [n|].
  { destruct Hr1 as (-> & Hmsgs & Hnt). intros [= <- <-].
    split; [done|]. split; [intros h H1 H2; by apply Hetc|]. left.
    split; [done|]. split; [done|]. split; [done|].
    intros h H1 H2. by destruct (Hetc h H1 H2) as [_ [[_ [=]]|?]]. }
  destruct Hr1 as (Ht1 & h & Hh1 & Hn1 & Hnone).
  destruct (exec_list m (installation v) s1) as [s2 r2] eqn:Hinst.
  apply (exec_installation _ _ _ h _ _ _ Hh1 Hn1) in Hinst
    as (Ha2 & Hf2 & Ht2 & Hr2 & Hx2).
  assert (∀ x, In x ["HOSTNAME"; "NODETYPE"] → x ∉ "CONFIGFILE" :: exported) as Hkeep.
  { intros x [<-|[<-|[]]] Hin; unfold exported in Hin;
      repeat (apply elem_of_cons in Hin as [[=]|Hin]); by apply elem_of_nil in Hin. }
  intros Hend.
  assert (st = s2 ∧ r2 = match code with 0 => None | n => Some n end) as [-> Hst].
  { destruct r2 as [k|]; [|by injection Hend as <- <-].
    injection Hend as <- <-. split; [done|].
    pose proof (played_Some _ _ _ (eq_sym Hr2)) as Hk. by destruct k. }
  split; [by rewrite Ha2|]. split.
  { intros h' H1 H2. destruct (Hetc h' H1 H2) as [Hh' _].
    rewrite Hf2; [done|]. apply Hkeep. by left. }
  right. exists h, (node_type_of (node_table nodes) h).
  split; [rewrite Hf2; [done|apply Hkeep; by left]|].
  split; [rewrite Hf2; [done|apply Hkeep; right; by left]|].
  split; [done|]. split; [done|].
  split; [by rewrite Ht2, Ht1|]. split; [by rewrite <- Hr2|].
  intros ->. by apply Hx2.
Qed.

Lemma boot_effects_elem m v h r e :
  e ∈ boot_effects m v h r →
  e ∈ staging_effects v ∨
  (h = field v "initialiser" ∧ truth (v !! "manifestsPath") = true ∧
   e ∈ [ EExec ["mkdir"; "-p"; "/opt/eib-k8s/manifests"];
         EExec ["cp"; field v "manifestsPath" +:+ "/*"; "/opt/eib-k8s/manifests/"];
         EWrite unit_file kubernetes_resources_install_unit;
         EExec ["systemctl"; "enable"; "kubernetes-resources-install.service"] ]) ∨
  (truth (v !! "apiVIP") = true ∧ truth (v !! "apiHost") = true ∧
   e = EAppend hosts_file (field v "apiVIP" +:+ " " +:+ field v "apiHost")) ∨
  e ∈ [ EExec ["mkdir"; "-p"; "/etc/rancher/k3s/"];
        EExec ["cp"; selected_config v h r; config_yaml] ] ∨
  (is_file m (field v "registryMirrors") = true ∧
   e = EExec ["cp"; field v "registryMirrors"; "/etc/rancher/k3s/registries.yaml"]) ∨
  e ∈ install_effects v.
Proof.
  unfold boot_effects, selection_effects, manifests_effects, hosts_effects,
    config_effects.
  rewrite !elem_of_app.
  intros [?|[Hin|[Hin|[[?|Hin]|?]]]]; [by left| | |by do 3 right; left| |by do 5 right].
  - right; left. case_bool_decide; [|by apply elem_of_nil in Hin].
    destruct (truth (v !! "manifestsPath")); [done|by apply elem_of_nil in Hin].
  - do 2 right; left.
    destruct (truth (v !! "apiVIP")), (truth (v !! "apiHost"));
      cbn [andb] in Hin; try (by apply elem_of_nil in Hin).
    by apply list_elem_of_singleton in Hin.
  - do 4 right; left.
    destruct (is_file m (field v "registryMirrors")); [|by apply elem_of_nil in Hin].
    by apply list_elem_of_singleton in Hin.
Qed.

(** X1. A node that is not in the table is turned away: when [/etc/hostname]
    holds a name and every entry of the node list for that name, if there is
    one, has an empty type or the type [none], the script prints that it
    could not identify whether the host is a server or an agent, ends with
    status 1 and has done nothing else. *)
Theorem unlisted_host_is_rejected m v script nodes st code h :
  k3s_multi_node_installer v = Some script →
  range_nodes v "nodes" = Some nodes →
  run m script = (st, code) →
  cat m "/etc/hostname" = Some h → h ≠ "" →
  (∀ n, n ∈ nodes → Hostname n = h → Type' n = "" ∨ Type' n = "none") →
  code = 1 ∧ trace st = [EEcho (unknown_host_error h)].
Proof.
  intros Hscript Hnodes Hrun Hetc Hh Hlisted.
  destruct (run_installer _ _ _ _ _ _ Hscript Hnodes Hrun) as (_ & Hname & Hcases).
  destruct Hcases as [(-> & _ & _ & Htrace)|(h' & r & Hh' & _ & -> & Hr & _)].
  { split; [done|by apply Htrace]. }
  exfalso. apply Hr. rewrite (Hname h Hetc Hh) in Hh'. injection Hh' as <-.
  unfold node_type_of. rewrite node_table_lookup.
  destruct (last (filter (λ n, Hostname n = h) nodes)) as [n|] eqn:Hlast; [|done].
  apply last_Some_elem_of, list_elem_of_filter in Hlast as [Hn Hin].
  cbn [fmap option_fmap option_map].
  by destruct (Hlisted n Hin Hn) as [-> | ->].
Qed.

(** X2. The table [hosts] of a run holds, for every hostname, the type of the
    last node of the list with that hostname: a later entry replaces an
    earlier one, and a hostname that is not in the list has no entry
    (hostnames and types being shell words, as everywhere in this model). *)
Theorem last_entry_for_a_hostname_wins m v script nodes st code :
  k3s_multi_node_installer v = Some script →
  range_nodes v "nodes" = Some nodes →
  run m script = (st, code) →
  ∃ hosts, arrays st !! "hosts" = Some hosts ∧
    ∀ h, hosts !! h = Type' <$> last (filter (λ n, Hostname n = h) nodes).
Proof.
  intros Hscript Hnodes Hrun.
  destruct (run_installer _ _ _ _ _ _ Hscript Hnodes Hrun) as (Harrays & _).
  exists (node_table nodes). split; [by rewrite Harrays, lookup_singleton_eq|].
  apply node_table_lookup.
Qed.

Lemma played_boot_nonempty m v h r : (played m (boot_effects m v h r)).1 ≠ [].
Proof.
  unfold boot_effects, staging_effects. cbn [app]. rewrite played_cons.
  cbn [played]. by destruct (status m ["mount"; "/var"]).
Qed.

Lemma boot_effects_no_echo m v h r msg : EEcho msg ∉ boot_effects m v h r.
Proof.
  intros Hin. apply boot_effects_elem in Hin.
  unfold staging_effects, install_effects in Hin.
  destruct Hin as [Hin|[(_ & _ & Hin)|[(_ & _ & [=])|[Hin|[(_ & [=])|Hin]]]]];
    repeat (apply elem_of_cons in Hin as [[=]|Hin]); by apply elem_of_nil in Hin.
Qed.

(** X3. A name in [/etc/hostname] is taken as it is: [HOSTNAME] holds it at
    the end of every run, whatever the kernel's hostname is and also when
    the name is [localhost.localdomain]; the error of a missing hostname is
    never printed, and the script goes on to the lookup of the role, so that
    its trace is not empty. *)
Theorem etc_hostname_is_preferred m v script st code h :
  k3s_multi_node_installer v = Some script →
  run m script = (st, code) →
  cat m "/etc/hostname" = Some h → h ≠ "" →
  vars st !! "HOSTNAME" = Some h ∧
  (EEcho missing_hostname_error ∉ trace st) ∧
  trace st ≠ [].
Proof.
  intros Hscript Hrun Hetc Hh.
  destruct (k3s_multi_node_installer_parts _ _ Hscript) as (nodes & Hnodes & _).
  destruct (run_installer _ _ _ _ _ _ Hscript Hnodes Hrun) as (_ & Hname & Hcases).
  split; [by apply Hname|].
  destruct Hcases as [(_ & _ & _ & Htrace)|(h' & r & _ & _ & _ & _ & -> & _)].
  - rewrite (Htrace h Hetc Hh). split; [|done].
    intros [=]%list_elem_of_singleton.
  - split; [|apply played_boot_nonempty].
    intros Hin%played_elem. by apply boot_effects_no_echo in Hin.
Qed.

(** X4. When the role is known, [/var] is mounted and the images directory
    made, and the copy of the images fails, the script ends there with the
    status of the copy: [umount /var] is never executed. *)
Theorem failed_image_copy_leaves_var_mounted m v script st code r n :
  k3s_multi_node_installer v = Some script →
  run m script = (st, code) →
  vars st !! "NODETYPE" = Some r → r ≠ "none" →
  status m ["mount"; "/var"] = 0 →
  status m ["mkdir"; "-p"; "/var/lib/rancher/k3s/agent/images/"] = 0 →
  status m ["cp"; field v "imagesPath" +:+ "/*";
            "/var/lib/rancher/k3s/agent/images/"] = S n →
  code = S n ∧
  trace st =
    [ EExec ["mount"; "/var"];
      EExec ["mkdir"; "-p"; "/var/lib/rancher/k3s/agent/images/"];
      EExec ["cp"; field v "imagesPath" +:+ "/*"; "/var/lib/rancher/k3s/agent/images/"] ] ∧
  (EExec ["umount"; "/var"] ∉ trace st).
Proof.
  intros Hscript Hrun Hrole Hnone Hmount Hmkdir Hcp.
  destruct (k3s_multi_node_installer_parts _ _ Hscript) as (nodes & Hnodes & _).
  destruct (run_installer _ _ _ _ _ _ Hscript Hnodes Hrun) as (_ & _ & Hcases).
  destruct Hcases as [(_ & _ & [Hr|Hr] & _)|(h & r' & _ & _ & _ & _ & Htrace & Hstatus & _)];
    [congruence..|].
  revert Htrace Hstatus. unfold boot_effects, staging_effects. cbn [app played].
  rewrite Hmount, Hmkdir, Hcp. cbn [fst snd]. intros -> Hstatus.
  split; [destruct code; congruence|]. split; [done|].
  intros Hin. repeat (apply elem_of_cons in Hin as [[=]|Hin]). by apply elem_of_nil in Hin.
Qed.

(** X5. Under [set -e] the first command that fails is the last one
    executed, and its status is the exit status of the script; so a run that
    ends with status 0 has executed only commands that succeeded. *)
Theorem first_failure_ends_the_script m v script st code argv :
  k3s_multi_node_installer v = Some script →
  run m script = (st, code) →
  EExec argv ∈ trace st →
  status m argv ≠ 0 →
  last (trace st) = Some (EExec argv) ∧ code = status m argv.
Proof.
  intros Hscript Hrun Hin Hfail.
  destruct (k3s_multi_node_installer_parts _ _ Hscript) as (nodes & Hnodes & _).
  destruct (run_installer _ _ _ _ _ _ Hscript Hnodes Hrun) as (_ & _ & Hcases).
  destruct Hcases as [(_ & (msgs & Hmsgs) & _)|(h & r & _ & _ & _ & _ & Htrace & Hstatus & _)].
  { rewrite Hmsgs in Hin. by apply list_elem_of_fmap in Hin as (msg & [=] & _). }
  rewrite Htrace in *. destruct (played_failed _ _ _ Hin Hfail) as [Hlast Hstop].
  split; [done|]. rewrite Hstop in Hstatus. destruct code; congruence.
Qed.

(** X6. The unit that applies the manifests is written only on the node
    whose hostname is the initialiser's, and only when [manifestsPath] is
    not empty; on that node a run that ends with status 0 has copied the
    manifests, written the unit and enabled it. *)
Theorem manifests_are_applied_by_the_initialiser m v script st code :
  k3s_multi_node_installer v = Some script →
  run m script = (st, code) →
  (∀ lines, EWrite unit_file lines ∈ trace st →
     lines = kubernetes_resources_install_unit ∧
     vars st !! "HOSTNAME" = Some (field v "initialiser") ∧
     truth (v !! "manifestsPath") = true) ∧
  (code = 0 →
   vars st !! "HOSTNAME" = Some (field v "initialiser") →
   truth (v !! "manifestsPath") = true →
   EExec ["cp"; field v "manifestsPath" +:+ "/*"; "/opt/eib-k8s/manifests/"] ∈ trace st ∧
   EWrite unit_file kubernetes_resources_install_unit ∈ trace st ∧
   EExec ["systemctl"; "enable"; "kubernetes-resources-install.service"] ∈ trace st).
Proof.
  intros Hscript Hrun.
  destruct (k3s_multi_node_installer_parts _ _ Hscript) as (nodes & Hnodes & _).
  destruct (run_installer _ _ _ _ _ _ Hscript Hnodes Hrun) as (_ & _ & Hcases).
  destruct Hcases as [(-> & (msgs & Hmsgs) & _)|(h & r & Hh & _ & _ & _ & Htrace & Hstatus & _)].
  { split; [|done]. intros lines Hin. rewrite Hmsgs in Hin.
    by apply list_elem_of_fmap in Hin as (msg & [=] & _). }
  split.
  - intros lines Hin. rewrite Htrace in Hin.
    apply played_elem, boot_effects_elem in Hin.
    unfold staging_effects, install_effects in Hin.
    destruct Hin as [Hin|[(-> & Hmp & Hin)|[(_ & _ & [=])|[Hin|[(_ & [=])|Hin]]]]];
      repeat (apply elem_of_cons in Hin as [[=]|Hin]); try (by apply elem_of_nil in Hin).
    by subst.
  - intros -> Hinit Hmp. rewrite Hh in Hinit. injection Hinit as ->.
    rewrite Htrace, (played_None _ _ Hstatus).
    unfold boot_effects, selection_effects, manifests_effects.
    rewrite bool_decide_true, Hmp by done.
    repeat split; apply elem_of_app; right; apply elem_of_app; left;
      repeat first [apply list_elem_of_here | apply list_elem_of_further].
Qed.

(** X7. The registry mirrors are copied to
    [/etc/rancher/k3s/registries.yaml] only when the file is there, and in a
    run that ends with status 0 whenever it is there. *)
Theorem registry_mirrors_are_copied_when_present m v script st code :
  k3s_multi_node_installer v = Some script →
  run m script = (st, code) →
  let copy := EExec ["cp"; field v "registryMirrors"; "/etc/rancher/k3s/registries.yaml"] in
  (copy ∈ trace st → is_file m (field v "registryMirrors") = true) ∧
  (code = 0 → is_file m (field v "registryMirrors") = true → copy ∈ trace st).
Proof.
  intros Hscript Hrun copy. subst copy.
  destruct (k3s_multi_node_installer_parts _ _ Hscript) as (nodes & Hnodes & _).
  destruct (run_installer _ _ _ _ _ _ Hscript Hnodes Hrun) as (_ & _ & Hcases).
  destruct Hcases as [(-> & (msgs & Hmsgs) & _)|(h & r & Hh & _ & _ & _ & Htrace & Hstatus & _)].
  { split; [|done]. intros Hin. rewrite Hmsgs in Hin.
    by apply list_elem_of_fmap in Hin as (msg & [=] & _). }
  split.
  - intros Hin. rewrite Htrace in Hin.
    apply played_elem, boot_effects_elem in Hin.
    unfold staging_effects, install_effects in Hin.
    destruct Hin as [Hin|[(_ & _ & Hin)|[(_ & _ & [=])|[Hin|[(Hfile & _)|Hin]]]]];
      [| | |done|];
      repeat (apply elem_of_cons in Hin as [[=]|Hin]); by apply elem_of_nil in Hin.
  - intros -> Hfile. rewrite Htrace, (played_None _ _ Hstatus).
    unfold boot_effects, config_effects. rewrite Hfile.
    do 3 (apply elem_of_app; right). apply elem_of_app; left.
    repeat first [apply list_elem_of_here | apply list_elem_of_further].
Qed.

(** X8. A run that ends with status 0 has exported [INSTALL_K3S_EXEC] with
    the type of the last node of the list that has the discovered hostname,
    [INSTALL_K3S_SKIP_DOWNLOAD] and [INSTALL_K3S_SKIP_START] as [true] and
    [INSTALL_K3S_BIN_DIR] as [/opt/bin], has copied the binary to
    [/opt/bin/k3s] and made it executable, and has run the install script
    last. *)
Theorem installer_runs_with_the_role m v script nodes st h :
  k3s_multi_node_installer v = Some script →
  range_nodes v "nodes" = Some nodes →
  run m script = (st, 0) →
  vars st !! "HOSTNAME" = Some h →
  (∃ n, last (filter (λ n, Hostname n = h) nodes) = Some n ∧
        vars st !! "INSTALL_K3S_EXEC" = Some (Type' n)) ∧
  vars st !! "INSTALL_K3S_SKIP_DOWNLOAD" = Some "true" ∧
  vars st !! "INSTALL_K3S_SKIP_START" = Some "true" ∧
  vars st !! "INSTALL_K3S_BIN_DIR" = Some "/opt/bin" ∧
  EExec ["cp"; field v "binaryPath"; "/opt/bin/k3s"] ∈ trace st ∧
  EExec ["chmod"; "+x"; "/opt/bin/k3s"] ∈ trace st ∧
  last (trace st) = Some (EExec ["sh"; field v "installScript"]).
Proof.
  intros Hscript Hnodes Hrun Hh.
  destruct (run_installer _ _ _ _ _ _ Hscript Hnodes Hrun) as (_ & _ & Hcases).
  destruct Hcases as [([=] & _)|(h' & r & Hh' & _ & Hr & Hnone & Htrace & Hstatus & Hvars)].
  assert (h' = h) as -> by congruence.
  destruct (Hvars eq_refl) as (_ & Hexec & Hdl & Hstart & Hbin).
  split.
  { revert Hr Hnone. unfold node_type_of. rewrite node_table_lookup.
    destruct (last (filter (λ n, Hostname n = h) nodes)) as [n|]; [|by intros ->].
    cbn [fmap option_fmap option_map]. case_bool_decide; [by intros ->|].
    intros -> _. by exists n. }
  split; [done|]. split; [done|]. split; [done|].
  rewrite Htrace, (played_None _ _ Hstatus). unfold boot_effects, install_effects.
  split; [|split].
  - do 4 (apply elem_of_app; right).
    repeat first [apply list_elem_of_here | apply list_elem_of_further].
  - do 4 (apply elem_of_app; right).
    repeat first [apply list_elem_of_here | apply list_elem_of_further].
  - rewrite !app_assoc. by rewrite last_app.
Qed.

Lemma unlisted_host_is_rejected_witness :
  (run (boot_as "node-9" "node-9") example_script).2 = 1 ∧
  trace (run (boot_as "node-9" "node-9") example_script).1 =
    [EEcho (unknown_host_error "node-9")].
Proof.
  apply (unlisted_host_is_rejected (boot_as "node-9" "node-9") example_values
           example_script example_nodes _ _ "node-9").
  - vm_compute; reflexivity.
  - vm_compute; reflexivity.
  - apply surjective_pairing.
  - reflexivity.
  - discriminate.
  - intros n Hin Hn. unfold example_nodes in Hin.
    repeat (apply elem_of_cons in Hin as [->|Hin]); try discriminate.
    by apply elem_of_nil in Hin.
Defined.

Lemma last_entry_for_a_hostname_wins_witness :
  ∃ hosts,
    arrays (run (boot_as "node-2" "node-2") renamed_script).1 !! "hosts" = Some hosts ∧
    ∀ h, hosts !! h = Type' <$> last (filter (λ n, Hostname n = h) renamed_nodes).
Proof.
  apply (last_entry_for_a_hostname_wins (boot_as "node-2" "node-2") renamed_values
           renamed_script renamed_nodes _
           (run (boot_as "node-2" "node-2") renamed_script).2).
  - vm_compute; reflexivity.
  - vm_compute; reflexivity.
  - apply surjective_pairing.
Defined.

Lemma etc_hostname_is_preferred_witness :
  vars (run (boot_as "node-2" "") example_script).1 !! "HOSTNAME" = Some "node-2" ∧
  (EEcho missing_hostname_error ∉ trace (run (boot_as "node-2" "") example_script).1) ∧
  trace (run (boot_as "node-2" "") example_script).1 ≠ [].
Proof.
  apply (etc_hostname_is_preferred (boot_as "node-2" "") example_values example_script
           _ (run (boot_as "node-2" "") example_script).2).
  - vm_compute; reflexivity.
  - apply surjective_pairing.
  - reflexivity.
  - discriminate.
Defined.

Lemma failed_image_copy_leaves_var_mounted_witness :
  let m := failing_on copy_images 3 (boot_as "node-2" "node-2") in
  (run m example_script).2 = 3 ∧
  trace (run m example_script).1 =
    [ EExec ["mount"; "/var"];
      EExec ["mkdir"; "-p"; "/var/lib/rancher/k3s/agent/images/"];
      EExec copy_images ] ∧
  (EExec ["umount"; "/var"] ∉ trace (run m example_script).1).
Proof.
  intros m.
  apply (failed_image_copy_leaves_var_mounted m example_values example_script
           _ _ "agent" 2).
  - vm_compute; reflexivity.
  - apply surjective_pairing.
  - vm_compute; reflexivity.
  - discriminate.
  - reflexivity.
  - reflexivity.
  - reflexivity.
Defined.

Lemma first_failure_ends_the_script_witness :
  let m := failing_on copy_images 3 (boot_as "node-2" "node-2") in
  last (trace (run m example_script).1) = Some (EExec copy_images) ∧
  (run m example_script).2 = status m copy_images.
Proof.
  intros m.
  apply (first_failure_ends_the_script m example_values example_script).
  - vm_compute; reflexivity.
  - apply surjective_pairing.
  - vm_compute. do 2 apply list_elem_of_further. apply list_elem_of_here.
  - discriminate.
Defined.

Lemma manifests_are_applied_by_the_initialiser_witness :
  let st := (run (boot_as "node-1" "node-1") example_script).1 in
  EExec ["cp"; "$ARTEFACTS_DIR/kubernetes/manifests/*"; "/opt/eib-k8s/manifests/"]
    ∈ trace st ∧
  EWrite unit_file kubernetes_resources_install_unit ∈ trace st ∧
  EExec ["systemctl"; "enable"; "kubernetes-resources-install.service"] ∈ trace st.
Proof.
  intros st.
  apply (proj2 (manifests_are_applied_by_the_initialiser (boot_as "node-1" "node-1")
                  example_values example_script st 0
                  ltac:(vm_compute; reflexivity) ltac:(vm_compute; reflexivity))).
  - reflexivity.
  - vm_compute; reflexivity.
  - reflexivity.
Defined.

Lemma registry_mirrors_are_copied_when_present_witness :
  EExec ["cp"; "$ARTEFACTS_DIR/kubernetes/registries.yaml";
         "/etc/rancher/k3s/registries.yaml"]
    ∈ trace (run (boot_as "node-2" "node-2") example_script).1.
Proof.
  apply (proj2 (registry_mirrors_are_copied_when_present (boot_as "node-2" "node-2")
                  example_values example_script _ 0
                  ltac:(vm_compute; reflexivity) ltac:(vm_compute; reflexivity))).
  - reflexivity.
  - reflexivity.
Defined.

Lemma installer_runs_with_the_role_witness :
  let st := (run (boot_as "node-2" "node-2") renamed_script).1 in
  vars st !! "INSTALL_K3S_EXEC" = Some "agent" ∧
  last (trace st) = Some (EExec ["sh"; "$ARTEFACTS_DIR/kubernetes/install.sh"]).
Proof.
  intros st.
  destruct (installer_runs_with_the_role (boot_as "node-2" "node-2") renamed_values
              renamed_script renamed_nodes st "node-2"
              ltac:(vm_compute; reflexivity) ltac:(vm_compute; reflexivity)
              ltac:(vm_compute; reflexivity) ltac:(vm_compute; reflexivity))
    as ((n & Hn & Hexec) & _ & _ & _ & _ & _ & Hlast).
  split; [|exact Hlast]. injection Hn as <-. exact Hexec.
Defined.

(** The script up to the role, for the hostname it settles on: the contents
    of [/etc/hostname], or of the kernel's hostname when that file is
    empty. *)
Lemma exec_resolution_discovered m nodes s1 r1 h :
  (cat m "/etc/hostname" = Some h ∧ h ≠ "") ∨
  (cat m "/etc/hostname" = Some "" ∧ cat m "/proc/sys/kernel/hostname" = Some h ∧
   h ≠ "" ∧ h ≠ "localhost.localdomain") →
  exec_list m (resolution nodes) init = (s1, r1) →
  let r := node_type_of (node_table nodes) h in
  vars s1 !! "HOSTNAME" = Some h ∧ vars s1 !! "NODETYPE" = Some r ∧
  if bool_decide (r = "none")
  then r1 = Some 1 ∧ trace s1 = [EEcho (unknown_host_error h)]
  else r1 = None ∧ trace s1 = [].
Proof.
  intros Hfound. unfold resolution. rewrite exec_list_app, exec_header. sh_step.
  rewrite exec_list_app, exec_hostname_discovery.
  assert (∀ s, vars s !! "HOSTNAME" = Some h → trace s = [] →
               arrays s = {["hosts" := node_table nodes]} →
               exec_list m (Text "" :: role_lookup) s = (s1, r1) →
               let r := node_type_of (node_table nodes) h in
               vars s1 !! "HOSTNAME" = Some h ∧ vars s1 !! "NODETYPE" = Some r ∧
               if bool_decide (r = "none")
               then r1 = Some 1 ∧ trace s1 = [EEcho (unknown_host_error h)]
               else r1 = None ∧ trace s1 = []) as Hlookup.
  { intros s Hh Ht Ha. sh_step. rewrite (exec_role_lookup _ _ h Hh), Ha. cbv zeta.
    rewrite lookup_singleton_eq. cbn [default from_option id].
    case_bool_decide as Hnone; intros [= <- <-]; sh_done.
    - split; [by rewrite lookup_insert_ne|]. split; [by rewrite lookup_insert_eq|].
      by rewrite Ht.
    - split; [by rewrite lookup_insert_ne|]. by rewrite lookup_insert_eq. }
  destruct Hfound as [[-> Hh]|(-> & -> & Hh & Hplace)].
  - rewrite bool_decide_false by done. sh_simpl. intros Hrun.
    refine (Hlookup _ _ _ _ Hrun); [apply lookup_insert_eq|done|done].
  - rewrite bool_decide_true by done. cbv zeta.
    rewrite !bool_decide_false by done. cbn [orb]. sh_simpl. intros Hrun.
    refine (Hlookup _ _ _ _ Hrun); [apply lookup_insert_eq|done|done].
Qed.

Lemma run_discovered m v script nodes st code h :
  k3s_multi_node_installer v = Some script →
  range_nodes v "nodes" = Some nodes →
  run m script = (st, code) →
  (cat m "/etc/hostname" = Some h ∧ h ≠ "") ∨
  (cat m "/etc/hostname" = Some "" ∧ cat m "/proc/sys/kernel/hostname" = Some h ∧
   h ≠ "" ∧ h ≠ "localhost.localdomain") →
  boots_as m v nodes st code h.
Proof.
  intros Hscript Hnodes Hrun Hfound.
  apply k3s_multi_node_installer_parts in Hscript as (nodes' & Hnodes' & ->).
  assert (nodes' = nodes) as -> by congruence. clear Hnodes'.
  revert Hrun. unfold run. rewrite exec_list_app.
  destruct (exec_list m (resolution nodes) init) as [s1 r1] eqn:Hres.
  apply (exec_resolution_discovered _ _ _ _ h Hfound) in Hres as (Hh1 & Hn1 & Hr1).
  unfold boots_as. cbv zeta. revert Hr1. case_bool_decide as Hnone.
  - intros [-> Ht1] [= <- <-]. done.
  - intros [-> Ht1].
    destruct (exec_list m (installation v) s1) as [s2 r2] eqn:Hinst.
    apply (exec_installation _ _ _ h _ _ _ Hh1 Hn1) in Hinst
      as (_ & Hf2 & Ht2 & Hr2 & _).
    assert (∀ x, In x ["HOSTNAME"; "NODETYPE"] → x ∉ "CONFIGFILE" :: exported) as Hkeep.
    { intros x [<-|[<-|[]]] Hin; unfold exported in Hin;
        repeat (apply elem_of_cons in Hin as [[=]|Hin]); by apply elem_of_nil in Hin. }
    intros Hend.
    assert (st = s2 ∧ r2 = match code with 0 => None | n => Some n end) as [-> Hst].
    { destruct r2 as [k|]; [|by injection Hend as <- <-].
      injection Hend as <- <-. split; [done|].
      pose proof (played_Some _ _ _ (eq_sym Hr2)) as Hk. by destruct k. }
    split; [rewrite Hf2; [done|apply Hkeep; by left]|].
    split; [rewrite Hf2; [done|apply Hkeep; right; by left]|].
    split; [by rewrite Ht2, Ht1|by rewrite <- Hr2].
Qed.

(** C3. The hostname discovery reads [/etc/hostname] and goes on with its
    contents when they are not empty. When they are empty it falls back to
    the kernel's hostname: with a name there that is neither empty nor
    [localhost.localdomain] the script goes on as the node of that name, the
    role looked up for it; with an empty name or [localhost.localdomain] it
    ends with a non-zero status, and all it has done is print the error: no
    command, so no mount and no copy, has been executed. *)
Theorem hostname_discovery_falls_back_or_aborts m v script nodes st code :
  k3s_multi_node_installer v = Some script →
  range_nodes v "nodes" = Some nodes →
  run m script = (st, code) →
  (∀ h, cat m "/etc/hostname" = Some h → h ≠ "" → boots_as m v nodes st code h) ∧
  (cat m "/etc/hostname" = Some "" →
   ∀ k, cat m "/proc/sys/kernel/hostname" = Some k →
     (k ≠ "" → k ≠ "localhost.localdomain" →
      boots_as m v nodes st code k ∧ (EEcho missing_hostname_error ∉ trace st)) ∧
     (k = "" ∨ k = "localhost.localdomain" →
      code ≠ 0 ∧ trace st = [EEcho missing_hostname_error] ∧
      ∀ argv, EExec argv ∉ trace st)).
Proof.
  intros Hscript Hnodes Hrun. split; [|intros Hetc k Hkernel; split].
  - intros h Hetc Hh. apply (run_discovered _ _ _ _ _ _ _ Hscript Hnodes Hrun). by left.
  - intros Hk Hplace.
    assert (boots_as m v nodes st code k) as Hboot.
    { apply (run_discovered _ _ _ _ _ _ _ Hscript Hnodes Hrun). by right. }
    split; [done|]. destruct Hboot as (_ & _ & Hcases). revert Hcases.
    case_bool_decide.
    + intros [_ ->]. intros [=]%list_elem_of_singleton.
    + intros [-> _]. intros Hin%played_elem. by apply boot_effects_no_echo in Hin.
  - intros Hbad.
    apply k3s_multi_node_installer_parts in Hscript as (nodes' & _ & ->).
    revert Hrun. unfold run, resolution.
    rewrite exec_list_app, exec_list_app, exec_header. sh_step.
    rewrite exec_list_app, exec_hostname_discovery, Hetc, Hkernel.
    destruct Hbad as [-> | ->]; intros [= <- <-]; cbn [trace emit set_var app];
      (split; [done|split; [done|]]); intros argv [=]%list_elem_of_singleton.
Qed.

Lemma hostname_discovery_falls_back_or_aborts_witness :
  let fallback := run (boot_as "" "node-2") example_script in
  let missing := run (boot_as "" "") example_script in
  let placeholder := run (boot_as "" "localhost.localdomain") example_script in
  (vars fallback.1 !! "HOSTNAME" = Some "node-2" ∧
   vars fallback.1 !! "NODETYPE" = Some "agent" ∧
   (EEcho missing_hostname_error ∉ trace fallback.1) ∧
   fallback.2 = 0 ∧ EExec ["mount"; "/var"] ∈ trace fallback.1) ∧
  (missing.2 ≠ 0 ∧ trace missing.1 = [EEcho missing_hostname_error]) ∧
  (placeholder.2 ≠ 0 ∧ trace placeholder.1 = [EEcho missing_hostname_error]).
Proof.
  intros fallback missing placeholder.
  assert (∀ k, let out := run (boot_as "" k) example_script in
    (k ≠ "" → k ≠ "localhost.localdomain" →
     boots_as (boot_as "" k) example_values example_nodes out.1 out.2 k ∧
     (EEcho missing_hostname_error ∉ trace out.1)) ∧
    (k = "" ∨ k = "localhost.localdomain" →
     out.2 ≠ 0 ∧ trace out.1 = [EEcho missing_hostname_error] ∧
     ∀ argv, EExec argv ∉ trace out.1)) as Hkernel.
  { intros k out.
    exact (proj2 (hostname_discovery_falls_back_or_aborts (boot_as "" k) example_values example_script
                    example_nodes out.1 out.2 ltac:(vm_compute; reflexivity)
                    eq_refl (surjective_pairing out))
             eq_refl k eq_refl). }
  split; [|split].
  - destruct (proj1 (Hkernel "node-2") ltac:(discriminate) ltac:(discriminate))
      as [(Hname & Hrole & _) Hecho].
    split; [exact Hname|]. split; [exact Hrole|]. split; [exact Hecho|].
    split; [vm_compute; reflexivity|]. vm_compute. apply list_elem_of_here.
  - destruct (proj2 (Hkernel "") ltac:(by left)) as (Hcode & Htrace & _). by split.
  - destruct (proj2 (Hkernel "localhost.localdomain") ltac:(by right))
      as (Hcode & Htrace & _). by split.
Defined.

(* ===================================================================== *)
(** * The build *)
(* ===================================================================== *)

Lemma and_then_inv {A B} (m : M A) (k : result A → M B) fs r fs' evs :
  and_then m k fs = (r, fs', evs) →
  ∃ r1 fs1 ev1 ev2,
    m fs = (r1, fs1, ev1) ∧ k r1 fs1 = (r, fs', ev2) ∧ evs = ev1 ++ ev2.
Proof.
  unfold and_then. destruct (m fs) as [[r1 fs1] ev1] eqn:Hm. cbn [fst snd].
  destruct (k r1 fs1) as [[r2 fs2] ev2] eqn:Hk. cbn [fst snd].
  intros [= <- <- <-]. by exists r1, fs1, ev1, ev2.
Qed.

Lemma bind_inv {A B} (m : M A) (k : A → M B) fs r fs' evs :
  bind m k fs = (r, fs', evs) →
  (∃ e, m fs = (Err e, fs', evs) ∧ r = Err e) ∨
  (∃ a fs1 ev1 ev2, m fs = (Ok a, fs1, ev1) ∧ k a fs1 = (r, fs', ev2) ∧ evs = ev1 ++ ev2).
Proof.
  intros (r1 & fs1 & ev1 & ev2 & Hm & Hk & ->)%and_then_inv.
  destruct r1 as [a|e].
  - right. by exists a, fs1, ev1, ev2.
  - left. exists e. injection Hk as <- <- <-. by rewrite app_nil_r.
Qed.

Lemma bind_wrap_inv {A B} (m : M A) what (k : A → M B) fs r fs' evs :
  bind_wrap m what k fs = (r, fs', evs) →
  (∃ e, m fs = (Err e, fs', evs) ∧ r = Err (Errorf what e)) ∨
  (∃ a fs1 ev1 ev2, m fs = (Ok a, fs1, ev1) ∧ k a fs1 = (r, fs', ev2) ∧ evs = ev1 ++ ev2).
Proof.
  intros (r1 & fs1 & ev1 & ev2 & Hm & Hk & ->)%and_then_inv.
  destruct r1 as [a|e].
  - right. by exists a, fs1, ev1, ev2.
  - left. exists e. injection Hk as <- <- <-. by rewrite app_nil_r.
Qed.

Lemma bind_audit_inv {A B} (m : M A) comp what (k : A → M B) fs r fs' evs :
  bind_audit m comp what k fs = (r, fs', evs) →
  (∃ e ev1, m fs = (Err e, fs', ev1) ∧ r = Err (Errorf what e) ∧
            evs = ev1 ++ [AuditComponentFailed comp]) ∨
  (∃ a fs1 ev1 ev2, m fs = (Ok a, fs1, ev1) ∧ k a fs1 = (r, fs', ev2) ∧ evs = ev1 ++ ev2).
Proof.
  intros (r1 & fs1 & ev1 & ev2 & Hm & Hk & ->)%and_then_inv.
  destruct r1 as [a|e].
  - right. by exists a, fs1, ev1, ev2.
  - left. exists e, ev1. by injection Hk as <- <- <-.
Qed.

(** Equations for running a bind whose first step is known. *)
Lemma bind_ok {A B} (m : M A) (k : A → M B) fs a fs1 ev1 :
  m fs = (Ok a, fs1, ev1) →
  bind m k fs = ((k a fs1).1.1, (k a fs1).1.2, ev1 ++ (k a fs1).2).
Proof. intros Hm. unfold bind, and_then. by rewrite Hm. Qed.

Lemma bind_wrap_ok {A B} (m : M A) what (k : A → M B) fs a fs1 ev1 :
  m fs = (Ok a, fs1, ev1) →
  bind_wrap m what k fs = ((k a fs1).1.1, (k a fs1).1.2, ev1 ++ (k a fs1).2).
Proof. intros Hm. unfold bind_wrap, and_then. by rewrite Hm. Qed.

Lemma append_assoc (a b c : string) : (a +:+ b) +:+ c = a +:+ (b +:+ c).
Proof.
  induction a as [|ch a IH]; [done|].
  change (String ch ((a +:+ b) +:+ c) = String ch (a +:+ (b +:+ c))). by rewrite IH.
Qed.

Lemma Join_pair (a b : string) :
  Join [a; b] = if decide (a = "") then b
                else if decide (b = "") then a else a +:+ "/" +:+ b.
Proof.
  unfold Join. cbn [filter list_filter].
  repeat case_decide; simplify_eq; try done.
Qed.

Lemma Join_suffix (a b : string) : ∃ pre, Join [a; b] = pre +:+ b.
Proof.
  rewrite Join_pair. repeat case_decide; subst.
  - by exists "".
  - exists a. clear. induction a as [|ch a IH]; [done|].
    change (String ch a = String ch (a +:+ "")). by rewrite <- IH.
  - exists (a +:+ "/"). by rewrite append_assoc.
Qed.

(** ** Specifications of build steps *)

Lemma spec_ret {A} (P : FS → Prop) (a : A) (Q : A → FS → Prop) E :
  (∀ fs, P fs → Q a fs) → spec P (ret a) Q E.
Proof.
  intros HQ fs r fs' evs HP [= <- <- <-]. split; [done|]. intros ? [= <-]. by apply HQ.
Qed.

Lemma spec_fail {A} P msg (Q : A → FS → Prop) E : spec P (fail msg) Q E.
Proof. by intros fs r fs' evs HP [= <- <- <-]. Qed.

Lemma spec_log P e (E : Event → Prop) : E e → spec P (log e) (λ _ fs, P fs) E.
Proof.
  intros He fs r fs' evs HP [= <- <- <-]. split; [by apply Forall_singleton|done].
Qed.

Lemma spec_weaken {A} (P P' : FS → Prop) (m : M A) (Q Q' : A → FS → Prop) E :
  spec P' m Q' E → (∀ fs, P fs → P' fs) → (∀ a fs, Q' a fs → Q a fs) → spec P m Q E.
Proof.
  intros Hm HP HQ fs r fs' evs Hfs Hrun.
  destruct (Hm fs r fs' evs (HP _ Hfs) Hrun) as [HE Hpost]. split; [done|].
  intros a ->. by apply HQ, Hpost.
Qed.

Lemma spec_bind {A B} P (m : M A) Q1 (k : A → M B) Q E :
  spec P m Q1 E → (∀ a, spec (Q1 a) (k a) Q E) → spec P (bind m k) Q E.
Proof.
  intros Hm Hk fs r fs' evs HP Hrun. apply bind_inv in Hrun as
    [(e & Hm1 & ->) | (a & fs1 & ev1 & ev2 & Hm1 & Hk1 & ->)].
  - destruct (Hm _ _ _ _ HP Hm1) as [HE _]. by split.
  - destruct (Hm _ _ _ _ HP Hm1) as [HE1 HQ1].
    destruct (Hk a _ _ _ _ (HQ1 a eq_refl) Hk1) as [HE2 HQ2].
    split; [by apply Forall_app|done].
Qed.

Lemma spec_bind_wrap {A B} P (m : M A) what Q1 (k : A → M B) Q E :
  spec P m Q1 E → (∀ a, spec (Q1 a) (k a) Q E) → spec P (bind_wrap m what k) Q E.
Proof.
  intros Hm Hk fs r fs' evs HP Hrun. apply bind_wrap_inv in Hrun as
    [(e & Hm1 & ->) | (a & fs1 & ev1 & ev2 & Hm1 & Hk1 & ->)].
  - destruct (Hm _ _ _ _ HP Hm1) as [HE _]. by split.
  - destruct (Hm _ _ _ _ HP Hm1) as [HE1 HQ1].
    destruct (Hk a _ _ _ _ (HQ1 a eq_refl) Hk1) as [HE2 HQ2].
    split; [by apply Forall_app|done].
Qed.

Lemma spec_bind_audit {A B} P (m : M A) comp what Q1 (k : A → M B) Q
    (E : Event → Prop) :
  E (AuditComponentFailed comp) →
  spec P m Q1 E → (∀ a, spec (Q1 a) (k a) Q E) → spec P (bind_audit m comp what k) Q E.
Proof.
  intros Haudit Hm Hk fs r fs' evs HP Hrun. apply bind_audit_inv in Hrun as
    [(e & ev1 & Hm1 & -> & ->) | (a & fs1 & ev1 & ev2 & Hm1 & Hk1 & ->)].
  - destruct (Hm _ _ _ _ HP Hm1) as [HE _]. split; [|done].
    apply Forall_app. split; [done|by apply Forall_singleton].
  - destruct (Hm _ _ _ _ HP Hm1) as [HE1 HQ1].
    destruct (Hk a _ _ _ _ (HQ1 a eq_refl) Hk1) as [HE2 HQ2].
    split; [by apply Forall_app|done].
Qed.

(** ** The file system *)

Lemma is_dir_insert_Dir fs d p :
  is_dir fs p = true → is_dir (<[d := Dir]> fs) p = true.
Proof.
  unfold is_dir. destruct (decide (d = p)) as [->|Hne].
  - by rewrite lookup_insert_eq.
  - by rewrite lookup_insert_ne.
Qed.

Lemma is_dir_insert_File fs n data x p :
  fs !! n ≠ Some Dir → is_dir fs p = true → is_dir (<[n := File data x]> fs) p = true.
Proof.
  unfold is_dir. intros Hn. destruct (decide (n = p)) as [->|Hne].
  - destruct (fs !! p) as [[]|]; done.
  - by rewrite lookup_insert_ne.
Qed.

Lemma is_dir_mkdirs fs dirs p :
  is_dir fs p = true ∨ p ∈ dirs →
  is_dir (foldr (λ d fs', <[d := Dir]> fs') fs dirs) p = true.
Proof.
  induction dirs as [|d dirs IH]; intros [Hp|Hin]; cbn [foldr].
  - done.
  - by apply elem_of_nil in Hin.
  - apply is_dir_insert_Dir, IH. by left.
  - apply elem_of_cons in Hin as [->|Hin].
    + unfold is_dir. by rewrite lookup_insert_eq.
    + apply is_dir_insert_Dir, IH. by right.
Qed.

Lemma MkdirAll_inv path fs r fs' evs :
  os.MkdirAll path fs = (r, fs', evs) →
  evs = [OpMkdirAll path fs] ∧
  (∀ p, is_dir fs p = true → is_dir fs' p = true) ∧
  (r = Ok tt → is_dir fs' path = true).
Proof.
  unfold os.MkdirAll. case_bool_decide; [by intros [= <- <- <-]|].
  destruct (existsb _ _); intros [= <- <- <-]; [done|].
  split; [done|]. split.
  - intros p Hp. apply is_dir_mkdirs. by left.
  - intros _. apply is_dir_mkdirs. right. apply elem_of_app. right.
    apply list_elem_of_here.
Qed.

Lemma WriteFile_inv name data x fs r fs' evs :
  os.WriteFile name data x fs = (r, fs', evs) →
  evs = [OpWriteFile name data fs] ∧
  (∀ p, is_dir fs p = true → is_dir fs' p = true).
Proof.
  unfold os.WriteFile. destruct (fs !! name) as [[d y|]|] eqn:Hn.
  - intros [= <- <- <-]. split; [done|]. intros p Hp.
    apply is_dir_insert_File; [by rewrite Hn|done].
  - by intros [= <- <- <-].
  - destruct (match last (ancestors name) with Some d => is_dir fs d | None => true end);
      intros [= <- <- <-]; [|done].
    split; [done|]. intros p Hp. apply is_dir_insert_File; [by rewrite Hn|done].
Qed.

Lemma ReadFile_inv name fs r fs' evs :
  os.ReadFile name fs = (r, fs', evs) → evs = [OpReadFile name fs] ∧ fs' = fs.
Proof. unfold os.ReadFile. destruct (fs !! name) as [[]|]; by intros [= <- <- <-]. Qed.

Lemma ReadDir_inv name fs r fs' evs :
  os.ReadDir name fs = (r, fs', evs) → evs = [OpReadDir name fs] ∧ fs' = fs.
Proof. unfold os.ReadDir. destruct (fs !! name) as [[]|]; by intros [= <- <- <-]. Qed.

Lemma spec_assume {A} (P : FS → Prop) (m : M A) Q E (φ : Prop) :
  (∀ fs, P fs → φ) → (φ → spec P m Q E) → spec P m Q E.
Proof. intros Hφ Hm fs r fs' evs HP. by apply (Hm (Hφ fs HP)). Qed.

Lemma spec_events {A} P (m : M A) Q (E E' : Event → Prop) :
  spec P m Q E → (∀ e, E e → E' e) → spec P m Q E'.
Proof.
  intros Hm HE fs r fs' evs HP Hrun. destruct (Hm _ _ _ _ HP Hrun) as [Hev HQ].
  split; [|done]. eapply Forall_impl; [exact Hev|done].
Qed.

(** A step that leaves the file system alone and has one event. *)
Lemma spec_call {A} (P : FS → Prop) (m : M A) (e : Event) (E : Event → Prop) :
  (∀ fs, ∃ r, m fs = (r, fs, [e])) → E e → spec P m (λ _ fs, P fs) E.
Proof.
  intros Hm He fs r fs' evs HP Hrun. destruct (Hm fs) as [r' Hr'].
  rewrite Hr' in Hrun. injection Hrun as <- <- <-.
  split; [by apply Forall_singleton|done].
Qed.

Lemma spec_pure_result {A} (P : FS → Prop) (r : result A) E :
  spec P (pure_result r) (λ _ fs, P fs) E.
Proof. by intros fs r' fs' evs HP [= <- <- <-]. Qed.

Lemma spec_MkdirAll path (E : Event → Prop) :
  (∀ fs, E (OpMkdirAll path fs)) →
  spec (λ _, True) (os.MkdirAll path) (λ _ fs, is_dir fs path = true) E.
Proof.
  intros HE fs r fs' evs _ Hrun.
  destruct (MkdirAll_inv _ _ _ _ _ Hrun) as (-> & _ & Hdir).
  split; [by apply Forall_singleton|]. intros [] ->. by apply Hdir.
Qed.

Lemma spec_WriteFile dir name data x (E : Event → Prop) :
  (∀ fs, is_dir fs dir = true → E (OpWriteFile name data fs)) →
  spec (λ fs, is_dir fs dir = true) (os.WriteFile name data x)
       (λ _ fs, is_dir fs dir = true) E.
Proof.
  intros HE fs r fs' evs Hfs Hrun.
  destruct (WriteFile_inv _ _ _ _ _ _ _ Hrun) as (-> & Hdirs).
  split; [by apply Forall_singleton, HE|]. intros _ _. by apply Hdirs.
Qed.

Lemma spec_ReadFile (P : FS → Prop) name (E : Event → Prop) :
  (∀ fs, E (OpReadFile name fs)) → spec P (os.ReadFile name) (λ _ fs, P fs) E.
Proof.
  intros HE fs r fs' evs Hfs Hrun.
  destruct (ReadFile_inv _ _ _ _ _ Hrun) as (-> & ->).
  split; [by apply Forall_singleton|done].
Qed.

Lemma spec_ReadDir (P : FS → Prop) name (E : Event → Prop) :
  (∀ fs, E (OpReadDir name fs)) → spec P (os.ReadDir name) (λ _ fs, P fs) E.
Proof.
  intros HE fs r fs' evs Hfs Hrun.
  destruct (ReadDir_inv _ _ _ _ _ Hrun) as (-> & ->).
  split; [by apply Forall_singleton|done].
Qed.

Lemma spec_copy_entries src dest entries :
  spec (λ fs, is_dir fs dest = true) (fileio.copy_entries src dest entries)
       (λ _ fs, is_dir fs dest = true) (manifests_event dest).
Proof.
  induction entries as [|e entries IH]; cbn [fileio.copy_entries].
  - by apply spec_ret.
  - eapply spec_bind with (Q1 := λ _ fs, is_dir fs dest = true); [|intros ?; exact IH].
    destruct (IsDir e).
    + by apply spec_ret.
    + eapply spec_bind_wrap with (Q1 := λ _ fs, is_dir fs dest = true);
        [by apply spec_ReadFile|]. intros data.
      apply spec_WriteFile. intros fs Hfs. split; [done|by eexists].
Qed.

Lemma spec_CopyFiles src dest :
  spec (λ _, True) (fileio.CopyFiles src dest) (λ _ fs, is_dir fs dest = true)
       (manifests_event dest).
Proof.
  unfold fileio.CopyFiles.
  eapply spec_bind_wrap with (Q1 := λ _ _, True); [by apply spec_ReadDir|].
  intros entries.
  eapply spec_bind_wrap; [by apply spec_MkdirAll|]. intros ?.
  apply spec_copy_entries.
Qed.

Lemma reaches_bind {A B} (m : M A) (k : A → M B) T :
  (∀ a, reaches (k a) T) → reaches (bind m k) T.
Proof.
  intros Hk fs b fs' evs Hrun. apply bind_inv in Hrun as
    [(e & _ & [=]) | (a & fs1 & ev1 & ev2 & _ & Hk1 & ->)].
  apply Exists_app. right. by eapply Hk.
Qed.

Lemma reaches_bind_wrap {A B} (m : M A) what (k : A → M B) T :
  (∀ a, reaches (k a) T) → reaches (bind_wrap m what k) T.
Proof.
  intros Hk fs b fs' evs Hrun. apply bind_wrap_inv in Hrun as
    [(e & _ & [=]) | (a & fs1 & ev1 & ev2 & _ & Hk1 & ->)].
  apply Exists_app. right. by eapply Hk.
Qed.

Lemma reaches_bind_audit {A B} (m : M A) comp what (k : A → M B) T :
  (∀ a, reaches (k a) T) → reaches (bind_audit m comp what k) T.
Proof.
  intros Hk fs b fs' evs Hrun. apply bind_audit_inv in Hrun as
    [(e & ev1 & _ & [=] & _) | (a & fs1 & ev1 & ev2 & _ & Hk1 & ->)].
  apply Exists_app. right. by eapply Hk.
Qed.

Lemma reaches_first {A B} (m : M A) what (k : A → M B) T :
  reaches m T → reaches (bind_wrap m what k) T.
Proof.
  intros Hm fs b fs' evs Hrun. apply bind_wrap_inv in Hrun as
    [(e & _ & [=]) | (a & fs1 & ev1 & ev2 & Hm1 & _ & ->)].
  apply Exists_app. left. by eapply Hm.
Qed.

Lemma no_parse_render single multi nodes initialiser Pm e :
  no_parse e → installer_render single multi nodes initialiser Pm e.
Proof. by destruct e. Qed.

Lemma manifests_event_render dir single multi nodes initialiser Pm e :
  manifests_event dir e → installer_render single multi nodes initialiser Pm e.
Proof. destruct e; try done. by left. Qed.

Lemma bind_log {B} e (k : unit → M B) fs :
  bind (log e) k fs = ((k tt fs).1.1, (k tt fs).1.2, e :: (k tt fs).2).
Proof. done. Qed.

Lemma bind_log2 {B} e1 e2 (m : M B) fs :
  ((log e1 ;; log e2) ;; m) fs = ((m fs).1.1, (m fs).1.2, e1 :: e2 :: (m fs).2).
Proof. done. Qed.

Section proofs.
Context (env : Imports) (c : Combustion).

(** C10. With an empty Kubernetes version [configureKubernetes] returns the
    nil list and no error, leaves the file system as it was and has one
    event, the audit line that the component is skipped: no cluster is
    computed, no directory made, no template rendered. With a version that is
    not empty and contains neither distribution marker it returns an
    error. *)
Theorem empty_version_skips ctx fs :
  (Version (Kubernetes_ ctx) = "" →
   configureKubernetes env c ctx fs =
     (Ok [], fs, [AuditComponentSkipped k8sComponentName])) ∧
  (Version (Kubernetes_ ctx) ≠ "" →
   Contains (Version (Kubernetes_ ctx)) (KubernetesDistroRKE2 env) = false →
   Contains (Version (Kubernetes_ ctx)) (KubernetesDistroK3S env) = false →
   configureKubernetes env c ctx fs =
     (Err ("cannot configure kubernetes version: " +:+ Version (Kubernetes_ ctx)),
      fs, [AuditComponentFailed k8sComponentName])).
Proof.
  unfold configureKubernetes, kubernetesConfigurator. split.
  - intros Hv. by rewrite bool_decide_true.
  - intros Hv Hrke2 Hk3s. rewrite bool_decide_false by done.
    by rewrite Hrke2, Hk3s.
Qed.

(** C4. Once the two directories are made and the download delegate has
    returned without error, [downloadK3sArtefacts] succeeds if and only if
    the install directory then holds exactly one entry and the entry is not a
    directory; otherwise it returns an error. On success the binary path it
    returns ends with the name of that entry, and it leaves the file system
    as the delegate left it. *)
Theorem k3s_binary_is_the_single_entry ctx fs fs1 fs2 fs3 ev1 ev2 :
  let imagesDestination := Join [ArtefactsDir ctx; Join [k8sDir; k8sImagesDir]] in
  let installDestination := Join [ArtefactsDir ctx; Join [k8sDir; k8sInstallDir]] in
  os.MkdirAll imagesDestination fs = (Ok tt, fs1, ev1) →
  os.MkdirAll installDestination fs1 = (Ok tt, fs2, ev2) →
  DownloadK3sArtefacts c (Arch ctx) (Version (Kubernetes_ ctx))
    installDestination imagesDestination fs2 = (Ok tt, fs3) →
  let out := downloadK3sArtefacts env c ctx fs in
  (is_ok out.1.1 = true ↔
   ∃ entry, dir_listing fs3 installDestination = Some [entry] ∧ IsDir entry = false) ∧
  (∀ paths, out.1.1 = Ok paths →
   ∃ entry pre, dir_listing fs3 installDestination = Some [entry] ∧
                paths.1 = pre +:+ Name entry) ∧
  out.1.2 = fs3.
Proof.
  intros imagesDestination installDestination Himg Hinst Hdl out.
  subst out. unfold downloadK3sArtefacts.
  fold imagesDestination installDestination.
  rewrite (bind_wrap_ok _ _ _ _ _ _ _ Himg). cbn [fst snd].
  rewrite (bind_wrap_ok _ _ _ _ _ _ _ Hinst). cbn [fst snd].
  assert (call_DownloadK3sArtefacts c (Arch ctx) (Version (Kubernetes_ ctx))
            installDestination imagesDestination fs2 =
          (Ok tt, fs3, [CallDownloadK3sArtefacts (Arch ctx) (Version (Kubernetes_ ctx))
                          installDestination imagesDestination])) as Hcall.
  { unfold call_DownloadK3sArtefacts. by rewrite Hdl. }
  rewrite (bind_wrap_ok _ _ _ _ _ _ _ Hcall). cbn [fst snd].
  unfold bind_wrap, and_then, os.ReadDir, dir_listing.
  destruct (fs3 !! installDestination) as [[data x|]|] eqn:Hdir; cbn [fst snd fail].
  - split; [|done]. split; [done|]. by intros (? & ? & _).
  - destruct (entries_of fs3 installDestination) as [|entry [|entry' rest]] eqn:Hls;
      cbn [fst snd fail ret].
    + split; [|done]. split; [done|]. by intros (? & ? & _).
    + destruct (IsDir entry) eqn:Hd; cbn [fst snd fail ret].
      * split; [|done]. split; [done|]. intros (e & [= <-] & He). congruence.
      * split; [|split; [|done]].
        -- split; [|done]. intros _. by exists entry.
        -- intros paths [= <-]. cbn [fst]. unfold prependArtefactPath.
           destruct (Join_suffix (Join [k8sDir; k8sInstallDir]) (Name entry)) as [p1 Hp1].
           destruct (Join_suffix (artefactsRoot env)
                       (Join [Join [k8sDir; k8sInstallDir]; Name entry])) as [p2 Hp2].
           exists entry, (p2 +:+ p1). split; [done|].
           by rewrite Hp2, Hp1, append_assoc.
    + split; [|done]. split; [done|]. by intros (? & ? & _).
  - split; [|done]. split; [done|]. by intros (? & ? & _).
Qed.

Lemma spec_template_Parse (P : FS → Prop) name contents data (E : Event → Prop) :
  E (CallParse name contents data) →
  spec P (template_Parse env name contents data) (λ _ fs, P fs) E.
Proof. intros HE. eapply spec_call; [|exact HE]. intros fs. by eexists. Qed.

Lemma spec_call_HelmCharts (P : FS → Prop) registry (E : Event → Prop) :
  E CallHelmCharts → spec P (call_HelmCharts registry) (λ _ fs, P fs) E.
Proof. intros HE. eapply spec_call; [|exact HE]. intros fs. by eexists. Qed.

Lemma spec_storeHelmCharts dir charts :
  spec (λ fs, is_dir fs dir = true) (storeHelmCharts env dir charts)
       (λ _ fs, is_dir fs dir = true) (manifests_event dir).
Proof.
  induction charts as [|chart charts IH]; cbn [storeHelmCharts].
  - by apply spec_ret.
  - eapply spec_bind_wrap with (Q1 := λ _ fs, is_dir fs dir = true);
      [apply spec_pure_result|]. intros data.
    eapply spec_bind_wrap with (Q1 := λ _ fs, is_dir fs dir = true);
      [|intros ?; exact IH].
    apply spec_WriteFile. intros fs Hfs. split; [done|by eexists].
Qed.

Lemma spec_configureManifests ctx :
  spec (λ _, True) (configureManifests env c ctx) (λ _ _, True)
       (manifests_event (manifestDestDir ctx)).
Proof.
  unfold configureManifests. fold (manifestDestDir ctx).
  eapply spec_bind with (Q1 := λ _ _, True).
  { case_bool_decide.
    - eapply spec_bind_wrap; [by apply spec_MkdirAll|]. intros ?.
      eapply spec_bind_wrap with (Q1 := λ _ fs, is_dir fs (manifestDestDir ctx) = true).
      { by apply (spec_template_Parse (λ fs, is_dir fs (manifestDestDir ctx) = true)). }
      intros manifest.
      eapply spec_bind_wrap with (Q1 := λ _ _, True).
      { eapply spec_weaken;
          [apply spec_WriteFile; intros fs Hfs; split; [done|by eexists]|done|done]. }
      intros ?. by apply spec_ret.
    - by apply spec_ret. }
  intros populated.
  eapply spec_bind with (Q1 := λ _ _, True).
  { destruct (Registry_ c) as [registry|].
    - eapply spec_bind with (Q1 := λ _ _, True).
      { case_bool_decide.
        - eapply spec_bind_wrap with (Q1 := λ _ _, True).
          { eapply spec_weaken; [apply spec_CopyFiles|done|done]. }
          intros ?. by apply spec_ret.
        - by apply spec_ret. }
      intros populated'.
      eapply spec_bind_wrap with (Q1 := λ _ _, True).
      { by apply (spec_call_HelmCharts (λ _, True)). }
      intros charts. case_bool_decide.
      + eapply spec_bind_wrap; [by apply spec_MkdirAll|]. intros ?.
        eapply spec_bind with (Q1 := λ _ _, True).
        { eapply spec_weaken; [apply spec_storeHelmCharts|done|done]. }
        intros ?. by apply spec_ret.
      + by apply spec_ret.
    - by apply spec_ret. }
  intros populated'.
  destruct (negb populated'); by apply spec_ret.
Qed.

Lemma classic_has_content ctx : has_content c ctx ∨ ¬ has_content c ctx.
Proof.
  unfold has_content.
  destruct (decide (APIVIP (Network_ (Kubernetes_ ctx)) = "")) as [Hvip|Hvip];
    [|by left; left].
  destruct (Registry_ c) as [registry|] eqn:Hreg.
  - destruct (decide (ManifestsPath registry = "")) as [Hpath|Hpath].
    + destruct (HelmCharts registry) as [[|chart charts]|err] eqn:Hcharts.
      * right. intros [?|(reg & [= <-] & [?|(charts & Hc & Hne)])]; congruence.
      * left. right. exists registry. split; [done|]. right. by eexists.
      * right. intros [?|(reg & [= <-] & [?|(charts & Hc & Hne)])]; congruence.
    + left. right. exists registry. split; [done|by left].
  - right. intros [?|(reg & ? & _)]; congruence.
Qed.

Lemma configureManifests_nothing ctx fs :
  APIVIP (Network_ (Kubernetes_ ctx)) = "" →
  (∀ registry, Registry_ c = Some registry →
     ManifestsPath registry = "" ∧ HelmCharts registry = Ok []) →
  configureManifests env c ctx fs =
    (Ok "", fs, match Registry_ c with Some _ => [CallHelmCharts] | None => [] end).
Proof.
  intros Hvip Hreg. unfold configureManifests.
  rewrite (bool_decide_false _ (λ H, H Hvip)).
  destruct (Registry_ c) as [registry|]; [|done].
  destruct (Hreg registry eq_refl) as [Hpath Hcharts].
  rewrite (bool_decide_false _ (λ H, H Hpath)).
  unfold bind, bind_wrap, and_then, call_HelmCharts. cbn [fst snd ret].
  by rewrite Hcharts.
Qed.

Lemma configureManifests_lazy ctx fs r fs' evs :
  configureManifests env c ctx fs = (r, fs', evs) →
  ¬ has_content c ctx → ∀ e, e ∈ evs → e = CallHelmCharts.
Proof.
  intros Hrun Hno.
  assert (APIVIP (Network_ (Kubernetes_ ctx)) = "") as Hvip.
  { destruct (decide (APIVIP (Network_ (Kubernetes_ ctx)) = "")); [done|].
    exfalso. apply Hno. by left. }
  revert Hrun. unfold configureManifests.
  rewrite (bool_decide_false _ (λ H, H Hvip)).
  destruct (Registry_ c) as [registry|] eqn:Hreg.
  - assert (ManifestsPath registry = "") as Hpath.
    { destruct (decide (ManifestsPath registry = "")); [done|].
      exfalso. apply Hno. right. exists registry. split; [done|by left]. }
    rewrite (bool_decide_false _ (λ H, H Hpath)).
    unfold bind, bind_wrap, and_then, call_HelmCharts. cbn [fst snd ret].
    destruct (HelmCharts registry) as [charts|err] eqn:Hcharts.
    + destruct charts as [|chart charts].
      * cbn. intros [= <- <- <-] e. by intros ->%list_elem_of_singleton.
      * exfalso. apply Hno. right. exists registry. split; [done|]. right. by eexists.
    + cbn. intros [= <- <- <-] e. by intros ->%list_elem_of_singleton.
  - cbn. intros [= <- <- <-] e. by intros ?%elem_of_nil.
Qed.

(** C7. In every run of [configureManifests], whenever a file is written (the
    VIP manifest, a raw manifest of the registry, a Helm chart) it is written
    into the manifests directory and the directory exists in the file system
    the write starts from. The directory is made lazily: it is made only in a
    run in which some contributor has content. *)
Theorem manifests_directory_before_content ctx fs r fs' evs :
  configureManifests env c ctx fs = (r, fs', evs) →
  (∀ path data before, OpWriteFile path data before ∈ evs →
     is_dir before (manifestDestDir ctx) = true ∧
     ∃ name, path = Join [manifestDestDir ctx; name]) ∧
  (∀ path before, OpMkdirAll path before ∈ evs →
     path = manifestDestDir ctx ∧ has_content c ctx).
Proof.
  intros Hrun.
  destruct (spec_configureManifests ctx fs r fs' evs Logic.I Hrun) as [Hev _].
  rewrite Forall_forall in Hev. split.
  - intros path data before Hin. exact (Hev _ Hin).
  - intros path before Hin. split; [exact (Hev _ Hin)|].
    destruct (classic_has_content ctx) as [Hc|Hc]; [done|].
    by specialize (configureManifests_lazy _ _ _ _ _ Hrun Hc _ Hin).
Qed.

Lemma spec_downloadKubernetesInstallScript ctx distribution :
  spec (λ _, True) (downloadKubernetesInstallScript env c ctx distribution)
       (λ _ _, True) no_parse.
Proof.
  unfold downloadKubernetesInstallScript. cbv zeta.
  eapply spec_bind_wrap with (Q1 := λ _ _, True); [|intros ?; by apply spec_ret].
  intros fs r fs' evs _ [= <- <- <-]. split; [by apply Forall_singleton|done].
Qed.

Lemma spec_downloadK3sArtefacts ctx :
  spec (λ _, True) (downloadK3sArtefacts env c ctx) (λ _ _, True) no_parse.
Proof.
  unfold downloadK3sArtefacts. cbv zeta.
  eapply spec_bind_wrap with (Q1 := λ _ _, True).
  { eapply spec_weaken; [by apply spec_MkdirAll|done|done]. } intros ?.
  eapply spec_bind_wrap with (Q1 := λ _ _, True);
    [eapply spec_weaken; [by apply spec_MkdirAll|done|done]|intros ?].
  eapply spec_bind_wrap with (Q1 := λ _ _, True).
  { intros fs r fs' evs _ [= <- <- <-]. split; [by apply Forall_singleton|done]. }
  intros ?.
  eapply spec_bind_wrap with (Q1 := λ _ _, True); [by apply spec_ReadDir|].
  intros [|entry [|]]; try apply spec_fail.
  destruct (IsDir entry); [apply spec_fail|by apply spec_ret].
Qed.

Lemma spec_downloadRKE2Artefacts ctx cluster :
  spec (λ _, True) (downloadRKE2Artefacts env c ctx cluster) (λ _ _, True) no_parse.
Proof.
  unfold downloadRKE2Artefacts. cbv zeta.
  eapply spec_bind_wrap with (Q1 := λ _ _, True); [apply spec_pure_result|intros ?].
  eapply spec_bind_wrap with (Q1 := λ _ _, True);
    [eapply spec_weaken; [by apply spec_MkdirAll|done|done]|intros ?].
  eapply spec_bind_wrap with (Q1 := λ _ _, True);
    [eapply spec_weaken; [by apply spec_MkdirAll|done|done]|intros ?].
  eapply spec_bind_wrap with (Q1 := λ _ _, True); [|intros ?; by apply spec_ret].
  intros fs r fs' evs _ [= <- <- <-]. split; [by apply Forall_singleton|done].
Qed.

Lemma spec_storeKubernetesInstaller ctx name contents data (E : Event → Prop) :
  E (CallParse name contents data) →
  (∀ path text fs, E (OpWriteFile path text fs)) →
  spec (λ _, True) (storeKubernetesInstaller env ctx name contents data)
       (λ _ _, True) E.
Proof.
  intros Hparse Hwrite. unfold storeKubernetesInstaller. cbv zeta.
  eapply spec_bind_wrap with (Q1 := λ _ _, True);
    [by apply (spec_template_Parse (λ _, True))|intros text].
  eapply spec_bind_wrap with (Q1 := λ _ _, True); [|intros ?; by apply spec_ret].
  intros fs r fs' evs _ Hrun.
  destruct (WriteFile_inv _ _ _ _ _ _ _ Hrun) as (-> & _).
  split; [by apply Forall_singleton|done].
Qed.

Lemma spec_configureK3S (Pm : string → Prop) ctx cluster :
  spec (λ _, True) (configureManifests env c ctx) (λ mp _, Pm mp)
       (manifests_event (manifestDestDir ctx)) →
  spec (λ _, True) (configureK3S env c ctx cluster) (λ _ _, True)
       (installer_render k3sSingleNodeInstaller k3sMultiNodeInstaller
          (Nodes (Kubernetes_ ctx)) (InitialiserName cluster) Pm).
Proof.
  intros Hmanifests. unfold configureK3S. cbv zeta.
  eapply spec_bind with (Q1 := λ _ _, True); [by apply spec_log|intros ?].
  eapply spec_bind_wrap with (Q1 := λ _ _, True).
  { eapply spec_events; [apply spec_downloadKubernetesInstallScript|].
    apply no_parse_render. }
  intros installScript.
  eapply spec_bind_wrap with (Q1 := λ _ _, True).
  { eapply spec_events; [apply spec_downloadK3sArtefacts|]. apply no_parse_render. }
  intros paths.
  eapply spec_bind_wrap with (Q1 := λ mp _, Pm mp).
  { eapply spec_events; [exact Hmanifests|]. apply manifests_event_render. }
  intros manifestsPath. cbv zeta.
  apply (spec_assume _ _ _ _ (Pm manifestsPath)); [done|intros HPm].
  apply (spec_weaken _ (λ _, True) _ _ (λ _ _, True)); [|done|done].
  case_bool_decide as Hn.
  - eapply spec_bind with (Q1 := λ _ _, True).
    { case_bool_decide; [by apply spec_log|].
      eapply spec_bind with (Q1 := λ _ _, True); [by apply spec_log|intros ?].
      by apply spec_log. }
    intros ?. apply spec_storeKubernetesInstaller; [|done].
    right. eexists _, manifestsPath. split; [done|]. split; [done|].
    rewrite (bool_decide_true _ Hn). by rewrite !lookup_insert_ne.
  - eapply spec_bind with (Q1 := λ _ _, True); [by apply spec_log|intros ?].
    eapply spec_bind with (Q1 := λ _ _, True); [by apply spec_log|intros ?].
    apply spec_storeKubernetesInstaller; [|done].
    right. eexists _, manifestsPath. split; [done|]. split; [done|].
    rewrite (bool_decide_false _ Hn).
    split; [by rewrite !lookup_insert_ne|]. split; [done|].
    split; [|by rewrite lookup_insert_eq].
    rewrite lookup_insert_ne by done. by rewrite lookup_insert_ne.
Qed.

Lemma spec_configureRKE2 (Pm : string → Prop) ctx cluster :
  spec (λ _, True) (configureManifests env c ctx) (λ mp _, Pm mp)
       (manifests_event (manifestDestDir ctx)) →
  spec (λ _, True) (configureRKE2 env c ctx cluster) (λ _ _, True)
       (installer_render rke2SingleNodeInstaller rke2MultiNodeInstaller
          (Nodes (Kubernetes_ ctx)) (InitialiserName cluster) Pm).
Proof.
  intros Hmanifests. unfold configureRKE2. cbv zeta.
  eapply spec_bind with (Q1 := λ _ _, True); [by apply spec_log|intros ?].
  eapply spec_bind_wrap with (Q1 := λ _ _, True).
  { eapply spec_events; [apply spec_downloadKubernetesInstallScript|].
    apply no_parse_render. }
  intros installScript.
  eapply spec_bind_wrap with (Q1 := λ _ _, True).
  { eapply spec_events; [apply spec_downloadRKE2Artefacts|]. apply no_parse_render. }
  intros paths.
  eapply spec_bind_wrap with (Q1 := λ mp _, Pm mp).
  { eapply spec_events; [exact Hmanifests|]. apply manifests_event_render. }
  intros manifestsPath. cbv zeta.
  apply (spec_assume _ _ _ _ (Pm manifestsPath)); [done|intros HPm].
  apply (spec_weaken _ (λ _, True) _ _ (λ _ _, True)); [|done|done].
  case_bool_decide as Hn.
  - eapply spec_bind with (Q1 := λ _ _, True).
    { case_bool_decide; [by apply spec_log|by apply spec_ret]. }
    intros ?. apply spec_storeKubernetesInstaller; [|done].
    right. eexists _, manifestsPath. split; [done|]. split; [done|].
    rewrite (bool_decide_true _ Hn). by rewrite !lookup_insert_ne.
  - apply spec_storeKubernetesInstaller; [|done].
    right. eexists _, manifestsPath. split; [done|]. split; [done|].
    rewrite (bool_decide_false _ Hn).
    split; [by rewrite !lookup_insert_ne|]. split; [done|].
    split; [|by rewrite lookup_insert_eq].
    rewrite lookup_insert_ne by done. by rewrite lookup_insert_ne.
Qed.

Lemma reaches_storeKubernetesInstaller ctx name contents data :
  contents ≠ k8sVIPManifest →
  reaches (storeKubernetesInstaller env ctx name contents data) installer_parse.
Proof.
  intros Hc. unfold storeKubernetesInstaller. apply reaches_first.
  intros fs text fs' evs [= _ _ <-]. by apply Exists_cons_hd.
Qed.

Lemma reaches_configureK3S ctx cluster :
  reaches (configureK3S env c ctx cluster) installer_parse.
Proof.
  unfold configureK3S. cbv zeta.
  apply reaches_bind; intros ?. do 3 (apply reaches_bind_wrap; intros ?).
  case_bool_decide.
  - apply reaches_bind; intros ?. by apply reaches_storeKubernetesInstaller.
  - do 2 (apply reaches_bind; intros ?). by apply reaches_storeKubernetesInstaller.
Qed.

Lemma reaches_configureRKE2 ctx cluster :
  reaches (configureRKE2 env c ctx cluster) installer_parse.
Proof.
  unfold configureRKE2. cbv zeta.
  apply reaches_bind; intros ?. do 3 (apply reaches_bind_wrap; intros ?).
  case_bool_decide.
  - apply reaches_bind; intros ?. by apply reaches_storeKubernetesInstaller.
  - by apply reaches_storeKubernetesInstaller.
Qed.

Lemma installer_render_by_node_count single multi ctx cluster evs :
  single ≠ multi →
  Forall (installer_render single multi (Nodes (Kubernetes_ ctx))
            (InitialiserName cluster) (λ _, True)) evs →
  renders_by_node_count single multi ctx cluster evs.
Proof.
  intros Hne Hev name contents data Hin Hnot.
  rewrite Forall_forall in Hev. specialize (Hev _ Hin). cbn in Hev.
  destruct Hev as [?|(values & mp & -> & _ & _ & Hshape)]; [done|].
  case_bool_decide as Hn.
  - destruct Hshape as (-> & _). split; [done|]. split; [|lia].
    split; [done|lia].
  - destruct Hshape as (-> & Hnodes & Hinit & Hfile).
    split; [split; [by intros ?|lia]|]. split; [split; [lia|done]|].
    intros _. by exists values.
Qed.

(** C6. With no API VIP, and a registry (if any) that has no manifests path
    and no Helm chart, [configureManifests] returns the empty string, leaves
    the file system as it was and makes no directory and writes no file; and
    every installer that [configureK3S] or [configureRKE2] then renders gets
    the empty string as [manifestsPath]. *)
Theorem no_content_empty_manifestsPath ctx :
  APIVIP (Network_ (Kubernetes_ ctx)) = "" →
  (∀ registry, Registry_ c = Some registry →
     ManifestsPath registry = "" ∧ HelmCharts registry = Ok []) →
  (∀ fs, ∃ evs, configureManifests env c ctx fs = (Ok "", fs, evs) ∧
      (∀ path before, OpMkdirAll path before ∉ evs) ∧
      (∀ path data before, OpWriteFile path data before ∉ evs)) ∧
  (∀ cluster fs r fs' evs name contents values,
      configureK3S env c ctx cluster fs = (r, fs', evs) ∨
      configureRKE2 env c ctx cluster fs = (r, fs', evs) →
      CallParse name contents (DataMap values) ∈ evs →
      contents ≠ k8sVIPManifest →
      values !! "manifestsPath" = Some (VStr "")).
Proof.
  intros Hvip Hreg. split.
  - intros fs. eexists. split; [by apply configureManifests_nothing|].
    destruct (Registry_ c);
      (split; [intros path before Hin|intros path data before Hin]);
      by first [apply list_elem_of_singleton in Hin|apply elem_of_nil in Hin].
  - assert (spec (λ _, True) (configureManifests env c ctx) (λ mp _, mp = "")
              (manifests_event (manifestDestDir ctx))) as Hm.
    { intros fs r fs' evs _ Hrun.
      split; [by apply (spec_configureManifests ctx fs r fs' evs)|].
      rewrite (configureManifests_nothing ctx fs Hvip Hreg) in Hrun. congruence. }
    intros cluster fs r fs' evs name contents values Hrun Hin Hnot.
    assert (∃ single multi,
      Forall (installer_render single multi (Nodes (Kubernetes_ ctx))
                (InitialiserName cluster) (λ mp, mp = "")) evs)
      as (single & multi & Hev).
    { destruct Hrun as [Hrun|Hrun].
      - exists k3sSingleNodeInstaller, k3sMultiNodeInstaller.
        by apply (spec_configureK3S _ ctx cluster Hm fs r fs' evs).
      - exists rke2SingleNodeInstaller, rke2MultiNodeInstaller.
        by apply (spec_configureRKE2 _ ctx cluster Hm fs r fs' evs). }
    rewrite Forall_forall in Hev. specialize (Hev _ Hin). cbn in Hev.
    destruct Hev as [?|(values' & mp & [= <-] & -> & Hmp & _)]; done.
Qed.

End proofs.


(* ===================================================================== *)
(** * The build of the example cluster *)
(* ===================================================================== *)

Lemma run_triple {A} (out : result A * FS * list Event) :
  out = (out.1.1, out.1.2, out.2).
Proof. by destruct out as [[??]?]. Qed.

Lemma run_ok {A} (out : result A * FS * list Event) (a : A) :
  out.1.1 = Ok a → out = (Ok a, out.1.2, out.2).
Proof. destruct out as [[??]?]. cbn. by intros ->. Qed.

Lemma call_ok {A} (out : result A * FS) (a : A) :
  out.1 = Ok a → out = (Ok a, out.2).
Proof. destruct out as [??]. cbn. by intros ->. Qed.

Example example_build :
  let out := configureKubernetes example_imports
               (example_combustion (Some example_registry))
               (example_context "v1.29.0+k3s1" example_nodes "192.168.100.1")
               example_fs in
  out.1.1 = Ok [k8sInstallScript] ∧
  out.1.2 !! "/build/combustion/20-k8s-install.sh" =
    Some (File (String.concat newline (text example_script)) true) ∧
  (fst <$> map_to_list (filter (λ kv, entry_name "/build/artefacts/kubernetes/manifests"
                                         kv.1 ≠ None) out.1.2)) ≡ₚ
    [ "/build/artefacts/kubernetes/manifests/k8s-vip.yaml";
      "/build/artefacts/kubernetes/manifests/metallb.yaml";
      "/build/artefacts/kubernetes/manifests/ns.yaml" ].
Proof. vm_compute. split; [done|]. split; [done|]. apply Permutation_refl. Qed.

(** Section 8: an install directory with no file, or with two, is an error;
    with one it is the binary. *)
Example k3s_staging :
  let stage binaries :=
    (downloadK3sArtefacts example_imports (combustion_with binaries None)
       (example_context "v1.29.0+k3s1" one_server "") example_fs).1.1 in
  stage ["k3s"] = Ok ("$ARTEFACTS_DIR/kubernetes/install/k3s",
                      "$ARTEFACTS_DIR/kubernetes/images") ∧
  stage [] = Err "k3s install path contains unexpected entries: []" ∧
  stage ["k3s"; "k3s-arm64"] =
    Err "k3s install path contains unexpected entries: [k3s k3s-arm64]".
Proof. vm_compute. done. Qed.

Lemma empty_version_skips_witness :
  configureKubernetes example_imports (example_combustion None)
    (example_context "" example_nodes "") example_fs =
    (Ok [], example_fs, [AuditComponentSkipped k8sComponentName]) ∧
  is_ok (configureKubernetes example_imports (example_combustion None)
           (example_context "v1.29.0" example_nodes "") example_fs).1.1 = false.
Proof.
  split.
  - exact (proj1 (empty_version_skips example_imports (example_combustion None)
                    (example_context "" example_nodes "") example_fs) eq_refl).
  - rewrite (proj2 (empty_version_skips example_imports (example_combustion None)
                      (example_context "v1.29.0" example_nodes "") example_fs)
               ltac:(discriminate) eq_refl eq_refl).
    reflexivity.
Defined.

Lemma k3s_binary_is_the_single_entry_witness :
  is_ok (downloadK3sArtefacts example_imports (example_combustion None)
           (example_context "v1.29.0+k3s1" one_server "") example_fs).1.1 = true.
Proof.
  set (c := example_combustion None).
  set (ctx := example_context "v1.29.0+k3s1" one_server "").
  set (images := Join [ArtefactsDir ctx; Join [k8sDir; k8sImagesDir]]).
  set (install := Join [ArtefactsDir ctx; Join [k8sDir; k8sInstallDir]]).
  set (run1 := os.MkdirAll images example_fs).
  set (run2 := os.MkdirAll install run1.1.2).
  set (run3 := DownloadK3sArtefacts c (Arch ctx) (Version (Kubernetes_ ctx))
                 install images run2.1.2).
  destruct (k3s_binary_is_the_single_entry example_imports c ctx example_fs
              run1.1.2 run2.1.2 run3.2 run1.2 run2.2
              (run_ok run1 tt ltac:(vm_compute; reflexivity))
              (run_ok run2 tt ltac:(vm_compute; reflexivity))
              (call_ok run3 tt ltac:(vm_compute; reflexivity))) as [Hiff _].
  apply Hiff. exists {| Name := "k3s"; IsDir := false |}.
  split; vm_compute; reflexivity.
Defined.

Lemma manifests_directory_before_content_witness :
  is_dir (os.MkdirAll (manifestDestDir example_multi_node) example_fs).1.2
         (manifestDestDir example_multi_node) = true ∧
  ∃ name, Join [manifestDestDir example_multi_node; "k8s-vip.yaml"] =
          Join [manifestDestDir example_multi_node; name].
Proof.
  apply (proj1 (manifests_directory_before_content example_imports
                  (example_combustion (Some example_registry)) example_multi_node
                  example_fs _ _ _ (run_triple _)) _ "# k8s-vip" _).
  vm_compute. do 2 apply list_elem_of_further. apply list_elem_of_here.
Defined.

Lemma no_content_empty_manifestsPath_witness :
  ∃ evs, configureManifests example_imports (example_combustion (Some empty_registry))
           (example_context "v1.29.0+k3s1" one_server "") example_fs =
           (Ok "", example_fs, evs) ∧
         (∀ path before, OpMkdirAll path before ∉ evs) ∧
         (∀ path data before, OpWriteFile path data before ∉ evs).
Proof.
  apply (proj1 (no_content_empty_manifestsPath example_imports
                  (example_combustion (Some empty_registry))
                  (example_context "v1.29.0+k3s1" one_server "") eq_refl
                  ltac:(by intros ? [= <-]))).
Defined.

(* ===================================================================== *)
(** * The build, step by step *)
(* ===================================================================== *)

Lemma bind_Ok {A B} (m : M A) (k : A → M B) fs b fs' evs :
  bind m k fs = (Ok b, fs', evs) →
  ∃ a fs1 ev1 ev2, m fs = (Ok a, fs1, ev1) ∧ k a fs1 = (Ok b, fs', ev2) ∧ evs = ev1 ++ ev2.
Proof. by intros [(e & _ & [=])|?]%bind_inv. Qed.

Lemma bind_wrap_Ok {A B} (m : M A) what (k : A → M B) fs b fs' evs :
  bind_wrap m what k fs = (Ok b, fs', evs) →
  ∃ a fs1 ev1 ev2, m fs = (Ok a, fs1, ev1) ∧ k a fs1 = (Ok b, fs', ev2) ∧ evs = ev1 ++ ev2.
Proof. by intros [(e & _ & [=])|?]%bind_wrap_inv. Qed.

Lemma bind_audit_Ok {A B} (m : M A) comp what (k : A → M B) fs b fs' evs :
  bind_audit m comp what k fs = (Ok b, fs', evs) →
  ∃ a fs1 ev1 ev2, m fs = (Ok a, fs1, ev1) ∧ k a fs1 = (Ok b, fs', ev2) ∧ evs = ev1 ++ ev2.
Proof. by intros [(e & ev1 & _ & [=] & _)|?]%bind_audit_inv. Qed.

Lemma WriteFile_Ok name data x fs fs' evs :
  os.WriteFile name data x fs = (Ok tt, fs', evs) →
  ∃ x', fs' = <[name := File data x']> fs.
Proof.
  unfold os.WriteFile. destruct (fs !! name) as [[old y|]|].
  - intros [= <- _]. by exists y.
  - done.
  - destruct (match last (ancestors name) with Some d => is_dir fs d | None => true end);
      [|done]. intros [= <- _]. by exists x.
Qed.

Lemma WriteFile_Err name data x fs e fs' evs :
  os.WriteFile name data x fs = (Err e, fs', evs) → fs' = fs.
Proof.
  unfold os.WriteFile. destruct (fs !! name) as [[old y|]|]; [done|by intros [= _ <- _]|].
  destruct (match last (ancestors name) with Some d => is_dir fs d | None => true end);
    [done|by intros [= _ <- _]].
Qed.

Lemma append_inj_l (s a b : string) : s +:+ a = s +:+ b → a = b.
Proof. induction s as [|ch s IH]; [done|]. intros [= H]. by apply IH. Qed.

Lemma length_append (a b : string) :
  String.length (a +:+ b) = String.length a + String.length b.
Proof. induction a as [|ch a IH]; [done|]. simpl. by rewrite IH. Qed.

Lemma append_inj_r (s a b : string) : a +:+ s = b +:+ s → a = b.
Proof.
  revert b. induction a as [|ch a IH]; intros [|ch' b] H; [done| | |].
  - apply (f_equal String.length) in H. rewrite !length_append in H. simpl in H. lia.
  - apply (f_equal String.length) in H. rewrite !length_append in H. simpl in H. lia.
  - injection H as -> H. by rewrite (IH b H).
Qed.

Lemma Join_inj (dir a b : string) :
  a ≠ "" → b ≠ "" → Join [dir; a] = Join [dir; b] → a = b.
Proof.
  intros Ha Hb. rewrite !Join_pair. repeat case_decide; try done.
  intros Heq%append_inj_l. by apply (append_inj_l "/").
Qed.

Lemma append_nonempty (a s : string) : s ≠ "" → a +:+ s ≠ "".
Proof. by destruct a, s. Qed.

Section journal.
Context (env : Imports) (c : Combustion).

Lemma storeKubernetesInstaller_inv ctx name contents data fs r fs' evs :
  storeKubernetesInstaller env ctx name contents data fs = (r, fs', evs) →
  let script := Join [CombustionDir ctx; k8sInstallScript] in
  match r with
  | Ok s =>
      s = k8sInstallScript ∧
      ∃ text x, Parse env name contents data = Ok text ∧
                fs' = <[script := File text x]> fs ∧
                evs = [CallParse name contents data; OpWriteFile script text fs]
  | Err msg =>
      fs' = fs ∧
      ((∃ e, Parse env name contents data = Err e ∧
             msg = Errorf ("parsing '" +:+ name +:+ "' template") e ∧
             evs = [CallParse name contents data]) ∨
       (∃ text e, Parse env name contents data = Ok text ∧
                  msg = Errorf "writing kubernetes install script" e ∧
                  evs = [CallParse name contents data; OpWriteFile script text fs]))
  end.
Proof.
  unfold storeKubernetesInstaller, bind_wrap, and_then, template_Parse. cbn [fst snd].
  destruct (Parse env name contents data) as [text|e]; cbn [fail fst snd].
  2:{ intros [= <- <- <-]. split; [done|]. left. by exists e. }
  destruct (os.WriteFile _ text fileio.ExecutablePerms fs) as [[[[]|e] fs1] ev1] eqn:Hw;
    cbn [ret fail fst snd]; intros [= <- <- <-].
  - destruct (WriteFile_inv _ _ _ _ _ _ _ Hw) as [-> _].
    destruct (WriteFile_Ok _ _ _ _ _ _ Hw) as [x ->].
    split; [done|]. by exists text, x.
  - destruct (WriteFile_inv _ _ _ _ _ _ _ Hw) as [-> _].
    rewrite (WriteFile_Err _ _ _ _ _ _ _ Hw). split; [done|]. right. by exists text, e.
Qed.


Lemma manifests_event_configure dir rke2 e :
  manifests_event dir e → configure_event env rke2 e.
Proof. destruct e; try done. intros ->. split; [by left|done]. Qed.

(** The events of the downloads, whatever is asked of an event. *)
Lemma spec_downloadKubernetesInstallScript_any ctx distribution (E : Event → Prop) :
  (∀ path, E (CallDownloadInstallScript distribution path)) →
  spec (λ _, True) (downloadKubernetesInstallScript env c ctx distribution)
       (λ _ _, True) E.
Proof.
  intros HE. unfold downloadKubernetesInstallScript. cbv zeta.
  eapply spec_bind_wrap with (Q1 := λ _ _, True); [|intros ?; by apply spec_ret].
  intros fs r fs' evs _ [= <- <- <-]. split; [by apply Forall_singleton|done].
Qed.

Lemma spec_downloadK3sArtefacts_any ctx (E : Event → Prop) :
  (∀ path fs, E (OpMkdirAll path fs)) → (∀ path fs, E (OpReadDir path fs)) →
  (∀ arch version installPath imagesPath,
     E (CallDownloadK3sArtefacts arch version installPath imagesPath)) →
  spec (λ _, True) (downloadK3sArtefacts env c ctx) (λ _ _, True) E.
Proof.
  intros Hmk Hdir Hcall. unfold downloadK3sArtefacts. cbv zeta.
  eapply spec_bind_wrap with (Q1 := λ _ _, True).
  { eapply spec_weaken; [by apply spec_MkdirAll|done|done]. } intros ?.
  eapply spec_bind_wrap with (Q1 := λ _ _, True);
    [eapply spec_weaken; [by apply spec_MkdirAll|done|done]|intros ?].
  eapply spec_bind_wrap with (Q1 := λ _ _, True).
  { intros fs r fs' evs _ [= <- <- <-]. split; [by apply Forall_singleton|done]. }
  intros ?.
  eapply spec_bind_wrap with (Q1 := λ _ _, True); [by apply spec_ReadDir|].
  intros [|entry [|]]; try apply spec_fail.
  destruct (IsDir entry); [apply spec_fail|by apply spec_ret].
Qed.

Lemma spec_downloadRKE2Artefacts_any ctx cluster (E : Event → Prop) :
  (∀ path fs, E (OpMkdirAll path fs)) →
  (∀ arch version cni multus installPath imagesPath,
     E (CallDownloadRKE2Artefacts arch version cni multus installPath imagesPath)) →
  spec (λ _, True) (downloadRKE2Artefacts env c ctx cluster)
    (λ paths _, paths = (prependArtefactPath env (Join [k8sDir; k8sInstallDir]),
                         prependArtefactPath env (Join [k8sDir; k8sImagesDir]))) E.
Proof.
  intros Hmk Hcall. unfold downloadRKE2Artefacts. cbv zeta.
  eapply spec_bind_wrap with (Q1 := λ _ _, True); [apply spec_pure_result|intros ?].
  eapply spec_bind_wrap with (Q1 := λ _ _, True);
    [eapply spec_weaken; [by apply spec_MkdirAll|done|done]|intros ?].
  eapply spec_bind_wrap with (Q1 := λ _ _, True);
    [eapply spec_weaken; [by apply spec_MkdirAll|done|done]|intros ?].
  eapply spec_bind_wrap with (Q1 := λ _ _, True); [|intros ?; by apply spec_ret].
  intros fs r fs' evs _ [= <- <- <-]. split; [by apply Forall_singleton|done].
Qed.

Lemma spec_configureManifests_any ctx (E : Event → Prop) :
  (∀ e, manifests_event (manifestDestDir ctx) e → E e) →
  spec (λ _, True) (configureManifests env c ctx) (λ _ _, True) E.
Proof. intros HE. eapply spec_events; [apply spec_configureManifests|exact HE]. Qed.

Lemma spec_downloadKubernetesInstallScript_events ctx (rke2 : bool) :
  spec (λ _, True)
    (downloadKubernetesInstallScript env c ctx
       (if rke2 then KubernetesDistroRKE2 env else KubernetesDistroK3S env))
    (λ _ _, True) (configure_event env rke2).
Proof. by apply spec_downloadKubernetesInstallScript_any. Qed.

Lemma spec_downloadK3sArtefacts_events ctx :
  spec (λ _, True) (downloadK3sArtefacts env c ctx) (λ _ _, True)
       (configure_event env false).
Proof. by apply spec_downloadK3sArtefacts_any. Qed.

Lemma spec_downloadRKE2Artefacts_events ctx cluster :
  spec (λ _, True) (downloadRKE2Artefacts env c ctx cluster) (λ _ _, True)
       (configure_event env true).
Proof.
  eapply spec_weaken; [by apply spec_downloadRKE2Artefacts_any|done|done].
Qed.

Lemma spec_configureK3S_events ctx cluster :
  spec (λ _, True) (configureK3S env c ctx cluster) (λ _ _, True)
       (configure_event env false).
Proof.
  unfold configureK3S. cbv zeta.
  eapply spec_bind with (Q1 := λ _ _, True); [by apply spec_log|intros ?].
  eapply spec_bind_wrap with (Q1 := λ _ _, True);
    [apply (spec_downloadKubernetesInstallScript_events ctx false)|intros installScript].
  eapply spec_bind_wrap with (Q1 := λ _ _, True);
    [apply spec_downloadK3sArtefacts_events|intros paths].
  eapply spec_bind_wrap with (Q1 := λ _ _, True);
    [apply spec_configureManifests_any, manifests_event_configure|].
  intros manifestsPath. case_bool_decide.
  - eapply spec_bind with (Q1 := λ _ _, True).
    { case_bool_decide; [by apply spec_log|].
      eapply spec_bind with (Q1 := λ _ _, True); [by apply spec_log|intros ?].
      by apply spec_log. }
    intros ?. apply spec_storeKubernetesInstaller; [|done].
    split; [right; by left|done].
  - eapply spec_bind with (Q1 := λ _ _, True); [by apply spec_log|intros ?].
    eapply spec_bind with (Q1 := λ _ _, True); [by apply spec_log|intros ?].
    apply spec_storeKubernetesInstaller; [|done].
    split; [right; by right|done].
Qed.

Lemma spec_configureRKE2_events ctx cluster :
  spec (λ _, True) (configureRKE2 env c ctx cluster) (λ _ _, True)
       (configure_event env true).
Proof.
  unfold configureRKE2. cbv zeta.
  eapply spec_bind with (Q1 := λ _ _, True); [by apply spec_log|intros ?].
  eapply spec_bind_wrap with (Q1 := λ _ _, True);
    [apply (spec_downloadKubernetesInstallScript_events ctx true)|intros installScript].
  eapply spec_bind_wrap with (Q1 := λ _ _, True);
    [apply spec_downloadRKE2Artefacts_events|intros paths].
  eapply spec_bind_wrap with (Q1 := λ _ _, True);
    [apply spec_configureManifests_any, manifests_event_configure|].
  intros manifestsPath. case_bool_decide.
  - eapply spec_bind with (Q1 := λ _ _, True).
    { case_bool_decide; [by apply spec_log|by apply spec_ret]. }
    intros ?. apply spec_storeKubernetesInstaller; [|done].
    split; [right; by left|done].
  - apply spec_storeKubernetesInstaller; [|done].
    split; [right; by right|done].
Qed.

Lemma kubernetesConfigurator_inv version f :
  kubernetesConfigurator env c version = Some f →
  f = if Contains version (KubernetesDistroRKE2 env)
      then configureRKE2 env c else configureK3S env c.
Proof.
  unfold kubernetesConfigurator.
  destruct (Contains version (KubernetesDistroRKE2 env)); [by intros [= <-]|].
  destruct (Contains version (KubernetesDistroK3S env)); [by intros [= <-]|done].
Qed.

Lemma spec_configurator_events version f ctx cluster :
  kubernetesConfigurator env c version = Some f →
  spec (λ _, True) (f ctx cluster) (λ _ _, True)
       (configure_event env (Contains version (KubernetesDistroRKE2 env))).
Proof.
  intros ->%kubernetesConfigurator_inv.
  destruct (Contains version (KubernetesDistroRKE2 env)).
  - apply spec_configureRKE2_events.
  - apply spec_configureK3S_events.
Qed.

Lemma spec_storeKubernetesConfig_events config path (E : Event → Prop) :
  (∀ p data fs, E (OpWriteFile p data fs)) →
  spec (λ _, True) (storeKubernetesConfig env config path) (λ _ _, True) E.
Proof.
  intros HE. unfold storeKubernetesConfig.
  eapply spec_bind_wrap with (Q1 := λ _ _, True); [apply spec_pure_result|intros data].
  intros fs r fs' evs _ Hrun.
  destruct (WriteFile_inv _ _ _ _ _ _ _ Hrun) as (-> & _).
  split; [by apply Forall_singleton|done].
Qed.

Lemma spec_storeKubernetesClusterConfig_events cluster dest (E : Event → Prop) :
  (∀ p data fs, E (OpWriteFile p data fs)) →
  spec (λ _, True) (storeKubernetesClusterConfig env cluster dest) (λ _ _, True) E.
Proof.
  intros HE. unfold storeKubernetesClusterConfig. cbv zeta.
  eapply spec_bind_wrap with (Q1 := λ _ _, True);
    [by apply spec_storeKubernetesConfig_events|intros ?].
  eapply spec_bind with (Q1 := λ _ _, True).
  { destruct (InitialiserConfig cluster); [|by apply spec_ret].
    eapply spec_bind_wrap with (Q1 := λ _ _, True);
      [by apply spec_storeKubernetesConfig_events|intros ?; by apply spec_ret]. }
  intros ?.
  eapply spec_bind with (Q1 := λ _ _, True); [|intros ?; by apply spec_ret].
  destruct (AgentConfig cluster); [|by apply spec_ret].
  eapply spec_bind_wrap with (Q1 := λ _ _, True);
    [by apply spec_storeKubernetesConfig_events|intros ?; by apply spec_ret].
Qed.

(** The journal of [configureKubernetes] for a version that is not empty:
    steps of the distribution the version names, then the outcome; the one
    error that is returned without an outcome is that of making the
    artefacts directory. *)
Lemma configureKubernetes_journal ctx fs r fs' evs :
  Version (Kubernetes_ ctx) ≠ "" →
  configureKubernetes env c ctx fs = (r, fs', evs) →
  let rke2 := Contains (Version (Kubernetes_ ctx)) (KubernetesDistroRKE2 env) in
  ∃ steps,
    Forall (λ e, of_distribution env rke2 e ∧ outcome e = false) steps ∧
    match r with
    | Ok scripts => evs = steps ++ [AuditComponentSuccessful k8sComponentName]
    | Err msg =>
        evs = steps ++ [AuditComponentFailed k8sComponentName] ∨
        (evs = steps ∧ ∃ e, msg = Errorf "creating kubernetes artefacts path" e)
    end.
Proof.
  intros Hversion Hrun rke2. revert Hrun.
  unfold configureKubernetes. rewrite bool_decide_false by done.
  destruct (kubernetesConfigurator env c (Version (Kubernetes_ ctx)))
    as [configureFunc|] eqn:Hfunc.
  2:{ unfold bind, and_then, log, fail. cbn [fst snd app].
      intros [= <- <- <-]. exists []. split; [done|by left]. }
  intros Hrun.
  set (E := λ e, of_distribution env rke2 e ∧ outcome e = false).
  assert (∀ e, configure_event env rke2 e → E e) as Hweak
    by (by intros e (? & ? & _)).
  apply bind_inv in Hrun as [(e & [=] & _)|(? & ? & ? & evA & [= <- <- <-] & Hrun & ->)].
  apply bind_inv in Hrun as [(e & Hwarn & _)|(? & fs1 & ev1 & evB & Hwarn & Hrun & ->)].
  { exfalso. revert Hwarn. by case_bool_decide. }
  assert (fs1 = fs ∧ Forall E ev1) as [-> Hev1].
  { revert Hwarn. case_bool_decide; intros [= <- <- <-]; [|done].
    split; [done|]. by repeat constructor. }
  apply bind_audit_inv in Hrun as
    [(e & ev0 & Hnew & -> & ->)|(cluster & fs2 & ev2 & evC & Hnew & Hrun & ->)].
  { injection Hnew as _ _ <-. eexists. split; cycle 1.
    { left. rewrite !app_assoc. reflexivity. }
    rewrite !Forall_app, !Forall_singleton. by repeat split. }
  injection Hnew as _ <- <-.
  apply bind_wrap_inv in Hrun as
    [(e & Hmk & ->)|([] & fs3 & ev3 & evD & Hmk & Hrun & ->)].
  { destruct (MkdirAll_inv _ _ _ _ _ Hmk) as (-> & _).
    eexists. split; cycle 1.
    { right. split; [reflexivity|by eexists]. }
    rewrite !Forall_app, !Forall_singleton. by repeat split. }
  destruct (MkdirAll_inv _ _ _ _ _ Hmk) as (-> & _).
  apply bind_audit_inv in Hrun as
    [(e & ev4 & Hstore & -> & ->)|([] & fs4 & ev4 & evE & Hstore & Hrun & ->)].
  { destruct (spec_storeKubernetesClusterConfig_events cluster
                (kubernetesArtefactsPath ctx) E ltac:(done) _ _ _ _ Logic.I Hstore)
      as [Hev4 _].
    eexists. split; cycle 1.
    { left. rewrite !app_assoc. reflexivity. }
    rewrite !Forall_app, !Forall_singleton. by repeat split. }
  destruct (spec_storeKubernetesClusterConfig_events cluster
              (kubernetesArtefactsPath ctx) E ltac:(done) _ _ _ _ Logic.I Hstore)
    as [Hev4 _].
  apply bind_audit_inv in Hrun as
    [(e & ev5 & Hconf & -> & ->)|(script & fs5 & ev5 & evF & Hconf & Hrun & ->)].
  { destruct (spec_configurator_events _ _ ctx cluster Hfunc _ _ _ _ Logic.I Hconf)
      as [Hev5 _].
    eexists. split; cycle 1.
    { left. rewrite !app_assoc. reflexivity. }
    rewrite !Forall_app, !Forall_singleton. repeat split; try done.
    eapply Forall_impl; [exact Hev5|exact Hweak]. }
  destruct (spec_configurator_events _ _ ctx cluster Hfunc _ _ _ _ Logic.I Hconf)
    as [Hev5 _].
  injection Hrun as <- <- <-.
  eexists. split; cycle 1.
  { rewrite ?app_nil_r, !app_assoc. reflexivity. }
  rewrite !Forall_app, !Forall_singleton. repeat split; try done.
  eapply Forall_impl; [exact Hev5|exact Hweak].
Qed.

End journal.

Lemma spec_any {A} (P : FS → Prop) (m : M A) : spec P m (λ _ _, True) (λ _, True).
Proof. intros fs r fs' evs _ _. split; [by apply Forall_true|done]. Qed.

Lemma outcomes_steps (P : Event → Prop) steps :
  Forall (λ e, P e ∧ outcome e = false) steps → outcomes steps = [].
Proof.
  induction 1 as [|e steps [_ He] _ IH]; [done|].
  unfold outcomes in *. cbn [List.filter]. by rewrite He.
Qed.

Section files.
Context (env : Imports) (c : Combustion).

Lemma configureKubernetes_skipped ctx fs :
  Version (Kubernetes_ ctx) = "" →
  configureKubernetes env c ctx fs =
    (Ok [], fs, [AuditComponentSkipped k8sComponentName]).
Proof. intros Hv. unfold configureKubernetes. by rewrite bool_decide_true. Qed.

(** X9. [configureKubernetes] writes one outcome line: skipped for an empty
    version, successful when it returns the script, failed when it returns
    an error; the one exception is the error of making the artefacts
    directory, which is returned without an outcome line. *)
Theorem one_audit_outcome ctx fs r fs' evs :
  configureKubernetes env c ctx fs = (r, fs', evs) →
  match r with
  | Ok scripts =>
      outcomes evs =
        [ if bool_decide (Version (Kubernetes_ ctx) = "")
          then AuditComponentSkipped k8sComponentName
          else AuditComponentSuccessful k8sComponentName ]
  | Err msg =>
      outcomes evs = [AuditComponentFailed k8sComponentName] ∨
      (outcomes evs = [] ∧ ∃ e, msg = Errorf "creating kubernetes artefacts path" e)
  end.
Proof.
  intros Hrun. destruct (decide (Version (Kubernetes_ ctx) = "")) as [Hv|Hv].
  { rewrite (configureKubernetes_skipped ctx fs Hv) in Hrun.
    injection Hrun as <- <- <-. by rewrite bool_decide_true. }
  destruct (configureKubernetes_journal env c ctx fs r fs' evs Hv Hrun)
    as (steps & Hsteps & Hevs).
  apply outcomes_steps in Hsteps.
  assert (∀ e, outcome e = true → outcomes (steps ++ [e]) = [e]) as Hlast.
  { intros e He. unfold outcomes in *. rewrite List.filter_app, Hsteps.
    cbn [List.filter app]. by rewrite He. }
  destruct r as [scripts|msg].
  - rewrite Hevs, bool_decide_false by done. by apply Hlast.
  - destruct Hevs as [->|[-> Hmsg]]; [left; by apply Hlast|by right].
Qed.

(** X10. The version selects the distribution, RKE2 first: when it contains
    the RKE2 marker only the RKE2 install script, artefacts and installer
    templates are asked for, also when it contains the k3s marker as well;
    otherwise only those of k3s. *)
Theorem version_selects_the_distribution ctx fs r fs' evs :
  configureKubernetes env c ctx fs = (r, fs', evs) →
  Forall (of_distribution env
            (Contains (Version (Kubernetes_ ctx)) (KubernetesDistroRKE2 env))) evs.
Proof.
  intros Hrun. destruct (decide (Version (Kubernetes_ ctx) = "")) as [Hv|Hv].
  { rewrite (configureKubernetes_skipped ctx fs Hv) in Hrun.
    injection Hrun as <- <- <-. by apply Forall_singleton. }
  destruct (configureKubernetes_journal env c ctx fs r fs' evs Hv Hrun)
    as (steps & Hsteps & Hevs).
  assert (Forall (of_distribution env
            (Contains (Version (Kubernetes_ ctx)) (KubernetesDistroRKE2 env))) steps)
    as Hdist by (eapply Forall_impl; [exact Hsteps|by intros e [? _]]).
  destruct r as [scripts|msg]; [|destruct Hevs as [Hevs|[Hevs _]]]; rewrite Hevs;
    try done; apply Forall_app; (split; [done|by apply Forall_singleton]).
Qed.

Lemma spec_storeKubernetesInstaller_file ctx name contents data :
  contents ≠ k8sVIPManifest →
  spec (λ _, True) (storeKubernetesInstaller env ctx name contents data)
    (λ script fs,
       script = k8sInstallScript ∧
       ∃ name contents data text x,
         contents ≠ k8sVIPManifest ∧ Parse env name contents data = Ok text ∧
         fs !! Join [CombustionDir ctx; k8sInstallScript] = Some (File text x))
    (λ _, True).
Proof.
  intros Hc fs r fs' evs _ Hrun. split; [by apply Forall_true|].
  intros script ->. apply storeKubernetesInstaller_inv in Hrun
    as (-> & text & x & Hparse & -> & _).
  split; [done|]. exists name, contents, data, text, x.
  by rewrite lookup_insert_eq.
Qed.

Lemma spec_configurator_file version f ctx cluster :
  kubernetesConfigurator env c version = Some f →
  spec (λ _, True) (f ctx cluster)
    (λ script fs,
       script = k8sInstallScript ∧
       ∃ name contents data text x,
         contents ≠ k8sVIPManifest ∧ Parse env name contents data = Ok text ∧
         fs !! Join [CombustionDir ctx; k8sInstallScript] = Some (File text x))
    (λ _, True).
Proof.
  intros ->%kubernetesConfigurator_inv.
  destruct (Contains version (KubernetesDistroRKE2 env)).
  - unfold configureRKE2. cbv zeta.
    eapply spec_bind with (Q1 := λ _ _, True); [apply spec_any|intros ?].
    do 3 (eapply spec_bind_wrap with (Q1 := λ _ _, True); [apply spec_any|intros ?]).
    case_bool_decide.
    + eapply spec_bind with (Q1 := λ _ _, True); [apply spec_any|intros ?].
      by apply spec_storeKubernetesInstaller_file.
    + by apply spec_storeKubernetesInstaller_file.
  - unfold configureK3S. cbv zeta.
    eapply spec_bind with (Q1 := λ _ _, True); [apply spec_any|intros ?].
    do 3 (eapply spec_bind_wrap with (Q1 := λ _ _, True); [apply spec_any|intros ?]).
    case_bool_decide.
    + eapply spec_bind with (Q1 := λ _ _, True); [apply spec_any|intros ?].
      by apply spec_storeKubernetesInstaller_file.
    + do 2 (eapply spec_bind with (Q1 := λ _ _, True); [apply spec_any|intros ?]).
      by apply spec_storeKubernetesInstaller_file.
Qed.

(** X11. When [configureKubernetes] succeeds for a version that is not empty
    it returns the one script name [20-k8s-install.sh], its last journal line
    says the component was successful, and the file of that name in the
    combustion directory holds the text rendered from a template that is not
    the VIP manifest. *)
Theorem successful_build_stores_the_installer ctx fs scripts fs' evs :
  Version (Kubernetes_ ctx) ≠ "" →
  configureKubernetes env c ctx fs = (Ok scripts, fs', evs) →
  scripts = [k8sInstallScript] ∧
  last evs = Some (AuditComponentSuccessful k8sComponentName) ∧
  ∃ name contents data text x,
    contents ≠ k8sVIPManifest ∧ Parse env name contents data = Ok text ∧
    fs' !! Join [CombustionDir ctx; k8sInstallScript] = Some (File text x).
Proof.
  intros Hv Hrun.
  destruct (configureKubernetes_journal env c ctx fs _ fs' evs Hv Hrun)
    as (steps & _ & Hevs).
  rewrite Hevs, last_snoc. clear Hevs. revert Hrun.
  unfold configureKubernetes. rewrite bool_decide_false by done.
  destruct (kubernetesConfigurator env c (Version (Kubernetes_ ctx)))
    as [configureFunc|] eqn:Hfunc; [|done].
  intros (? & ? & ? & ? & _ & Hrun & _)%bind_Ok.
  apply bind_Ok in Hrun as (? & ? & ? & ? & _ & Hrun & _).
  apply bind_audit_Ok in Hrun as (cluster & ? & ? & ? & _ & Hrun & _).
  apply bind_wrap_Ok in Hrun as (? & ? & ? & ? & _ & Hrun & _).
  apply bind_audit_Ok in Hrun as (? & ? & ? & ? & _ & Hrun & _).
  apply bind_audit_Ok in Hrun as (script & fs5 & ev5 & ev6 & Hconf & Hrun & _).
  injection Hrun as <- <- _.
  destruct (spec_configurator_file _ _ ctx cluster Hfunc _ _ _ _ Logic.I Hconf)
    as [_ Hfile].
  destruct (Hfile script eq_refl) as (-> & Hscript). done.
Qed.

(** X12. [storeKubernetesInstaller] touches one path, the install script in
    the combustion directory; when it fails the file system is as it was;
    when the rendering fails it returns the error of the template, named,
    and writes nothing; when the rendering succeeds it returns the script's
    name with the text stored, or else the error of the write. *)
Theorem installer_is_the_only_file_stored ctx name contents data fs r fs' evs :
  storeKubernetesInstaller env ctx name contents data fs = (r, fs', evs) →
  let script := Join [CombustionDir ctx; k8sInstallScript] in
  (∀ path, path ≠ script → fs' !! path = fs !! path) ∧
  (is_ok r = false → fs' = fs) ∧
  (∀ e, Parse env name contents data = Err e →
     r = Err (Errorf ("parsing '" +:+ name +:+ "' template") e) ∧
     evs = [CallParse name contents data]) ∧
  (∀ text, Parse env name contents data = Ok text →
     r = Ok k8sInstallScript ∧ (∃ x, fs' !! script = Some (File text x)) ∨
     ∃ e, r = Err (Errorf "writing kubernetes install script" e)).
Proof.
  intros Hrun script. apply storeKubernetesInstaller_inv in Hrun.
  destruct r as [s|msg].
  - destruct Hrun as (-> & text & x & Hparse & -> & ->). fold script.
    split; [intros path Hne; by rewrite lookup_insert_ne|].
    split; [done|]. split; [intros e; congruence|].
    intros text' Htext. left. split; [done|]. exists x.
    rewrite lookup_insert_eq. congruence.
  - destruct Hrun as (-> & Hmsg). split; [done|]. split; [done|].
    destruct Hmsg as [(e & Hparse & -> & ->)|(text & e & Hparse & -> & ->)].
    + split; [intros e' He'; split; [congruence|done]|congruence].
    + split; [congruence|]. intros text' _. right. by exists e.
Qed.

(** X13. When the cluster configuration cannot be initialised
    [configureKubernetes] returns that error, wrapped, leaves the file system
    as it was, and its journal is the start line, the warning of two servers
    if there are two, the call and the failed outcome: no directory is made
    and nothing is downloaded. *)
Theorem failed_cluster_creates_nothing ctx fs e :
  Version (Kubernetes_ ctx) ≠ "" →
  kubernetesConfigurator env c (Version (Kubernetes_ ctx)) ≠ None →
  let configPath := Join [generateComponentPath env ctx k8sDir; k8sConfigDir] in
  NewCluster env (Kubernetes_ ctx) configPath fs = Err e →
  configureKubernetes env c ctx fs =
    (Err (Errorf "initialising cluster config" e), fs,
     Audit "Configuring Kubernetes component..." ::
     (if bool_decide (ServersCount env (Nodes (Kubernetes_ ctx)) = 2)
      then [ Audit warn_two_servers;
             ZapWarn "Kubernetes cluster of two server nodes has been requested" ]
      else []) ++
     [ CallNewCluster configPath; AuditComponentFailed k8sComponentName ]).
Proof.
  intros Hv Hfunc configPath Hnew. unfold configureKubernetes.
  rewrite bool_decide_false by done.
  destruct (kubernetesConfigurator env c (Version (Kubernetes_ ctx))); [|done].
  subst configPath.
  case_bool_decide;
    unfold bind, bind_audit, and_then, kubernetes_NewCluster, log, ret;
    cbn [fst snd]; by rewrite Hnew.
Qed.


Lemma storeKubernetesConfig_Ok config path fs fs' evs :
  storeKubernetesConfig env config path fs = (Ok tt, fs', evs) →
  ∃ data x, Marshal env config = Ok data ∧ fs' = <[path := File data x]> fs.
Proof.
  unfold storeKubernetesConfig.
  intros (data & fs1 & ev1 & ev2 & [= Hm <- <-] & Hw & _)%bind_wrap_Ok.
  apply WriteFile_Ok in Hw as [x ->]. by exists data, x.
Qed.

(** X14. When [storeKubernetesClusterConfig] succeeds, [server.yaml] holds
    the serialised server configuration; [init_server.yaml] and
    [agent.yaml] hold the serialised initialiser and agent configurations
    when the cluster has them and are left as they were when it has not;
    every other path is left as it was. *)
Theorem cluster_configs_are_stored_by_role cluster dest fs fs' evs :
  storeKubernetesClusterConfig env cluster dest fs = (Ok tt, fs', evs) →
  let stored (config : option Config) (file : string) :=
    match config with
    | Some config =>
        ∃ data x, Marshal env config = Ok data ∧
                  fs' !! Join [dest; file] = Some (File data x)
    | None => fs' !! Join [dest; file] = fs !! Join [dest; file]
    end in
  stored (Some (ServerConfig cluster)) k8sServerConfigFile ∧
  stored (InitialiserConfig cluster) k8sInitServerConfigFile ∧
  stored (AgentConfig cluster) k8sAgentConfigFile ∧
  (∀ path,
     path ∉ [ Join [dest; k8sServerConfigFile]; Join [dest; k8sInitServerConfigFile];
              Join [dest; k8sAgentConfigFile] ] →
     fs' !! path = fs !! path).
Proof.
  unfold storeKubernetesClusterConfig. cbv zeta.
  intros ([] & fs1 & ? & ? & Hserver & Hrun & _)%bind_wrap_Ok.
  apply storeKubernetesConfig_Ok in Hserver as (data1 & exec1 & Hm1 & ->).
  apply bind_Ok in Hrun as (? & fs2 & ? & ? & Hinit & Hrun & _).
  apply bind_Ok in Hrun as (? & fs3 & ? & ? & Hagent & Hrun & _).
  injection Hrun as <- _.
  assert (Join [dest; k8sServerConfigFile] ≠ Join [dest; k8sInitServerConfigFile])
    as Hsi by (by intros ?%Join_inj).
  assert (Join [dest; k8sServerConfigFile] ≠ Join [dest; k8sAgentConfigFile])
    as Hsa by (by intros ?%Join_inj).
  assert (Join [dest; k8sInitServerConfigFile] ≠ Join [dest; k8sAgentConfigFile])
    as Hia by (by intros ?%Join_inj).
  assert (∀ path, path ∉ [ Join [dest; k8sServerConfigFile];
                           Join [dest; k8sInitServerConfigFile];
                           Join [dest; k8sAgentConfigFile] ] →
            Join [dest; k8sServerConfigFile] ≠ path ∧
            Join [dest; k8sInitServerConfigFile] ≠ path ∧
            Join [dest; k8sAgentConfigFile] ≠ path) as Hout.
  { intros path Hpath. repeat split; intros <-; apply Hpath;
      repeat first [apply list_elem_of_here | apply list_elem_of_further]. }
  destruct (InitialiserConfig cluster) as [init|];
    destruct (AgentConfig cluster) as [agent|].
  - apply bind_wrap_Ok in Hinit as ([] & ? & ? & ? & Hinit & [= _ <- _] & _).
    apply storeKubernetesConfig_Ok in Hinit as (data2 & exec2 & Hm2 & ->).
    apply bind_wrap_Ok in Hagent as ([] & ? & ? & ? & Hagent & [= _ <- _] & _).
    apply storeKubernetesConfig_Ok in Hagent as (data3 & exec3 & Hm3 & ->).
    split; [exists data1, exec1; rewrite !lookup_insert_ne by done; by rewrite lookup_insert_eq|].
    split; [exists data2, exec2; rewrite lookup_insert_ne by done; by rewrite lookup_insert_eq|].
    split; [exists data3, exec3; by rewrite lookup_insert_eq|].
    intros path (? & ? & ?)%Hout. by rewrite !lookup_insert_ne by done.
  - apply bind_wrap_Ok in Hinit as ([] & ? & ? & ? & Hinit & [= _ <- _] & _).
    apply storeKubernetesConfig_Ok in Hinit as (data2 & exec2 & Hm2 & ->).
    injection Hagent as _ <- _.
    split; [exists data1, exec1; rewrite !lookup_insert_ne by done; by rewrite lookup_insert_eq|].
    split; [exists data2, exec2; by rewrite lookup_insert_eq|].
    split; [by rewrite !lookup_insert_ne by done|].
    intros path (? & ? & ?)%Hout. by rewrite !lookup_insert_ne by done.
  - injection Hinit as _ <- _.
    apply bind_wrap_Ok in Hagent as ([] & ? & ? & ? & Hagent & [= _ <- _] & _).
    apply storeKubernetesConfig_Ok in Hagent as (data3 & exec3 & Hm3 & ->).
    split; [exists data1, exec1; rewrite !lookup_insert_ne by done; by rewrite lookup_insert_eq|].
    split; [by rewrite !lookup_insert_ne by done|].
    split; [exists data3, exec3; by rewrite lookup_insert_eq|].
    intros path (? & ? & ?)%Hout. by rewrite !lookup_insert_ne by done.
  - injection Hinit as _ <- _. injection Hagent as _ <- _.
    split; [exists data1, exec1; by rewrite lookup_insert_eq|].
    split; [by rewrite !lookup_insert_ne by done|].
    split; [by rewrite !lookup_insert_ne by done|].
    intros path (? & ? & ?)%Hout. by rewrite !lookup_insert_ne by done.
Qed.

(** X15. [downloadRKE2Artefacts] extracts the CNI first: when that fails it
    returns the error, wrapped, with the file system untouched and no call
    made. On success it returns the install and images paths under the
    artefacts root, whatever was downloaded, having called the downloader
    with the CNI and the two directories; it never reads a directory. *)
Theorem rke2_artefacts_are_not_inspected ctx cluster fs r fs' evs :
  downloadRKE2Artefacts env c ctx cluster fs = (r, fs', evs) →
  let installPath := Join [k8sDir; k8sInstallDir] in
  let imagesPath := Join [k8sDir; k8sImagesDir] in
  (∀ e, ExtractCNI env cluster = Err e →
     r = Err (Errorf "extracting CNI from cluster config" e) ∧ fs' = fs ∧ evs = []) ∧
  (∀ paths, r = Ok paths →
     paths = (prependArtefactPath env installPath, prependArtefactPath env imagesPath) ∧
     ∃ cni multus,
       ExtractCNI env cluster = Ok (cni, multus) ∧
       CallDownloadRKE2Artefacts (Arch ctx) (Version (Kubernetes_ ctx)) cni multus
         (Join [ArtefactsDir ctx; installPath]) (Join [ArtefactsDir ctx; imagesPath])
         ∈ evs) ∧
  (∀ path before, OpReadDir path before ∉ evs).
Proof.
  intros Hrun installPath imagesPath. revert Hrun.
  unfold downloadRKE2Artefacts. cbv zeta. fold installPath imagesPath.
  intros [(e & [= He <- <-] & ->)|([cni multus] & ? & ? & ev & [= Hcni <- <-] & Hrun & ->)]
    %bind_wrap_inv.
  { split; [intros e' He'; by assert (e' = e) as -> by congruence|].
    split; [done|]. intros path before Hin. by apply elem_of_nil in Hin. }
  split; [intros e' He'; congruence|]. cbn [fst snd app] in *.
  apply bind_wrap_inv in Hrun as
    [(e & Hmk1 & ->)|([] & fs1 & ev1 & evB & Hmk1 & Hrun & ->)];
    destruct (MkdirAll_inv _ _ _ _ _ Hmk1) as (-> & _).
  { split; [done|]. by intros path before [=]%list_elem_of_singleton. }
  apply bind_wrap_inv in Hrun as
    [(e & Hmk2 & ->)|([] & fs2 & ev2 & evC & Hmk2 & Hrun & ->)];
    destruct (MkdirAll_inv _ _ _ _ _ Hmk2) as (-> & _).
  { split; [done|]. intros path before Hin.
    repeat (apply elem_of_cons in Hin as [[=]|Hin]). by apply elem_of_nil in Hin. }
  apply bind_wrap_inv in Hrun as
    [(e & Hdl & ->)|([] & fs3 & ev3 & evD & Hdl & Hrun & ->)];
    injection Hdl as _ _ <-.
  { split; [done|]. intros path before Hin.
    repeat (apply elem_of_cons in Hin as [[=]|Hin]). by apply elem_of_nil in Hin. }
  injection Hrun as <- <- <-. split.
  - intros paths [= <-]. split; [done|]. exists cni, multus. split; [done|].
    repeat first [apply list_elem_of_here | apply list_elem_of_further].
  - intros path before Hin.
    repeat (apply elem_of_cons in Hin as [[=]|Hin]). by apply elem_of_nil in Hin.
Qed.


Lemma chart_file_inj dir (a b : string) :
  Join [dir; a +:+ ".yaml"] = Join [dir; b +:+ ".yaml"] → a = b.
Proof.
  intros H%Join_inj; [by apply append_inj_r in H|by apply append_nonempty..].
Qed.

Lemma storeHelmCharts_Ok dir charts fs fs' evs name :
  storeHelmCharts env dir charts fs = (Ok tt, fs', evs) →
  match last (filter (λ chart, Metadata_Name chart = name) charts) with
  | Some chart =>
      ∃ data x, MarshalChart env chart = Ok data ∧
                fs' !! Join [dir; name +:+ ".yaml"] = Some (File data x)
  | None => fs' !! Join [dir; name +:+ ".yaml"] = fs !! Join [dir; name +:+ ".yaml"]
  end.
Proof.
  revert fs evs. induction charts as [|chart charts IH]; intros fs evs.
  { by intros [= <- _]. }
  cbn [storeHelmCharts]. cbv zeta.
  intros (data & ? & ? & ? & [= Hm <- _] & Hrun & _)%bind_wrap_Ok.
  apply bind_wrap_Ok in Hrun as ([] & fs1 & ? & ? & Hw & Hrun & _).
  apply WriteFile_Ok in Hw as [mode ->]. specialize (IH _ _ Hrun).
  rewrite filter_cons. case_decide as Hname.
  - rewrite last_cons. destruct (last (filter _ charts)) as [chart'|]; [done|].
    exists data, mode. split; [done|]. by rewrite IH, <- Hname, lookup_insert_eq.
  - destruct (last (filter _ charts)) as [chart'|]; [done|].
    rewrite IH, lookup_insert_ne; [done|]. by intros ?%chart_file_inj.
Qed.

(** X16. When [configureManifests] succeeds, every chart of the registry is
    stored in the manifests directory under [<name>.yaml]; the file holds
    the serialisation of the last chart of that name. *)
Theorem helm_charts_are_stored_by_name ctx registry charts fs manifestsPath fs' evs chart :
  Registry_ c = Some registry →
  HelmCharts registry = Ok charts →
  configureManifests env c ctx fs = (Ok manifestsPath, fs', evs) →
  chart ∈ charts →
  ∃ stored data x,
    last (filter (λ ch, Metadata_Name ch = Metadata_Name chart) charts) = Some stored ∧
    MarshalChart env stored = Ok data ∧
    fs' !! Join [manifestDestDir ctx; Metadata_Name chart +:+ ".yaml"] =
      Some (File data x).
Proof.
  intros Hreg Hcharts Hrun Hin. revert Hrun.
  unfold configureManifests. cbv zeta. fold (manifestDestDir ctx). rewrite Hreg.
  intros (? & ? & ? & ? & _ & Hrun & _)%bind_Ok.
  apply bind_Ok in Hrun as (populated & fs1 & ? & ? & Hrun & Hend & _).
  assert (fs1 = fs') as -> by (by destruct (negb populated); injection Hend as _ <- _).
  clear Hend.
  apply bind_Ok in Hrun as (? & ? & ? & ? & _ & Hrun & _).
  apply bind_wrap_Ok in Hrun as (charts' & ? & ? & ? & [= Hc <- _] & Hrun & _).
  assert (charts' = charts) as -> by congruence.
  rewrite bool_decide_true in Hrun by (by destruct Hin).
  apply bind_wrap_Ok in Hrun as ([] & ? & ? & ? & _ & Hrun & _).
  apply bind_Ok in Hrun as ([] & ? & ? & ? & Hstore & [= _ <- _] & _).
  pose proof (storeHelmCharts_Ok _ _ _ _ _ (Metadata_Name chart) Hstore) as Hfile.
  destruct (last (filter _ charts)) as [stored|] eqn:Hlast.
  - destruct Hfile as (data & mode & Hm & Hfile). by exists stored, data, mode.
  - exfalso. apply last_None in Hlast.
    assert (chart ∈ filter (λ ch, Metadata_Name ch = Metadata_Name chart) charts) as Habs
      by (by apply list_elem_of_filter).
    rewrite Hlast in Habs. by apply elem_of_nil in Habs.
Qed.


Lemma prependArtefactPath_nonempty path : path ≠ "" → prependArtefactPath env path ≠ "".
Proof.
  intros Hpath. unfold prependArtefactPath. rewrite Join_pair.
  repeat case_decide; try done. by destruct (artefactsRoot env).
Qed.

(** X17. When [configureManifests] succeeds, the path it returns goes by what
    is configured, not by what was written: it is the manifests path under
    the artefacts root, and not empty, exactly when a VIP is set, or the
    registry names a manifests path, or the registry has a chart; a manifests
    path of the registry counts whether or not a file was copied from it.
    Otherwise the path is empty and the file system is as it was. When the
    path is not empty and no registry names a manifests path, the manifests
    directory exists. *)
Theorem manifests_path_follows_configuration ctx fs manifestsPath fs' evs :
  configureManifests env c ctx fs = (Ok manifestsPath, fs', evs) →
  let configured :=
    APIVIP (Network_ (Kubernetes_ ctx)) ≠ "" ∨
    ∃ registry, Registry_ c = Some registry ∧
      (ManifestsPath registry ≠ "" ∨
       ∃ charts, HelmCharts registry = Ok charts ∧ charts ≠ []) in
  (configured →
   manifestsPath = prependArtefactPath env localKubernetesManifestsPath ∧
   manifestsPath ≠ "") ∧
  (¬ configured → manifestsPath = "" ∧ fs' = fs) ∧
  ((∀ registry, Registry_ c = Some registry → ManifestsPath registry = "") →
   manifestsPath ≠ "" → is_dir fs' (manifestDestDir ctx) = true).
Proof.
  intros Hrun configured.
  assert (∃ populated : bool,
            (populated = true ↔ configured) ∧
            ((∀ registry, Registry_ c = Some registry → ManifestsPath registry = "") →
             populated = true → is_dir fs' (manifestDestDir ctx) = true) ∧
            (populated = false → fs' = fs) ∧
            manifestsPath = if negb populated then ""
                            else prependArtefactPath env localKubernetesManifestsPath)
    as (populated & Hiff & Hdir & Hsame & ->).
  2:{ destruct populated; cbn [negb].
      - split; [intros _|split; [intros Hno; exfalso; by apply Hno, Hiff|]].
        + split; [done|]. by apply prependArtefactPath_nonempty.
        + intros Hnone _. by apply Hdir.
      - split; [intros Hc; by apply Hiff in Hc|]. split; [|done].
        intros _. split; [done|by apply Hsame]. }
  subst configured. revert Hrun. unfold configureManifests. cbv zeta.
  fold (manifestDestDir ctx). set (dest := manifestDestDir ctx).
  intros (p1 & fs1 & ? & ? & Hvip & Hrun & _)%bind_Ok.
  apply bind_Ok in Hrun as (p2 & fs2 & ? & ? & Hrun & Hend & _).
  exists p2.
  assert (fs2 = fs' ∧
          manifestsPath = if negb p2 then ""
                          else prependArtefactPath env localKubernetesManifestsPath)
    as [-> ->] by (by destruct (negb p2); injection Hend as <- <- _).
  clear Hend.
  assert ((p1 = true ↔ APIVIP (Network_ (Kubernetes_ ctx)) ≠ "") ∧
          (p1 = true → is_dir fs1 dest = true) ∧ (p1 = false → fs1 = fs))
    as (Hp1 & Hd1 & Hs1).
  { revert Hvip. case_bool_decide as Hv.
    - intros ([] & fsa & ? & ? & Hmk & Hvip & _)%bind_wrap_Ok.
      destruct (MkdirAll_inv _ _ _ _ _ Hmk) as (_ & _ & Hdir).
      apply bind_wrap_Ok in Hvip as (manifest & ? & ? & ? & [= _ <- _] & Hvip & _).
      apply bind_wrap_Ok in Hvip as ([] & ? & ? & ? & Hw & [= <- <- _] & _).
      destruct (WriteFile_inv _ _ _ _ _ _ _ Hw) as (_ & Hkeep).
      split; [done|]. split; [intros _; by apply Hkeep, Hdir|done].
    - intros [= <- <- _]. split; [done|]. split; done. }
  clear Hvip.
  destruct (Registry_ c) as [registry|] eqn:Hreg.
  2:{ injection Hrun as <- <- _. split.
      - rewrite Hp1. split; [by left|]. by intros [?|(? & [=] & _)].
      - split; [by intros _|done]. }
  apply bind_Ok in Hrun as (p2a & fs2a & ? & ? & Hcopy & Hrun & _).
  assert ((p2a = true ↔ APIVIP (Network_ (Kubernetes_ ctx)) ≠ "" ∨
                        ManifestsPath registry ≠ "") ∧
          (ManifestsPath registry = "" → p2a = true → is_dir fs2a dest = true) ∧
          (p2a = false → fs2a = fs))
    as (Hp2a & Hd2a & Hs2a).
  { revert Hcopy. case_bool_decide as Hpath.
    - intros ([] & ? & ? & ? & Hcopy & [= <- <- _] & _)%bind_wrap_Ok.
      split; [split; [by right|done]|]. split; [by intros ?|done].
    - intros [= <- <- _]. split; [|by split; [intros _|]]. rewrite Hp1.
      split; [by left|]. by intros [?|?]. }
  clear Hcopy.
  apply bind_wrap_Ok in Hrun as (charts & ? & ? & ? & [= Hcharts <- _] & Hrun & _).
  revert Hrun. case_bool_decide as Hlen.
  - intros ([] & fsb & ? & ? & Hmk & Hrun & _)%bind_wrap_Ok.
    destruct (MkdirAll_inv _ _ _ _ _ Hmk) as (_ & _ & Hdir).
    apply bind_Ok in Hrun as ([] & ? & ? & ? & Hstore & [= <- <- _] & _).
    destruct (spec_storeHelmCharts env _ _ _ _ _ _ (Hdir eq_refl) Hstore) as [_ Hkeep].
    split; [split; [intros _|done]|]. 2: split; [intros _ _; by apply (Hkeep tt)|done].
    right. exists registry. split; [done|]. right. exists charts. split; [done|].
    by destruct charts.
  - intros [= <- <- _]. split; [|split; [|done]].
    + rewrite Hp2a. split.
      * intros [?|?]; [by left|]. right. exists registry. split; [done|by left].
      * intros [?|(registry' & [= <-] & [?|(charts' & Hc' & Hne)])]; [by left|by right|].
        assert (charts' = charts) as -> by congruence. by destruct charts.
    + intros Hnone. apply Hd2a. by apply Hnone.
Qed.


(** An operation on the file system. *)
Lemma spec_copy_entries_ops src dest entries (E : Event → Prop) :
  (∀ p fs, E (OpReadFile p fs)) → (∀ p data fs, E (OpWriteFile p data fs)) →
  spec (λ _, True) (fileio.copy_entries src dest entries) (λ _ _, True) E.
Proof.
  intros Hread Hwrite. induction entries as [|e entries IH]; cbn [fileio.copy_entries].
  - by apply spec_ret.
  - eapply spec_bind with (Q1 := λ _ _, True); [|intros ?; exact IH].
    destruct (IsDir e); [by apply spec_ret|].
    eapply spec_bind_wrap with (Q1 := λ _ _, True); [by apply spec_ReadFile|].
    intros data fs r fs' evs _ Hw.
    destruct (WriteFile_inv _ _ _ _ _ _ _ Hw) as (-> & _).
    split; [by apply Forall_singleton|done].
Qed.

Lemma spec_CopyFiles_ops src dest (E : Event → Prop) :
  (∀ p fs, E (OpReadDir p fs)) → (∀ p fs, E (OpMkdirAll p fs)) →
  (∀ p fs, E (OpReadFile p fs)) → (∀ p data fs, E (OpWriteFile p data fs)) →
  spec (λ _, True) (fileio.CopyFiles src dest) (λ _ _, True) E.
Proof.
  intros Hdir Hmk Hread Hwrite. unfold fileio.CopyFiles.
  eapply spec_bind_wrap with (Q1 := λ _ _, True); [by apply spec_ReadDir|intros entries].
  eapply spec_bind_wrap with (Q1 := λ _ _, True);
    [eapply spec_weaken; [by apply spec_MkdirAll|done|done]|intros ?].
  by apply spec_copy_entries_ops.
Qed.

Lemma spec_storeHelmCharts_ops dir charts (E : Event → Prop) :
  (∀ p data fs, E (OpWriteFile p data fs)) →
  spec (λ _, True) (storeHelmCharts env dir charts) (λ _ _, True) E.
Proof.
  intros Hwrite. induction charts as [|chart charts IH]; cbn [storeHelmCharts].
  - by apply spec_ret.
  - eapply spec_bind_wrap with (Q1 := λ _ _, True); [apply spec_pure_result|intros data].
    eapply spec_bind_wrap with (Q1 := λ _ _, True); [|intros ?; exact IH].
    intros fs r fs' evs _ Hw.
    destruct (WriteFile_inv _ _ _ _ _ _ _ Hw) as (-> & _).
    split; [by apply Forall_singleton|done].
Qed.

(** X18. [configureManifests] renders one template at most, the VIP
    manifest, and only when a VIP is set: under the name [k8s-vip], with the
    VIP as address and the RKE2 flag set exactly when the version contains
    the RKE2 marker. When it succeeds with a VIP the manifest has been
    rendered, and without a registry [k8s-vip.yaml] holds it. *)
Theorem vip_manifest_follows_the_vip ctx fs r fs' evs :
  configureManifests env c ctx fs = (r, fs', evs) →
  let k := Kubernetes_ ctx in
  let data := DataVIP (APIVIP (Network_ k))
                (Contains (Version k) (KubernetesDistroRKE2 env)) in
  (∀ name contents data', CallParse name contents data' ∈ evs →
     APIVIP (Network_ k) ≠ "" ∧
     name = "k8s-vip" ∧ contents = k8sVIPManifest ∧ data' = data) ∧
  (APIVIP (Network_ k) ≠ "" → is_ok r = true →
   CallParse "k8s-vip" k8sVIPManifest data ∈ evs ∧
   (Registry_ c = None →
    ∃ manifest x,
      Parse env "k8s-vip" k8sVIPManifest data = Ok manifest ∧
      fs' !! Join [manifestDestDir ctx; "k8s-vip.yaml"] = Some (File manifest x))).
Proof.
  intros Hrun k data. split.
  - assert (spec (λ _, True) (configureManifests env c ctx) (λ _ _, True)
              (λ e, match e with
                    | CallParse name contents data' =>
                        APIVIP (Network_ k) ≠ "" ∧
                        name = "k8s-vip" ∧ contents = k8sVIPManifest ∧ data' = data
                    | _ => True
                    end)) as Hspec.
    { unfold configureManifests. cbv zeta.
      eapply spec_bind with (Q1 := λ _ _, True).
      { case_bool_decide as Hvip; [|by apply spec_ret].
        eapply spec_bind_wrap with (Q1 := λ _ _, True);
          [eapply spec_weaken; [by apply spec_MkdirAll|done|done]|intros ?].
        eapply spec_bind_wrap with (Q1 := λ _ _, True).
        { by apply (spec_template_Parse env (λ _, True)). }
        intros manifest.
        eapply spec_bind_wrap with (Q1 := λ _ _, True); [|intros ?; by apply spec_ret].
        intros fs0 r0 fs0' evs0 _ Hw.
        destruct (WriteFile_inv _ _ _ _ _ _ _ Hw) as (-> & _).
        split; [by apply Forall_singleton|done]. }
      intros populated.
      eapply spec_bind with (Q1 := λ _ _, True);
        [|intros ?; destruct (negb _); by apply spec_ret].
      destruct (Registry_ c) as [registry|]; [|by apply spec_ret].
      eapply spec_bind with (Q1 := λ _ _, True).
      { case_bool_decide; [|by apply spec_ret].
        eapply spec_bind_wrap with (Q1 := λ _ _, True); [|intros ?; by apply spec_ret].
        by apply spec_CopyFiles_ops. }
      intros ?.
      eapply spec_bind_wrap with (Q1 := λ _ _, True).
      { by apply (spec_call_HelmCharts (λ _, True)). }
      intros charts. case_bool_decide; [|by apply spec_ret].
      eapply spec_bind_wrap with (Q1 := λ _ _, True);
        [eapply spec_weaken; [by apply spec_MkdirAll|done|done]|intros ?].
      eapply spec_bind with (Q1 := λ _ _, True); [|intros ?; by apply spec_ret].
      by apply spec_storeHelmCharts_ops. }
    destruct (Hspec _ _ _ _ Logic.I Hrun) as [Hev _]. rewrite Forall_forall in Hev.
    intros name contents data' Hin. exact (Hev _ Hin).
  - intros Hvip Hok. destruct r as [mp|]; [clear Hok|done]. revert Hrun.
    unfold configureManifests. cbv zeta. fold (manifestDestDir ctx).
    rewrite (bool_decide_true _ Hvip).
    intros (? & fs1 & ev1 & ev2 & Hstep & Hrun & ->)%bind_Ok.
    apply bind_wrap_Ok in Hstep as ([] & fsa & ? & ? & Hmk & Hstep & ->).
    apply bind_wrap_Ok in Hstep as (manifest & ? & ? & ? & [= Hparse <- <-] & Hstep & ->).
    apply bind_wrap_Ok in Hstep as ([] & ? & ? & ? & Hw & [= _ <- _] & ->).
    apply WriteFile_Ok in Hw as [mode ->]. split.
    + apply elem_of_app. left. apply elem_of_app. right. apply elem_of_app. left.
      apply list_elem_of_here.
    + intros Hreg. rewrite Hreg in Hrun.
      apply bind_Ok in Hrun as (p & ? & ? & ? & [= _ <- _] & Hend & _).
      assert (fs' = <[Join [manifestDestDir ctx; "k8s-vip.yaml"] := File manifest mode]> fsa)
        as -> by (by destruct (negb p); injection Hend as _ <- _).
      exists manifest, mode. split; [done|]. by rewrite lookup_insert_eq.
Qed.

End files.

Lemma no_parse_renders P e : no_parse e → renders P e.
Proof. by destruct e. Qed.

Lemma manifests_event_renders dir P e : manifests_event dir e → renders P e.
Proof. destruct e; try done. by left. Qed.

Section renderings.
Context (env : Imports) (c : Combustion).

Lemma spec_configureK3S_renders ctx cluster :
  spec (λ _, True) (configureK3S env c ctx cluster) (λ _ _, True)
       (renders (k3s_installer env ctx cluster)).
Proof.
  unfold configureK3S. cbv zeta.
  eapply spec_bind with (Q1 := λ _ _, True); [by apply spec_log|intros ?].
  eapply spec_bind_wrap with (Q1 := λ _ _, True).
  { eapply spec_events; [apply spec_downloadKubernetesInstallScript|].
    apply no_parse_renders. }
  intros installScript.
  eapply spec_bind_wrap with (Q1 := λ _ _, True).
  { eapply spec_events; [apply spec_downloadK3sArtefacts|]. apply no_parse_renders. }
  intros paths.
  eapply spec_bind_wrap with (Q1 := λ _ _, True).
  { eapply spec_events; [apply spec_configureManifests|]. apply manifests_event_renders. }
  intros manifestsPath.
  case_bool_decide as Hn.
  - eapply spec_bind with (Q1 := λ _ _, True).
    { case_bool_decide; [by apply spec_log|].
      eapply spec_bind with (Q1 := λ _ _, True); [by apply spec_log|intros ?].
      by apply spec_log. }
    intros ?. apply spec_storeKubernetesInstaller; [|done].
    right. eexists. split; [done|]. exists installScript, paths, manifestsPath.
    cbv zeta. by rewrite (bool_decide_true _ Hn).
  - eapply spec_bind with (Q1 := λ _ _, True); [by apply spec_log|intros ?].
    eapply spec_bind with (Q1 := λ _ _, True); [by apply spec_log|intros ?].
    apply spec_storeKubernetesInstaller; [|done].
    right. eexists. split; [done|]. exists installScript, paths, manifestsPath.
    cbv zeta. by rewrite (bool_decide_false _ Hn).
Qed.

Lemma field_agree (v v' : gmap string Value) k : v' !! k = v !! k → field v' k = field v k.
Proof. unfold field. by intros ->. Qed.

(** The script depends on the values through [nodes] and the keys of
    [k3s_multi_node_keys] only. *)
Lemma k3s_multi_node_installer_reads (v v' : gmap string Value) :
  v' !! "nodes" = v !! "nodes" →
  (∀ k, k ∈ k3s_multi_node_keys → v' !! k = v !! k) →
  k3s_multi_node_installer v' = k3s_multi_node_installer v.
Proof.
  intros Hnodes Hkeys.
  assert (∀ k, k ∈ k3s_multi_node_keys → field v' k = field v k) as Hfield
    by (intros k Hk; by apply field_agree, Hkeys).
  unfold k3s_multi_node_installer, range_nodes, image_staging, config_selection,
    manifests_install, vip_host_entry, runtime_installation.
  rewrite Hnodes.
  rewrite !(Hkeys "manifestsPath"), !(Hkeys "apiVIP"), !(Hkeys "apiHost");
    [|unfold k3s_multi_node_keys;
      repeat first [apply list_elem_of_here | apply list_elem_of_further]..].
  rewrite !(Hfield "imagesPath"), !(Hfield "configFilePath"), !(Hfield "initialiser"),
    !(Hfield "initialiserConfigFile"), !(Hfield "manifestsPath"), !(Hfield "apiVIP"),
    !(Hfield "apiHost"), !(Hfield "registryMirrors"), !(Hfield "binaryPath"),
    !(Hfield "installScript");
    [done|unfold k3s_multi_node_keys;
          repeat first [apply list_elem_of_here | apply list_elem_of_further]..].
Qed.


(** X19. The values [configureK3S] gives the multi-node template fill it:
    the rendering is named [multi-node-k3s], [nodes] is the node list, every
    other key the template reads is set to a string, the template executes,
    and the script depends on no other key. *)
Theorem k3s_multi_node_values_fill_the_template ctx cluster fs r fs' evs name values :
  configureK3S env c ctx cluster fs = (r, fs', evs) →
  CallParse name k3sMultiNodeInstaller (DataMap values) ∈ evs →
  name = "multi-node-k3s" ∧
  range_nodes values "nodes" = Some (Nodes (Kubernetes_ ctx)) ∧
  (∀ k, k ∈ k3s_multi_node_keys → ∃ s, values !! k = Some (VStr s)) ∧
  (∃ script, k3s_multi_node_installer values = Some script) ∧
  (∀ v', v' !! "nodes" = values !! "nodes" →
         (∀ k, k ∈ k3s_multi_node_keys → v' !! k = values !! k) →
         k3s_multi_node_installer v' = k3s_multi_node_installer values).
Proof.
  intros Hrun Hin.
  destruct (spec_configureK3S_renders ctx cluster _ _ _ _ Logic.I Hrun) as [Hev _].
  rewrite Forall_forall in Hev. specialize (Hev _ Hin). cbn in Hev.
  destruct Hev as [[=]|(values' & [= <-] & installScript & paths & mp & Hshape)].
  revert Hshape. cbv zeta. case_bool_decide; [by intros (_ & [=] & _)|].
  intros (-> & _ & ->).
  assert (range_nodes
            (<["initialiserConfigFile" := VStr k8sInitServerConfigFile]>
               (<["initialiser" := VStr (InitialiserName cluster)]>
                  (<["nodes" := VNodes (Nodes (Kubernetes_ ctx))]>
                     (k3sTemplateValues env ctx installScript paths mp)))) "nodes" =
          Some (Nodes (Kubernetes_ ctx))) as Hnodes.
  { unfold range_nodes. rewrite !lookup_insert_ne by done.
    by rewrite lookup_insert_eq. }
  split; [done|]. split; [done|]. split; [|split].
  - intros k Hk. unfold k3s_multi_node_keys in Hk.
    repeat (apply elem_of_cons in Hk as [->|Hk]); try (by apply elem_of_nil in Hk);
      by eexists.
  - unfold k3s_multi_node_installer. rewrite Hnodes. by eexists.
  - apply k3s_multi_node_installer_reads.
Qed.

Lemma manifests_event_rke2 dir ctx cluster e :
  manifests_event dir e → rke2_event env ctx cluster e.
Proof. destruct e; try done. by left. Qed.

Lemma spec_configureRKE2_renders ctx cluster :
  spec (λ _, True) (configureRKE2 env c ctx cluster) (λ _ _, True)
       (rke2_event env ctx cluster).
Proof.
  unfold configureRKE2. cbv zeta.
  eapply spec_bind with (Q1 := λ _ _, True); [by apply spec_log|intros ?].
  eapply spec_bind_wrap with (Q1 := λ _ _, True);
    [by apply spec_downloadKubernetesInstallScript_any|intros installScript].
  eapply spec_bind_wrap; [by apply spec_downloadRKE2Artefacts_any|intros paths].
  cbv beta.
  apply (spec_assume _ _ _ _
           (paths = (prependArtefactPath env (Join [k8sDir; k8sInstallDir]),
                     prependArtefactPath env (Join [k8sDir; k8sImagesDir]))));
    [done|intros ->].
  eapply spec_bind_wrap with (Q1 := λ _ _, True).
  { eapply spec_weaken;
      [apply spec_configureManifests_any, manifests_event_rke2|done|done]. }
  intros manifestsPath.
  case_bool_decide as Hn.
  - eapply spec_bind with (Q1 := λ _ _, True).
    { case_bool_decide; [by apply spec_log|by apply spec_ret]. }
    intros ?. apply spec_storeKubernetesInstaller; [|done].
    right. eexists. split; [done|]. exists installScript, manifestsPath.
    cbv zeta. by rewrite (bool_decide_true _ Hn).
  - apply spec_storeKubernetesInstaller; [|done].
    right. eexists. split; [done|]. exists installScript, manifestsPath.
    cbv zeta. by rewrite (bool_decide_false _ Hn).
Qed.

(** X20. [configureRKE2] warns about nothing, and renders its installer
    under the name [single-node-rke2] or [multi-node-rke2] by the number of
    nodes, with the install and images paths under the artefacts root, no
    binary path, and [configFile] set to [server.yaml] for a single node
    only. *)
Theorem rke2_installer_gets_the_install_path ctx cluster fs r fs' evs :
  configureRKE2 env c ctx cluster fs = (r, fs', evs) →
  let single := bool_decide (length (Nodes (Kubernetes_ ctx)) < 2) in
  (∀ msg, (Audit msg ∉ evs) ∧ (ZapWarn msg ∉ evs)) ∧
  (∀ name contents values,
     CallParse name contents (DataMap values) ∈ evs → contents ≠ k8sVIPManifest →
     name = (if single then "single-node-rke2" else "multi-node-rke2") ∧
     values !! "installPath" =
       Some (VStr (prependArtefactPath env (Join [k8sDir; k8sInstallDir]))) ∧
     values !! "imagesPath" =
       Some (VStr (prependArtefactPath env (Join [k8sDir; k8sImagesDir]))) ∧
     values !! "binaryPath" = None ∧
     values !! "configFile" =
       (if single then Some (VStr k8sServerConfigFile) else None)).
Proof.
  intros Hrun single.
  destruct (spec_configureRKE2_renders ctx cluster _ _ _ _ Logic.I Hrun) as [Hev _].
  rewrite Forall_forall in Hev. split.
  - intros msg. split; intros Hin; by specialize (Hev _ Hin).
  - intros name contents values Hin Hnot. specialize (Hev _ Hin). cbn in Hev.
    destruct Hev as [?|(values' & [= <-] & installScript & mp & Hshape)]; [done|].
    revert Hshape. cbv zeta. subst single.
    case_bool_decide; intros (-> & _ & ->); repeat split;
      by rewrite ?lookup_insert_ne, ?lookup_insert_eq by done.
Qed.


Lemma manifests_event_k3s_warning dir ctx e : manifests_event dir e → k3s_warning ctx e.
Proof. by destruct e. Qed.

Lemma spec_configureK3S_warnings ctx cluster :
  spec (λ _, True) (configureK3S env c ctx cluster) (λ _ _, True) (k3s_warning ctx).
Proof.
  unfold configureK3S. cbv zeta.
  eapply spec_bind with (Q1 := λ _ _, True); [by apply spec_log|intros ?].
  eapply spec_bind_wrap with (Q1 := λ _ _, True);
    [by apply spec_downloadKubernetesInstallScript_any|intros installScript].
  eapply spec_bind_wrap with (Q1 := λ _ _, True);
    [by apply spec_downloadK3sArtefacts_any|intros paths].
  eapply spec_bind_wrap with (Q1 := λ _ _, True);
    [apply spec_configureManifests_any, manifests_event_k3s_warning|].
  intros manifestsPath. case_bool_decide as Hn.
  - eapply spec_bind with (Q1 := λ _ _, True).
    { case_bool_decide as Hvip; [by apply spec_log|].
      eapply spec_bind with (Q1 := λ _ _, True); [|intros ?; by apply spec_log].
      apply spec_log. by right. }
    intros ?. by apply spec_storeKubernetesInstaller.
  - eapply spec_bind with (Q1 := λ _ _, True).
    { apply spec_log. left. split; [done|lia]. }
    intros ?.
    eapply spec_bind with (Q1 := λ _ _, True); [by apply spec_log|intros ?].
    by apply spec_storeKubernetesInstaller.
Qed.

(** X21. The audit lines of [configureK3S] are its two warnings: that of a
    multi-node cluster, which a successful run of two nodes or more always
    has, with a VIP or without, and that of a single node with a VIP, which
    a successful run of fewer than two nodes has when a VIP is set. *)
Theorem k3s_warns_about_the_ingress ctx cluster fs r fs' evs :
  configureK3S env c ctx cluster fs = (r, fs', evs) →
  let k := Kubernetes_ ctx in
  (∀ msg, Audit msg ∈ evs →
     msg = warn_k3s_multi_node ∧ 2 ≤ length (Nodes k) ∨
     msg = warn_k3s_single_node_vip ∧ length (Nodes k) < 2 ∧ APIVIP (Network_ k) ≠ "") ∧
  (is_ok r = true → 2 ≤ length (Nodes k) → Audit warn_k3s_multi_node ∈ evs) ∧
  (is_ok r = true → length (Nodes k) < 2 → APIVIP (Network_ k) ≠ "" →
   Audit warn_k3s_single_node_vip ∈ evs).
Proof.
  intros Hrun k. split.
  { destruct (spec_configureK3S_warnings ctx cluster _ _ _ _ Logic.I Hrun) as [Hev _].
    rewrite Forall_forall in Hev. intros msg Hin. exact (Hev _ Hin). }
  assert (∀ script, r = Ok script →
            ∃ ev1 ev2,
              evs = ev1 ++ ev2 ∧
              if bool_decide (length (Nodes k) < 2)
              then if bool_decide (APIVIP (Network_ k) = "")
                   then True
                   else ∃ ev3, ev2 = Audit warn_k3s_single_node_vip :: ev3
              else ∃ ev3, ev2 = Audit warn_k3s_multi_node :: ev3) as Hshape.
  { intros script ->. revert Hrun. unfold configureK3S. fold k. cbv zeta.
    intros (? & ? & e1 & ? & _ & Hrun & ->)%bind_Ok.
    apply bind_wrap_Ok in Hrun as (? & ? & e2 & ? & _ & Hrun & ->).
    apply bind_wrap_Ok in Hrun as (? & ? & e3 & ? & _ & Hrun & ->).
    apply bind_wrap_Ok in Hrun as (? & ? & e4 & e5 & _ & Hrun & ->).
    exists (e1 ++ e2 ++ e3 ++ e4), e5. split; [by rewrite <- !app_assoc|].
    revert Hrun. case_bool_decide.
    - case_bool_decide; [done|].
      intros (? & ? & ? & ? & Hwarn & _ & ->)%bind_Ok.
      apply bind_Ok in Hwarn as (? & ? & ? & ? & [= _ _ <-] & [= _ _ <-] & ->).
      by eexists.
    - intros (? & ? & ? & ? & [= _ _ <-] & _ & ->)%bind_Ok. by eexists. }
  split.
  - intros Hok Hmulti. destruct r as [script|]; [|done].
    destruct (Hshape script eq_refl) as (ev1 & ev2 & -> & Hwarn).
    rewrite bool_decide_false in Hwarn by lia. destruct Hwarn as [ev3 ->].
    apply elem_of_app. right. apply list_elem_of_here.
  - intros Hok Hsingle Hvip. destruct r as [script|]; [|done].
    destruct (Hshape script eq_refl) as (ev1 & ev2 & -> & Hwarn).
    rewrite bool_decide_true, bool_decide_false in Hwarn by done.
    destruct Hwarn as [ev3 ->]. apply elem_of_app. right. apply list_elem_of_here.
Qed.

End renderings.

Lemma installer_renderings_app ev1 ev2 :
  installer_renderings (ev1 ++ ev2) = installer_renderings ev1 ++ installer_renderings ev2.
Proof. apply List.filter_app. Qed.

Lemma installer_renderings_none evs :
  Forall (λ e, match e with CallParse _ contents _ => contents = k8sVIPManifest | _ => True end) evs →
  installer_renderings evs = [].
Proof.
  induction 1 as [|e evs He _ IH]; [done|].
  unfold installer_renderings in *. cbn [List.filter]. rewrite IH.
  destruct e; try done. by subst.
Qed.

Section selection.
Context (env : Imports) (c : Combustion).

Lemma staging_renders_nothing {A} (m : M A) (E : Event → Prop) fs r fs' evs :
  spec (λ _, True) m (λ _ _, True) E →
  (∀ e, E e → match e with CallParse _ contents _ => contents = k8sVIPManifest | _ => True end) →
  m fs = (r, fs', evs) → installer_renderings evs = [].
Proof.
  intros Hspec HE Hrun. apply installer_renderings_none.
  destruct (Hspec fs r fs' evs Logic.I Hrun) as [Hev _].
  eapply Forall_impl; [exact Hev|exact HE].
Qed.

Lemma storeKubernetesInstaller_renders ctx name contents data fs :
  contents ≠ k8sVIPManifest →
  installer_renderings (storeKubernetesInstaller env ctx name contents data fs).2 =
    [CallParse name contents data].
Proof.
  intros Hc.
  destruct (storeKubernetesInstaller env ctx name contents data fs) as [[r fs'] evs] eqn:Hrun.
  apply storeKubernetesInstaller_inv in Hrun. cbn [snd].
  destruct r as [s|msg].
  - destruct Hrun as (_ & text & x & _ & _ & ->). by destruct contents.
  - destruct Hrun as (_ & [(e & _ & _ & ->)|(text & e & _ & _ & ->)]); by destruct contents.
Qed.

Lemma no_parse_not_installer e :
  no_parse e →
  match e with CallParse _ contents _ => contents = k8sVIPManifest | _ => True end.
Proof. by destruct e. Qed.

Lemma manifests_event_not_installer dir e :
  manifests_event dir e →
  match e with CallParse _ contents _ => contents = k8sVIPManifest | _ => True end.
Proof. by destruct e. Qed.

(** [configureK3S] once the install script, the artefacts and the manifests
    are in place: the warning of the topology, then the installer. *)
Lemma configureK3S_staged ctx cluster fs installScript paths manifestsPath
    fs1 fs2 fs3 ev1 ev2 ev3 :
  downloadKubernetesInstallScript env c ctx (KubernetesDistroK3S env) fs =
    (Ok installScript, fs1, ev1) →
  downloadK3sArtefacts env c ctx fs1 = (Ok paths, fs2, ev2) →
  configureManifests env c ctx fs2 = (Ok manifestsPath, fs3, ev3) →
  let k := Kubernetes_ ctx in
  let base := k3sTemplateValues env ctx installScript paths manifestsPath in
  let store :=
    if bool_decide (length (Nodes k) < 2) then
      storeKubernetesInstaller env ctx "single-node-k3s" k3sSingleNodeInstaller
        (DataMap (<["configFile" := VStr k8sServerConfigFile]> base)) fs3
    else
      storeKubernetesInstaller env ctx "multi-node-k3s" k3sMultiNodeInstaller
        (DataMap (<["initialiserConfigFile" := VStr k8sInitServerConfigFile]>
                  (<["initialiser" := VStr (InitialiserName cluster)]>
                   (<["nodes" := VNodes (Nodes k)]> base)))) fs3 in
  ∃ warnings,
    Forall no_parse warnings ∧
    configureK3S env c ctx cluster fs =
      (store.1.1, store.1.2,
       ZapInfo "Configuring K3s cluster" :: ev1 ++ ev2 ++ ev3 ++ warnings ++ store.2).
Proof.
  intros Hscript Hartefacts Hmanifests k base store. subst store.
  unfold configureK3S. fold k. rewrite bind_log. cbn [fst snd]. cbv beta.
  rewrite (bind_wrap_ok _ _ _ _ _ _ _ Hscript). cbn [fst snd].
  rewrite (bind_wrap_ok _ _ _ _ _ _ _ Hartefacts). cbn [fst snd].
  rewrite (bind_wrap_ok _ _ _ _ _ _ _ Hmanifests). cbn [fst snd]. cbv zeta.
  fold base. case_bool_decide.
  - case_bool_decide.
    + rewrite bind_log. cbn [fst snd]. eexists [_]. split; last reflexivity.
      by repeat constructor.
    + rewrite bind_log2. cbn [fst snd]. eexists [_; _].
      split; last reflexivity.
      by repeat constructor.
  - rewrite bind_log. cbn [fst snd]. rewrite bind_log. cbn [fst snd]. eexists [_; _].
    split; last reflexivity.
      by repeat constructor.
Qed.

Lemma configureRKE2_staged ctx cluster fs installScript paths manifestsPath
    fs1 fs2 fs3 ev1 ev2 ev3 :
  downloadKubernetesInstallScript env c ctx (KubernetesDistroRKE2 env) fs =
    (Ok installScript, fs1, ev1) →
  downloadRKE2Artefacts env c ctx cluster fs1 = (Ok paths, fs2, ev2) →
  configureManifests env c ctx fs2 = (Ok manifestsPath, fs3, ev3) →
  let k := Kubernetes_ ctx in
  let base := rke2TemplateValues env ctx installScript paths manifestsPath in
  let store :=
    if bool_decide (length (Nodes k) < 2) then
      storeKubernetesInstaller env ctx "single-node-rke2" rke2SingleNodeInstaller
        (DataMap (<["configFile" := VStr k8sServerConfigFile]> base)) fs3
    else
      storeKubernetesInstaller env ctx "multi-node-rke2" rke2MultiNodeInstaller
        (DataMap (<["initialiserConfigFile" := VStr k8sInitServerConfigFile]>
                  (<["initialiser" := VStr (InitialiserName cluster)]>
                   (<["nodes" := VNodes (Nodes k)]> base)))) fs3 in
  ∃ warnings,
    Forall no_parse warnings ∧
    configureRKE2 env c ctx cluster fs =
      (store.1.1, store.1.2,
       ZapInfo "Configuring RKE2 cluster" :: ev1 ++ ev2 ++ ev3 ++ warnings ++ store.2).
Proof.
  intros Hscript Hartefacts Hmanifests k base store. subst store.
  unfold configureRKE2. fold k. rewrite bind_log. cbn [fst snd]. cbv beta.
  rewrite (bind_wrap_ok _ _ _ _ _ _ _ Hscript). cbn [fst snd].
  rewrite (bind_wrap_ok _ _ _ _ _ _ _ Hartefacts). cbn [fst snd].
  rewrite (bind_wrap_ok _ _ _ _ _ _ _ Hmanifests). cbn [fst snd]. cbv zeta.
  fold base. case_bool_decide.
  - case_bool_decide.
    + rewrite bind_log. cbn [fst snd]. eexists [_]. split; last reflexivity.
      by repeat constructor.
    + exists []. split; [done|]. reflexivity.
  - exists []. split; [done|]. reflexivity.
Qed.

Lemma k3sTemplateValues_None ctx installScript paths manifestsPath key :
  key ∉ [ "installScript"; "apiVIP"; "apiHost"; "binaryPath"; "imagesPath";
          "manifestsPath"; "configFilePath"; "registryMirrors" ] →
  k3sTemplateValues env ctx installScript paths manifestsPath !! key = None.
Proof.
  intros Hkey. apply not_elem_of_list_to_map_1. by cbn [fmap list_fmap fst].
Qed.

Lemma rke2TemplateValues_None ctx installScript paths manifestsPath key :
  key ∉ [ "installScript"; "apiVIP"; "apiHost"; "installPath"; "imagesPath";
          "manifestsPath"; "configFilePath"; "registryMirrors" ] →
  rke2TemplateValues env ctx installScript paths manifestsPath !! key = None.
Proof.
  intros Hkey. apply not_elem_of_list_to_map_1. by cbn [fmap list_fmap fst].
Qed.

Lemma warnings_render_nothing warnings :
  Forall no_parse warnings → installer_renderings warnings = [].
Proof.
  intros Hw. apply installer_renderings_none.
  eapply Forall_impl; [exact Hw|apply no_parse_not_installer].
Qed.

Lemma configureK3S_renders_selected ctx cluster fs installScript paths manifestsPath
    fs1 fs2 fs3 ev1 ev2 ev3 :
  downloadKubernetesInstallScript env c ctx (KubernetesDistroK3S env) fs =
    (Ok installScript, fs1, ev1) →
  downloadK3sArtefacts env c ctx fs1 = (Ok paths, fs2, ev2) →
  configureManifests env c ctx fs2 = (Ok manifestsPath, fs3, ev3) →
  renders_selected "single-node-k3s" "multi-node-k3s"
    k3sSingleNodeInstaller k3sMultiNodeInstaller ctx cluster
    (configureK3S env c ctx cluster fs).2.
Proof.
  intros Hscript Hartefacts Hmanifests.
  destruct (configureK3S_staged ctx cluster _ _ _ _ _ _ _ _ _ _
              Hscript Hartefacts Hmanifests) as (warnings & Hw & ->).
  cbn [snd]. unfold renders_selected, values_by_node_count. cbv zeta.
  change (?e :: ?l) with ([e] ++ l) at 1. rewrite !installer_renderings_app.
  rewrite (staging_renders_nothing _ _ _ _ _ _
             (spec_downloadKubernetesInstallScript env c ctx _)
             no_parse_not_installer Hscript).
  rewrite (staging_renders_nothing _ _ _ _ _ _ (spec_downloadK3sArtefacts env c ctx)
             no_parse_not_installer Hartefacts).
  rewrite (staging_renders_nothing _ _ _ _ _ _ (spec_configureManifests env c ctx)
             (manifests_event_not_installer _) Hmanifests).
  rewrite (warnings_render_nothing _ Hw). cbn [app installer_renderings List.filter].
  destruct (bool_decide (length (Nodes (Kubernetes_ ctx)) < 2));
    (rewrite storeKubernetesInstaller_renders; [|done]);
    eexists; (split; [reflexivity|]).
  - repeat split; rewrite lookup_insert_ne by done; apply k3sTemplateValues_None; set_solver.
  - split; [rewrite !lookup_insert_ne by done; by rewrite lookup_insert_eq|]. split; [|by rewrite lookup_insert_eq].
    rewrite lookup_insert_ne by done. by rewrite lookup_insert_eq.
Qed.

Lemma configureRKE2_renders_selected ctx cluster fs installScript paths manifestsPath
    fs1 fs2 fs3 ev1 ev2 ev3 :
  downloadKubernetesInstallScript env c ctx (KubernetesDistroRKE2 env) fs =
    (Ok installScript, fs1, ev1) →
  downloadRKE2Artefacts env c ctx cluster fs1 = (Ok paths, fs2, ev2) →
  configureManifests env c ctx fs2 = (Ok manifestsPath, fs3, ev3) →
  renders_selected "single-node-rke2" "multi-node-rke2"
    rke2SingleNodeInstaller rke2MultiNodeInstaller ctx cluster
    (configureRKE2 env c ctx cluster fs).2.
Proof.
  intros Hscript Hartefacts Hmanifests.
  destruct (configureRKE2_staged ctx cluster _ _ _ _ _ _ _ _ _ _
              Hscript Hartefacts Hmanifests) as (warnings & Hw & ->).
  cbn [snd]. unfold renders_selected, values_by_node_count. cbv zeta.
  change (?e :: ?l) with ([e] ++ l) at 1. rewrite !installer_renderings_app.
  rewrite (staging_renders_nothing _ _ _ _ _ _
             (spec_downloadKubernetesInstallScript env c ctx _)
             no_parse_not_installer Hscript).
  rewrite (staging_renders_nothing _ _ _ _ _ _ (spec_downloadRKE2Artefacts env c ctx cluster)
             no_parse_not_installer Hartefacts).
  rewrite (staging_renders_nothing _ _ _ _ _ _ (spec_configureManifests env c ctx)
             (manifests_event_not_installer _) Hmanifests).
  rewrite (warnings_render_nothing _ Hw). cbn [app installer_renderings List.filter].
  destruct (bool_decide (length (Nodes (Kubernetes_ ctx)) < 2));
    (rewrite storeKubernetesInstaller_renders; [|done]);
    eexists; (split; [reflexivity|]).
  - repeat split; rewrite lookup_insert_ne by done; apply rke2TemplateValues_None; set_solver.
  - split; [rewrite !lookup_insert_ne by done; by rewrite lookup_insert_eq|]. split; [|by rewrite lookup_insert_eq].
    rewrite lookup_insert_ne by done. by rewrite lookup_insert_eq.
Qed.

(** C2. The installer template goes by the number of nodes, in
    [configureK3S] and in [configureRKE2] alike. Once the install script, the
    artefacts and the manifests are in place, the journal has one rendering
    of an installer, whether the rendering then succeeds or fails: of the
    single-node template when there are fewer than 2 nodes, of the multi-node
    template otherwise, and in the multi-node case, and only then, the values
    carry the node list, the initialiser's name and the name of the
    initialiser's configuration file. So has every run that succeeds; and no
    run, failed or not, has a rendering of the other template. *)
Theorem template_follows_node_count ctx cluster fs :
  (∀ installScript paths manifestsPath fs1 fs2 fs3 ev1 ev2 ev3,
     downloadKubernetesInstallScript env c ctx (KubernetesDistroK3S env) fs =
       (Ok installScript, fs1, ev1) →
     downloadK3sArtefacts env c ctx fs1 = (Ok paths, fs2, ev2) →
     configureManifests env c ctx fs2 = (Ok manifestsPath, fs3, ev3) →
     renders_selected "single-node-k3s" "multi-node-k3s"
       k3sSingleNodeInstaller k3sMultiNodeInstaller ctx cluster
       (configureK3S env c ctx cluster fs).2) ∧
  (∀ installScript paths manifestsPath fs1 fs2 fs3 ev1 ev2 ev3,
     downloadKubernetesInstallScript env c ctx (KubernetesDistroRKE2 env) fs =
       (Ok installScript, fs1, ev1) →
     downloadRKE2Artefacts env c ctx cluster fs1 = (Ok paths, fs2, ev2) →
     configureManifests env c ctx fs2 = (Ok manifestsPath, fs3, ev3) →
     renders_selected "single-node-rke2" "multi-node-rke2"
       rke2SingleNodeInstaller rke2MultiNodeInstaller ctx cluster
       (configureRKE2 env c ctx cluster fs).2) ∧
  (∀ r fs' evs, configureK3S env c ctx cluster fs = (r, fs', evs) →
     renders_by_node_count k3sSingleNodeInstaller k3sMultiNodeInstaller
       ctx cluster evs ∧
     (is_ok r = true →
      renders_selected "single-node-k3s" "multi-node-k3s"
        k3sSingleNodeInstaller k3sMultiNodeInstaller ctx cluster evs)) ∧
  (∀ r fs' evs, configureRKE2 env c ctx cluster fs = (r, fs', evs) →
     renders_by_node_count rke2SingleNodeInstaller rke2MultiNodeInstaller
       ctx cluster evs ∧
     (is_ok r = true →
      renders_selected "single-node-rke2" "multi-node-rke2"
        rke2SingleNodeInstaller rke2MultiNodeInstaller ctx cluster evs)).
Proof.
  assert (spec (λ _, True) (configureManifests env c ctx) (λ _ _, True)
            (manifests_event (manifestDestDir ctx))) as Hm
    by apply spec_configureManifests.
  split; [intros; by eapply configureK3S_renders_selected|].
  split; [intros; by eapply configureRKE2_renders_selected|].
  split; intros r fs' evs Hrun.
  - split.
    + apply installer_render_by_node_count; [done|].
      by apply (spec_configureK3S env c (λ _, True) ctx cluster Hm fs r fs' evs).
    + destruct r as [script|]; [intros _|done].
      pose proof Hrun as Hsteps. unfold configureK3S in Hsteps.
      apply bind_Ok in Hsteps as ([] & ? & ? & ? & [= <- _] & Hsteps & _).
      apply bind_wrap_Ok in Hsteps as (? & ? & ? & ? & Hscript & Hsteps & _).
      apply bind_wrap_Ok in Hsteps as (? & ? & ? & ? & Hartefacts & Hsteps & _).
      apply bind_wrap_Ok in Hsteps as (? & ? & ? & ? & Hmanifests & _).
      pose proof (configureK3S_renders_selected ctx cluster _ _ _ _ _ _ _ _ _ _
                    Hscript Hartefacts Hmanifests) as Hsel.
      by rewrite Hrun in Hsel.
  - split.
    + apply installer_render_by_node_count; [done|].
      by apply (spec_configureRKE2 env c (λ _, True) ctx cluster Hm fs r fs' evs).
    + destruct r as [script|]; [intros _|done].
      pose proof Hrun as Hsteps. unfold configureRKE2 in Hsteps.
      apply bind_Ok in Hsteps as ([] & ? & ? & ? & [= <- _] & Hsteps & _).
      apply bind_wrap_Ok in Hsteps as (? & ? & ? & ? & Hscript & Hsteps & _).
      apply bind_wrap_Ok in Hsteps as (? & ? & ? & ? & Hartefacts & Hsteps & _).
      apply bind_wrap_Ok in Hsteps as (? & ? & ? & ? & Hmanifests & _).
      pose proof (configureRKE2_renders_selected ctx cluster _ _ _ _ _ _ _ _ _ _
                    Hscript Hartefacts Hmanifests) as Hsel.
      by rewrite Hrun in Hsel.
Qed.

End selection.

Lemma bind_audit_ok {A B} (m : M A) comp what (k : A → M B) fs a fs1 ev1 :
  m fs = (Ok a, fs1, ev1) →
  bind_audit m comp what k fs = ((k a fs1).1.1, (k a fs1).1.2, ev1 ++ (k a fs1).2).
Proof. intros Hm. unfold bind_audit, and_then. by rewrite Hm. Qed.

Section warnings.
Context (env : Imports) (c : Combustion).

(** [configureKubernetes] when every step after the warning succeeds. *)
Lemma configureKubernetes_continues ctx fs configureFunc cluster fs1 fs2 fs3
    ev1 ev2 ev3 name :
  let k := Kubernetes_ ctx in
  let configPath := Join [generateComponentPath env ctx k8sDir; k8sConfigDir] in
  Version k ≠ "" →
  kubernetesConfigurator env c (Version k) = Some configureFunc →
  NewCluster env k configPath fs = Ok cluster →
  os.MkdirAll (kubernetesArtefactsPath ctx) fs = (Ok tt, fs1, ev1) →
  storeKubernetesClusterConfig env cluster (kubernetesArtefactsPath ctx) fs1 =
    (Ok tt, fs2, ev2) →
  configureFunc ctx cluster fs2 = (Ok name, fs3, ev3) →
  configureKubernetes env c ctx fs =
    (Ok [name], fs3,
     Audit "Configuring Kubernetes component..." ::
     (if bool_decide (ServersCount env (Nodes k) = 2)
      then [ Audit warn_two_servers;
             ZapWarn "Kubernetes cluster of two server nodes has been requested" ]
      else []) ++
     CallNewCluster configPath :: ev1 ++ ev2 ++ ev3 ++
     [AuditComponentSuccessful k8sComponentName]).
Proof.
  intros k configPath Hversion Hfunc Hnew Hmk Hstore Hconf.
  unfold configureKubernetes. fold k. rewrite bool_decide_false by done. rewrite Hfunc.
  rewrite bind_log. cbn [fst snd]. cbv beta zeta. fold configPath.
  assert (kubernetes_NewCluster env k configPath fs =
            (Ok cluster, fs, [CallNewCluster configPath])) as Hcall
    by (unfold kubernetes_NewCluster; by rewrite Hnew).
  assert (∀ warn : M unit, ∀ evw, warn fs = (Ok tt, fs, evw) →
    (warn ;; (cluster <~ kubernetes_NewCluster env k configPath
                or_audit k8sComponentName, "initialising cluster config" ;;
              _ <~ os.MkdirAll (kubernetesArtefactsPath ctx)
                or "creating kubernetes artefacts path" ;;
              _ <~ storeKubernetesClusterConfig env cluster (kubernetesArtefactsPath ctx)
                or_audit k8sComponentName, "storing cluster config" ;;
              script <~ configureFunc ctx cluster
                or_audit k8sComponentName, "configuring kubernetes components" ;;
              log (AuditComponentSuccessful k8sComponentName) ;;
              ret [script])) fs =
    (Ok [name], fs3,
     evw ++ CallNewCluster configPath :: ev1 ++ ev2 ++ ev3 ++
     [AuditComponentSuccessful k8sComponentName])) as Hrest.
  { intros warn evw Hwarn. rewrite (bind_ok _ _ _ _ _ _ Hwarn). cbn [fst snd].
    rewrite (bind_audit_ok _ _ _ _ _ _ _ _ Hcall). cbn [fst snd].
    rewrite (bind_wrap_ok _ _ _ _ _ _ _ Hmk). cbn [fst snd].
    rewrite (bind_audit_ok _ _ _ _ _ _ _ _ Hstore). cbn [fst snd].
    rewrite (bind_audit_ok _ _ _ _ _ _ _ _ Hconf). cbn [fst snd].
    rewrite bind_log. cbn [fst snd ret]. by rewrite <- ?app_assoc. }
  case_bool_decide.
  - by rewrite (Hrest _ [_; _] eq_refl).
  - by rewrite (Hrest _ [] eq_refl).
Qed.

Lemma configurator_renders version f ctx cluster :
  kubernetesConfigurator env c version = Some f →
  reaches (f ctx cluster) installer_parse.
Proof.
  intros ->%kubernetesConfigurator_inv.
  destruct (Contains version (KubernetesDistroRKE2 env)).
  - apply reaches_configureRKE2.
  - apply reaches_configureK3S.
Qed.

(** C8. The two warnings are not errors.
    Two servers: the result of [configureKubernetes] and the file system it
    leaves do not depend on the count of servers; with two servers the
    journal starts with the warning and goes on with the computation of the
    cluster; and when the steps that follow succeed (the cluster, the
    artefacts directory, the stored configurations, the configurator) the
    build succeeds with the script [20-k8s-install.sh], an installer has been
    rendered and the script file holds the rendered text.
    A VIP on a single-node k3s cluster: once the artefacts and manifests are
    in place, the result of [configureK3S] and the file system it leaves are
    those of rendering and storing the single-node installer, the warning is
    in the journal, and so is the rendering. *)
Theorem warnings_are_not_errors ctx fs :
  let k := Kubernetes_ ctx in
  let configPath := Join [generateComponentPath env ctx k8sDir; k8sConfigDir] in
  let artefactsPath := kubernetesArtefactsPath ctx in
  let start :=
    [ Audit "Configuring Kubernetes component...";
      Audit warn_two_servers;
      ZapWarn "Kubernetes cluster of two server nodes has been requested";
      CallNewCluster configPath ] in
  (∀ count, (configureKubernetes (with_ServersCount count env) c ctx fs).1 =
            (configureKubernetes env c ctx fs).1) ∧
  (∀ configureFunc,
     ServersCount env (Nodes k) = 2 → Version k ≠ "" →
     kubernetesConfigurator env c (Version k) = Some configureFunc →
     (∃ rest, (configureKubernetes env c ctx fs).2 = start ++ rest) ∧
     (∀ cluster fs1 fs2 fs3 ev1 ev2 ev3 name,
        NewCluster env k configPath fs = Ok cluster →
        os.MkdirAll artefactsPath fs = (Ok tt, fs1, ev1) →
        storeKubernetesClusterConfig env cluster artefactsPath fs1 = (Ok tt, fs2, ev2) →
        configureFunc ctx cluster fs2 = (Ok name, fs3, ev3) →
        configureKubernetes env c ctx fs =
          (Ok [k8sInstallScript], fs3,
           start ++ ev1 ++ ev2 ++ ev3 ++ [AuditComponentSuccessful k8sComponentName]) ∧
        Exists installer_parse ev3 ∧
        ∃ template_name contents data text x,
          contents ≠ k8sVIPManifest ∧
          Parse env template_name contents data = Ok text ∧
          fs3 !! Join [CombustionDir ctx; k8sInstallScript] = Some (File text x))) ∧
  (∀ cluster installScript paths manifestsPath fs1 fs2 fs3 ev1 ev2 ev3,
     length (Nodes k) < 2 → APIVIP (Network_ k) ≠ "" →
     downloadKubernetesInstallScript env c ctx (KubernetesDistroK3S env) fs =
       (Ok installScript, fs1, ev1) →
     downloadK3sArtefacts env c ctx fs1 = (Ok paths, fs2, ev2) →
     configureManifests env c ctx fs2 = (Ok manifestsPath, fs3, ev3) →
     let values := <["configFile" := VStr k8sServerConfigFile]>
                     (k3sTemplateValues env ctx installScript paths manifestsPath) in
     let store := storeKubernetesInstaller env ctx "single-node-k3s"
                    k3sSingleNodeInstaller (DataMap values) fs3 in
     let out := configureK3S env c ctx cluster fs in
     out.1 = store.1 ∧
     Audit warn_k3s_single_node_vip ∈ out.2 ∧
     CallParse "single-node-k3s" k3sSingleNodeInstaller (DataMap values) ∈ out.2).
Proof.
  intros k configPath artefactsPath start. split; [|split].
  - intros count. unfold configureKubernetes. fold k.
    destruct (decide (Version k = "")) as [Hv|Hv];
      [by rewrite !bool_decide_true by done|rewrite !bool_decide_false by done].
    change (kubernetesConfigurator (with_ServersCount count env) c (Version k))
      with (kubernetesConfigurator env c (Version k)).
    destruct (kubernetesConfigurator env c (Version k)) as [configureFunc|]; [|done].
    change (ServersCount (with_ServersCount count env) (Nodes k)) with (count (Nodes k)).
    destruct (bool_decide (count (Nodes k) = 2)),
      (bool_decide (ServersCount env (Nodes k) = 2)); reflexivity.
  - intros configureFunc Hcount Hversion Hfunc. split.
    + unfold configureKubernetes. fold k. rewrite bool_decide_false by done.
      rewrite Hfunc, bind_log. cbn [fst snd]. cbv beta zeta.
      rewrite bool_decide_true by done. rewrite bind_log2. cbn [snd].
      unfold bind_audit at 1, and_then at 1, kubernetes_NewCluster at 1. cbn [fst snd].
      fold k configPath. by eexists.
    + intros cluster fs1 fs2 fs3 ev1 ev2 ev3 name Hnew Hmk Hstore Hconf.
      destruct (spec_configurator_file env c _ _ ctx cluster Hfunc _ _ _ _ Logic.I Hconf)
        as [_ Hfile].
      destruct (Hfile name eq_refl) as (-> & Hscript).
      split; [|split; [|exact Hscript]].
      * rewrite (configureKubernetes_continues ctx fs configureFunc cluster
                   fs1 fs2 fs3 ev1 ev2 ev3 k8sInstallScript
                   Hversion Hfunc Hnew Hmk Hstore Hconf).
        fold k. by rewrite bool_decide_true by done.
      * exact (configurator_renders _ _ ctx cluster Hfunc fs2 _ fs3 ev3 Hconf).
  - intros cluster installScript paths manifestsPath fs1 fs2 fs3 ev1 ev2 ev3
      Hsingle Hvip Hscript Hartefacts Hmanifests values store out.
    assert (CallParse "single-node-k3s" k3sSingleNodeInstaller (DataMap values)
              ∈ store.2) as Hin.
    { subst store.
      unfold storeKubernetesInstaller, bind_wrap, and_then, template_Parse.
      cbn [fst snd]. apply elem_of_app. left. by apply list_elem_of_singleton. }
    subst out. unfold configureK3S. fold k. rewrite bind_log. cbn [fst snd]. cbv beta.
    rewrite (bind_wrap_ok _ _ _ _ _ _ _ Hscript). cbn [fst snd].
    rewrite (bind_wrap_ok _ _ _ _ _ _ _ Hartefacts). cbn [fst snd].
    rewrite (bind_wrap_ok _ _ _ _ _ _ _ Hmanifests). cbn [fst snd]. cbv zeta.
    rewrite (bool_decide_true _ Hsingle).
    assert (bool_decide (APIVIP (Network_ k) = "") = false) as ->
      by (by apply bool_decide_false).
    rewrite bind_log2. fold values. fold store. cbn [fst snd].
    split; [by destruct store as [[??]?]|].
    rewrite !elem_of_cons, !elem_of_app, !elem_of_cons. split; [tauto|].
    do 4 right. by do 2 right.
Qed.

End warnings.

Lemma one_audit_outcome_witness :
  outcomes (configureKubernetes example_imports
              (example_combustion (Some example_registry)) example_multi_node
              example_fs).2 =
    [AuditComponentSuccessful k8sComponentName].
Proof.
  set (out := configureKubernetes example_imports
                (example_combustion (Some example_registry)) example_multi_node
                example_fs).
  exact (one_audit_outcome example_imports (example_combustion (Some example_registry))
           example_multi_node example_fs (Ok [k8sInstallScript]) out.1.2 out.2
           (run_ok out [k8sInstallScript] ltac:(vm_compute; reflexivity))).
Defined.

Lemma version_selects_the_distribution_witness :
  Forall (of_distribution example_imports true)
    (configureKubernetes example_imports (example_combustion None) example_rke2
       example_fs).2.
Proof.
  exact (version_selects_the_distribution example_imports (example_combustion None)
           example_rke2 example_fs _ _ _ (run_triple _)).
Defined.

Lemma successful_build_stores_the_installer_witness :
  let out := configureKubernetes example_imports
               (example_combustion (Some example_registry)) example_multi_node
               example_fs in
  last out.2 = Some (AuditComponentSuccessful k8sComponentName) ∧
  ∃ name contents data text x,
    contents ≠ k8sVIPManifest ∧ Parse example_imports name contents data = Ok text ∧
    out.1.2 !! Join [CombustionDir example_multi_node; k8sInstallScript] =
      Some (File text x).
Proof.
  intros out.
  exact (proj2 (successful_build_stores_the_installer example_imports
                  (example_combustion (Some example_registry)) example_multi_node
                  example_fs [k8sInstallScript] out.1.2 out.2 ltac:(discriminate)
                  (run_ok out [k8sInstallScript] ltac:(vm_compute; reflexivity)))).
Defined.

Lemma installer_is_the_only_file_stored_witness :
  let out := storeKubernetesInstaller example_imports example_multi_node
               "multi-node-k3s" k3sMultiNodeInstaller (DataMap example_values)
               example_fs in
  out.1.2 !! "/registry/manifests/ns.yaml" = example_fs !! "/registry/manifests/ns.yaml".
Proof.
  intros out.
  exact (proj1 (installer_is_the_only_file_stored example_imports example_multi_node
                  "multi-node-k3s" k3sMultiNodeInstaller (DataMap example_values)
                  example_fs _ _ _ (run_triple out))
           "/registry/manifests/ns.yaml" ltac:(vm_compute; discriminate)).
Defined.

Lemma failed_cluster_creates_nothing_witness :
  configureKubernetes (without_cluster "no server node" example_imports)
    (example_combustion None) example_multi_node example_fs =
    (Err "initialising cluster config: no server node", example_fs,
     [ Audit "Configuring Kubernetes component...";
       CallNewCluster "/config/kubernetes/config";
       AuditComponentFailed k8sComponentName ]).
Proof.
  exact (failed_cluster_creates_nothing (without_cluster "no server node" example_imports)
           (example_combustion None) example_multi_node example_fs "no server node"
           ltac:(discriminate) ltac:(discriminate) eq_refl).
Defined.

Lemma cluster_configs_are_stored_by_role_witness :
  let out := storeKubernetesClusterConfig example_imports example_cluster
               "/build/artefacts/kubernetes" example_artefacts_fs in
  ∃ data x, Marshal example_imports (ServerConfig example_cluster) = Ok data ∧
            out.1.2 !! "/build/artefacts/kubernetes/server.yaml" = Some (File data x).
Proof.
  intros out.
  exact (proj1 (cluster_configs_are_stored_by_role example_imports example_cluster
                  "/build/artefacts/kubernetes" example_artefacts_fs out.1.2 out.2
                  (run_ok out tt ltac:(vm_compute; reflexivity)))).
Defined.

Lemma rke2_artefacts_are_not_inspected_witness :
  let out := downloadRKE2Artefacts example_imports (example_combustion None)
               example_rke2 example_cluster example_fs in
  ∃ cni multus,
    ExtractCNI example_imports example_cluster = Ok (cni, multus) ∧
    CallDownloadRKE2Artefacts "x86_64" "v1.29.0+rke2r1" cni multus
      "/build/artefacts/kubernetes/install" "/build/artefacts/kubernetes/images"
      ∈ out.2.
Proof.
  intros out.
  exact (proj2 (proj1 (proj2 (rke2_artefacts_are_not_inspected example_imports
                                (example_combustion None) example_rke2 example_cluster
                                example_fs _ out.1.2 out.2
                                (run_ok out ("$ARTEFACTS_DIR/kubernetes/install",
                                             "$ARTEFACTS_DIR/kubernetes/images")
                                   ltac:(vm_compute; reflexivity))))
                  _ eq_refl)).
Defined.

Lemma helm_charts_are_stored_by_name_witness :
  let out := configureManifests example_imports
               (example_combustion (Some example_registry)) example_multi_node
               example_fs in
  ∃ stored data x,
    last (filter (λ ch, Metadata_Name ch = "metallb")
            [ {| Metadata_Name := "metallb"; Spec := "kind: HelmChart" |} ]) =
      Some stored ∧
    MarshalChart example_imports stored = Ok data ∧
    out.1.2 !! "/build/artefacts/kubernetes/manifests/metallb.yaml" = Some (File data x).
Proof.
  intros out.
  exact (helm_charts_are_stored_by_name example_imports
           (example_combustion (Some example_registry)) example_multi_node
           example_registry _ example_fs "$ARTEFACTS_DIR/kubernetes/manifests"
           out.1.2 out.2 {| Metadata_Name := "metallb"; Spec := "kind: HelmChart" |}
           eq_refl eq_refl
           (run_ok out "$ARTEFACTS_DIR/kubernetes/manifests" ltac:(vm_compute; reflexivity))
           ltac:(apply list_elem_of_here)).
Defined.

Lemma manifests_path_follows_configuration_witness :
  let out := configureManifests example_imports (example_combustion (Some bare_registry))
               (example_context "v1.29.0+k3s1" one_server "") bare_fs in
  out.1.1 = Ok "$ARTEFACTS_DIR/kubernetes/manifests" ∧
  ("$ARTEFACTS_DIR/kubernetes/manifests" =
     prependArtefactPath example_imports localKubernetesManifestsPath ∧
   "$ARTEFACTS_DIR/kubernetes/manifests" ≠ "") ∧
  dir_listing out.1.2 "/build/artefacts/kubernetes/manifests" = Some [].
Proof.
  intros out.
  assert (out.1.1 = Ok "$ARTEFACTS_DIR/kubernetes/manifests") as Hout
    by (vm_compute; reflexivity).
  split; [exact Hout|]. split; [|vm_compute; reflexivity].
  apply (proj1 (manifests_path_follows_configuration example_imports
                  (example_combustion (Some bare_registry))
                  (example_context "v1.29.0+k3s1" one_server "") bare_fs
                  "$ARTEFACTS_DIR/kubernetes/manifests" out.1.2 out.2
                  (run_ok out _ Hout))).
  right. exists bare_registry. split; [reflexivity|]. left. discriminate.
Defined.

Lemma vip_manifest_follows_the_vip_witness :
  let out := configureManifests example_imports (example_combustion None)
               example_multi_node example_fs in
  CallParse "k8s-vip" k8sVIPManifest (DataVIP "192.168.100.1" false) ∈ out.2 ∧
  ∃ manifest x,
    Parse example_imports "k8s-vip" k8sVIPManifest (DataVIP "192.168.100.1" false) =
      Ok manifest ∧
    out.1.2 !! "/build/artefacts/kubernetes/manifests/k8s-vip.yaml" =
      Some (File manifest x).
Proof.
  intros out.
  destruct (proj2 (vip_manifest_follows_the_vip example_imports (example_combustion None)
                     example_multi_node example_fs _ _ _ (run_triple out))
              ltac:(discriminate) ltac:(vm_compute; reflexivity)) as [Hin Hfile].
  split; [exact Hin|exact (Hfile eq_refl)].
Defined.

Lemma k3s_multi_node_values_fill_the_template_witness :
  let out := configureK3S example_imports (example_combustion (Some example_registry))
               example_multi_node example_cluster example_fs in
  ∃ script, k3s_multi_node_installer example_values = Some script.
Proof.
  intros out.
  destruct (k3s_multi_node_values_fill_the_template example_imports
              (example_combustion (Some example_registry)) example_multi_node
              example_cluster example_fs _ _ _ "multi-node-k3s" example_values
              (run_triple out)) as (_ & _ & _ & Hscript & _).
  - apply (list_elem_of_lookup_2 _ 18). vm_compute; reflexivity.
  - exact Hscript.
Defined.

Lemma rke2_installer_gets_the_install_path_witness :
  let out := configureRKE2 example_imports (example_combustion None) example_rke2
               example_cluster example_fs in
  (Audit warn_k3s_multi_node ∉ out.2) ∧ (ZapWarn warn_k3s_multi_node ∉ out.2).
Proof.
  intros out.
  exact (proj1 (rke2_installer_gets_the_install_path example_imports
                  (example_combustion None) example_rke2 example_cluster example_fs
                  _ _ _ (run_triple out)) warn_k3s_multi_node).
Defined.

Lemma k3s_warns_about_the_ingress_witness :
  let out := configureK3S example_imports (example_combustion (Some example_registry))
               example_multi_node example_cluster example_fs in
  Audit warn_k3s_multi_node ∈ out.2.
Proof.
  intros out.
  apply (proj1 (proj2 (k3s_warns_about_the_ingress example_imports
                  (example_combustion (Some example_registry)) example_multi_node
                  example_cluster example_fs _ _ _ (run_triple out)))).
  - vm_compute; reflexivity.
  - vm_compute; lia.
Defined.

Lemma template_follows_node_count_witness :
  let c := example_combustion (Some example_registry) in
  let multi := configureK3S example_imports c example_multi_node example_cluster
                 example_fs in
  let single := configureK3S example_imports c
                  (example_context "v1.29.0+k3s1" one_server "") example_cluster
                  example_fs in
  (multi.1.1 = Ok k8sInstallScript ∧
   ∃ values,
     installer_renderings multi.2 =
       [CallParse "multi-node-k3s" k3sMultiNodeInstaller (DataMap values)] ∧
     values !! "nodes" = Some (VNodes example_nodes) ∧
     values !! "initialiser" = Some (VStr "node-1") ∧
     values !! "initialiserConfigFile" = Some (VStr "init_server.yaml")) ∧
  (single.1.1 = Ok k8sInstallScript ∧
   ∃ values,
     installer_renderings single.2 =
       [CallParse "single-node-k3s" k3sSingleNodeInstaller (DataMap values)] ∧
     values !! "nodes" = None ∧ values !! "initialiser" = None ∧
     values !! "initialiserConfigFile" = None).
Proof.
  intros c multi single.
  assert (∀ ctx,
    let run1 := downloadKubernetesInstallScript example_imports c ctx
                  (KubernetesDistroK3S example_imports) example_fs in
    let run2 := downloadK3sArtefacts example_imports c ctx run1.1.2 in
    let run3 := configureManifests example_imports c ctx run2.1.2 in
    run1.1.1 = Ok "$ARTEFACTS_DIR/kubernetes/install.sh" →
    run2.1.1 = Ok ("$ARTEFACTS_DIR/kubernetes/install/k3s",
                   "$ARTEFACTS_DIR/kubernetes/images") →
    run3.1.1 = Ok "$ARTEFACTS_DIR/kubernetes/manifests" →
    renders_selected "single-node-k3s" "multi-node-k3s"
      k3sSingleNodeInstaller k3sMultiNodeInstaller ctx example_cluster
      (configureK3S example_imports c ctx example_cluster example_fs).2) as Hstaged.
  { intros ctx run1 run2 run3 H1 H2 H3.
    exact (proj1 (template_follows_node_count example_imports c ctx example_cluster
                    example_fs) _ _ _ _ _ _ _ _ _
             (run_ok run1 _ H1) (run_ok run2 _ H2) (run_ok run3 _ H3)). }
  split; (split; [vm_compute; reflexivity|]).
  - exact (Hstaged example_multi_node ltac:(vm_compute; reflexivity)
             ltac:(vm_compute; reflexivity) ltac:(vm_compute; reflexivity)).
  - exact (Hstaged (example_context "v1.29.0+k3s1" one_server "")
             ltac:(vm_compute; reflexivity)
             ltac:(vm_compute; reflexivity) ltac:(vm_compute; reflexivity)).
Defined.

Lemma run_parts {A} (out : result A * FS * list Event) r fs evs :
  out = (r, fs, evs) → out.1.1 = r ∧ out.1.2 = fs ∧ out.2 = evs.
Proof. by intros ->. Qed.

Lemma warnings_are_not_errors_witness :
  (let c := example_combustion None in
   let ctx := example_context "v1.29.0+k3s1" two_servers "" in
   let out := configureKubernetes example_imports c ctx example_fs in
   out.1.1 = Ok [k8sInstallScript] ∧
   Audit warn_two_servers ∈ out.2 ∧
   last out.2 = Some (AuditComponentSuccessful k8sComponentName) ∧
   ∃ text x, out.1.2 !! "/build/combustion/20-k8s-install.sh" = Some (File text x)) ∧
  (let c := example_combustion None in
   let ctx := example_context "v1.29.0+k3s1" one_server "192.168.100.1" in
   let out := configureK3S example_imports c ctx example_cluster example_fs in
   out.1.1 = Ok k8sInstallScript ∧ Audit warn_k3s_single_node_vip ∈ out.2).
Proof.
  split.
  - intros c ctx out.
    set (run1 := os.MkdirAll (kubernetesArtefactsPath ctx) example_fs).
    set (run2 := storeKubernetesClusterConfig example_imports example_cluster
                   (kubernetesArtefactsPath ctx) run1.1.2).
    set (run3 := configureK3S example_imports c ctx example_cluster run2.1.2).
    destruct (proj2 (proj1 (proj2 (warnings_are_not_errors example_imports c ctx
                                     example_fs))
                       (configureK3S example_imports c)
                       ltac:(reflexivity) ltac:(discriminate) ltac:(reflexivity))
                example_cluster run1.1.2 run2.1.2 run3.1.2 run1.2 run2.2 run3.2
                k8sInstallScript
                ltac:(vm_compute; reflexivity)
                (run_ok run1 tt ltac:(vm_compute; reflexivity))
                (run_ok run2 tt ltac:(vm_compute; reflexivity))
                (run_ok run3 k8sInstallScript ltac:(vm_compute; reflexivity)))
      as (Hout & _ & (name & contents & data & text & x & _ & _ & Hfile)).
    apply run_parts in Hout as (Hresult & Hfs & Hevs). fold out in Hresult, Hfs, Hevs.
    split; [exact Hresult|]. rewrite Hfs, Hevs. split; [|split].
    + apply elem_of_app. left. apply list_elem_of_further, list_elem_of_here.
    + by rewrite !app_assoc, last_snoc.
    + exists text, x. exact Hfile.
  - intros c ctx out.
    set (run1 := downloadKubernetesInstallScript example_imports c ctx
                   (KubernetesDistroK3S example_imports) example_fs).
    set (run2 := downloadK3sArtefacts example_imports c ctx run1.1.2).
    set (run3 := configureManifests example_imports c ctx run2.1.2).
    destruct (proj2 (proj2 (warnings_are_not_errors example_imports c ctx example_fs))
                example_cluster "$ARTEFACTS_DIR/kubernetes/install.sh"
                ("$ARTEFACTS_DIR/kubernetes/install/k3s", "$ARTEFACTS_DIR/kubernetes/images")
                "$ARTEFACTS_DIR/kubernetes/manifests"
                run1.1.2 run2.1.2 run3.1.2 run1.2 run2.2 run3.2
                ltac:(vm_compute; lia) ltac:(discriminate)
                (run_ok run1 "$ARTEFACTS_DIR/kubernetes/install.sh"
                   ltac:(vm_compute; reflexivity))
                (run_ok run2 ("$ARTEFACTS_DIR/kubernetes/install/k3s",
                              "$ARTEFACTS_DIR/kubernetes/images")
                   ltac:(vm_compute; reflexivity))
                (run_ok run3 "$ARTEFACTS_DIR/kubernetes/manifests"
                   ltac:(vm_compute; reflexivity)))
      as (Hsame & Hwarn & _).
    split; [|exact Hwarn].
    fold out in Hsame. rewrite (f_equal fst Hsame). vm_compute; reflexivity.
Defined.
